(** * quant-engine: order lifecycle and risk-control engine

    A shallow embedding of the core of the quant-engine package
    ([quant_engine.models], [quant_engine.core.risk],
    [quant_engine.core.scheduler], [quant_engine.core.executor],
    [quant_engine.core.signal], the order and signal repositories of
    [quant_engine.storage.repository] and the miniQMT adapter in
    simulation mode) together with the properties its specification
    states about it and further properties of the code.

    Conventions of the embedding.
    - [decimal.Decimal] values are rationals ([Q]); [+], [-], [*], [/] are
      the exact operations and [quantize] rounds half-even to a number of
      decimal places.  The 28-digit precision of the decimal context and
      the conversions to [float] made for display are outside the model.
    - Configuration values that the code reads as [Decimal(str(x))] are
      given as the decimal they denote.
    - [uuid4()] and [datetime.now()] draw from counters of the world state.
    - Objects that a method mutates are passed in and handed back.
    - The process logger ([logger.info] and the like) is not modelled, the
      audit log of [TradeLogRepository] is; an exception raised while the
      text of a log line is built is modelled, since it ends the call.
    - The store is the SQLite database of the default configuration.  Its
      [Numeric] columns keep the [float] that the repositories write and
      give it back rounded to the scale of the column; [float] is IEEE 754
      binary64, and a value beyond its range is outside the model, as is
      an integer beyond the 64 bits of an [INTEGER] column, which the
      driver refuses to write. *)

From Stdlib Require Import ZArith QArith Qabs Bool Ascii String List Lia.
From Stdlib Require Import Permutation.
Import ListNotations.

Open Scope string_scope.
Open Scope Z_scope.

(** ** decimal.Decimal *)

Module Decimal.

Definition t : Type := Q.

Definition zero : t := 0%Q.

(** [Decimal(str(n))] for an [int]. *)
Definition of_int (n : Z) : t := inject_Z n.

Definition eqb (a b : t) : bool := Qeq_bool a b.
Definition leb (a b : t) : bool := Qle_bool a b.
Definition ltb (a b : t) : bool := negb (Qle_bool b a).
Definition geb (a b : t) : bool := leb b a.
Definition gtb (a b : t) : bool := ltb b a.

(** Nearest integer, ties to the even one (ROUND_HALF_EVEN). *)
Definition round_half_even (q : Q) : Z :=
  let n := Qnum q in
  let d := Zpos (Qden q) in
  let f := n / d in
  let r := n mod d in
  match (2 * r) ?= d with
  | Lt => f
  | Gt => f + 1
  | Eq => if Z.even f then f else f + 1
  end.

Definition pow10 (places : nat) : positive :=
  Nat.iter places (Pos.mul 10) 1%positive.

(** [q.quantize(Decimal("0.0001"))] is [quantize q 4]. *)
Definition quantize (q : t) (places : nat) : t :=
  Qmake (round_half_even (q * inject_Z (Zpos (pow10 places)))) (pow10 places).

(** Truth value of an [Optional[Decimal]]: [None] and zero are false. *)
Definition truthy (d : option t) : bool :=
  match d with
  | Some q => negb (eqb q zero)
  | None => false
  end.

(** [d or Decimal("0")]. *)
Definition or_zero (d : option t) : t :=
  match d with
  | Some q => if truthy d then q else zero
  | None => zero
  end.

End Decimal.

(** ** float *)

Module Float.

(** A [float] is given by the rational it denotes. *)
Definition t : Type := Q.

Definition pow2 (e : Z) : Q := (2 ^ e)%Q.

(** The binade of a rational that is not zero: the largest [k] with
    [2^k <= |q|]. *)
Definition ilog2 (q : Q) : Z :=
  let k := Z.log2 (Z.abs (Qnum q)) - Z.log2 (Zpos (Qden q)) in
  if Qle_bool (pow2 k) (Qabs q) then k else k - 1.

(** [float(d)] for a [Decimal]: the binary64 number nearest to [d], ties
    to the even significand.  The significand has 53 bits, and the
    exponent of its last bit is at least -1074. *)
Definition of_decimal (d : Decimal.t) : t :=
  if Decimal.eqb d Decimal.zero then 0%Q
  else
    let e := Z.max (ilog2 d - 52) (-1074) in
    (inject_Z (Decimal.round_half_even (d / pow2 e)) * pow2 e)%Q.

(** [Decimal("%.<places>f" % x)]: the decimal with [places] places
    nearest to [x], ties to even. *)
Definition format_fixed (places : nat) (x : t) : Decimal.t :=
  Decimal.quantize x places.

End Float.

(** [len(s)] for a [str]: the strings are UTF-8 encoded, and a character
    is counted at its first byte (the bytes that continue one are
    10xxxxxx). *)
Definition is_continuation (c : ascii) : bool :=
  (128 <=? nat_of_ascii c)%nat && (nat_of_ascii c <? 192)%nat.

Fixpoint str_len (s : string) : nat :=
  match s with
  | EmptyString => 0%nat
  | String c rest =>
      if is_continuation c then str_len rest else S (str_len rest)
  end.

(** Truth value of an [Optional[str]]: [None] and the empty string are
    false. *)
Definition str_truthy (s : option string) : bool :=
  match s with
  | Some x => negb (String.eqb x "")
  | None => false
  end.

(** [s or default] for an [Optional[str]]. *)
Definition str_or (s : option string) (default : string) : string :=
  match s with
  | Some x => if str_truthy s then x else default
  | None => default
  end.

Definition UUID : Type := nat.

Bind Scope nat_scope with UUID.

(** A reading of [datetime.now()] as stored in the records. *)
Definition Timestamp : Type := Z.

(** ** quant_engine.models.order *)

Inductive OrderDirection : Type := BUY | SELL.

Inductive OrderType : Type := MARKET | LIMIT.

Inductive OrderStatus : Type :=
| PENDING
| SUBMITTED
| PARTIAL_FILLED
| FILLED
| CANCELLED
| REJECTED
| FAILED.

Definition OrderDirection_eqb (a b : OrderDirection) : bool :=
  match a, b with
  | BUY, BUY | SELL, SELL => true
  | _, _ => false
  end.

Definition OrderStatus_eqb (a b : OrderStatus) : bool :=
  match a, b with
  | PENDING, PENDING | SUBMITTED, SUBMITTED
  | PARTIAL_FILLED, PARTIAL_FILLED | FILLED, FILLED
  | CANCELLED, CANCELLED | REJECTED, REJECTED | FAILED, FAILED => true
  | _, _ => false
  end.

(** The models set [use_enum_values]: the validation made by the
    constructor of a model stores the value of an enum member, a plain
    [str], in the attribute.  An attribute assigned afterwards (no
    assignment is validated) and a model built by [model_construct] hold
    the member itself.  The enums derive from [str], so the comparisons
    of the code give the same answer for both; [.value] exists on the
    member only. *)
Inductive EnumAttr : Type := AsValue | AsMember.

(** [OrderDirection.BUY.value] and [OrderDirection.SELL.value]. *)
Definition OrderDirection_value (d : OrderDirection) : string :=
  match d with
  | BUY => "BUY"
  | SELL => "SELL"
  end.

Module Order.

(** [direction_attr] tells what the attribute [direction] holds. *)
Record t : Type := mk {
  id : UUID;
  symbol : string;
  direction : OrderDirection;
  direction_attr : EnumAttr;
  quantity : Z;
  price : option Decimal.t;
  order_type : OrderType;
  status : OrderStatus;
  filled_quantity : Z;
  filled_price : option Decimal.t;
  broker_order_id : option string;
  signal_id : option UUID;
  error_message : option string;
  created_at : Timestamp;
  updated_at : Timestamp
}.

Definition set_status (s : OrderStatus) (o : t) : t :=
  mk (id o) (symbol o) (direction o) (direction_attr o)
     (quantity o) (price o) (order_type o)
     s (filled_quantity o) (filled_price o) (broker_order_id o)
     (signal_id o) (error_message o) (created_at o) (updated_at o).

Definition set_filled_quantity (n : Z) (o : t) : t :=
  mk (id o) (symbol o) (direction o) (direction_attr o)
     (quantity o) (price o) (order_type o)
     (status o) n (filled_price o) (broker_order_id o)
     (signal_id o) (error_message o) (created_at o) (updated_at o).

Definition set_filled_price (p : option Decimal.t) (o : t) : t :=
  mk (id o) (symbol o) (direction o) (direction_attr o)
     (quantity o) (price o) (order_type o)
     (status o) (filled_quantity o) p (broker_order_id o)
     (signal_id o) (error_message o) (created_at o) (updated_at o).

Definition set_broker_order_id (b : option string) (o : t) : t :=
  mk (id o) (symbol o) (direction o) (direction_attr o)
     (quantity o) (price o) (order_type o)
     (status o) (filled_quantity o) (filled_price o) b
     (signal_id o) (error_message o) (created_at o) (updated_at o).

Definition set_error_message (m : option string) (o : t) : t :=
  mk (id o) (symbol o) (direction o) (direction_attr o)
     (quantity o) (price o) (order_type o)
     (status o) (filled_quantity o) (filled_price o) (broker_order_id o)
     (signal_id o) m (created_at o) (updated_at o).

Definition set_updated_at (ts : Timestamp) (o : t) : t :=
  mk (id o) (symbol o) (direction o) (direction_attr o)
     (quantity o) (price o) (order_type o)
     (status o) (filled_quantity o) (filled_price o) (broker_order_id o)
     (signal_id o) (error_message o) (created_at o) ts.

(** The field constraints of the pydantic model: [symbol] has
    [max_length=20], counted in characters, and [quantity] has [gt=0]. *)
Definition valid_fields (sym : string) (qty : Z) : bool :=
  (Nat.leb (str_len sym) 20) && (0 <? qty).

Definition is_completed (o : t) : bool :=
  match status o with
  | FILLED | CANCELLED | REJECTED | FAILED => true
  | _ => false
  end.

Definition unfilled_quantity (o : t) : Z :=
  quantity o - filled_quantity o.

(** [now] is the reading of [datetime.now()] taken inside the call. *)
Definition update_status (new_status : OrderStatus)
    (msg : option string) (now : Timestamp) (o : t) : t :=
  let o := set_status new_status o in
  let o := set_updated_at now o in
  if str_truthy msg then set_error_message msg o else o.

End Order.

(** ** quant_engine.models.signal *)

Inductive SignalDirection : Type := SIG_BUY | SIG_SELL.

(** [SignalDirection.BUY.value] and [SignalDirection.SELL.value]. *)
Definition SignalDirection_value (d : SignalDirection) : string :=
  match d with
  | SIG_BUY => "BUY"
  | SIG_SELL => "SELL"
  end.

Module TradingSignal.

(** [direction_attr] tells what the attribute [direction] holds. *)
Record t : Type := mk {
  id : UUID;
  symbol : string;
  name : option string;
  direction : SignalDirection;
  direction_attr : EnumAttr;
  target_quantity : Z;
  target_price : option Decimal.t;
  target_ratio : option Decimal.t;
  source : string;
  strategy_name : option string;
  reason : option string;
  executed : bool;
  order_id : option UUID;
  created_at : Timestamp;
  executed_at : option Timestamp
}.

(** The field constraints of the pydantic model: [symbol] has
    [max_length=20], [name] has [max_length=50] and [target_quantity]
    has [ge=0]. *)
Definition valid (s : t) : bool :=
  (Nat.leb (str_len (symbol s)) 20)
  && match name s with
     | Some n => Nat.leb (str_len n) 50
     | None => true
     end
  && (0 <=? target_quantity s).

Definition mark_executed (oid : UUID) (now : Timestamp) (s : t) : t :=
  mk (id s) (symbol s) (name s) (direction s) (direction_attr s)
     (target_quantity s) (target_price s) (target_ratio s) (source s)
     (strategy_name s) (reason s) true (Some oid) (created_at s) (Some now).

End TradingSignal.

(** ** quant_engine.models.position *)

Module Position.

Record t : Type := mk {
  id : UUID;
  symbol : string;
  name : option string;
  quantity : Z;
  available_quantity : Z;
  frozen_quantity : Z;
  avg_cost : Decimal.t;
  current_price : Decimal.t;
  updated_at : Timestamp
}.

Definition market_value (p : t) : Decimal.t :=
  (Decimal.of_int (quantity p) * current_price p)%Q.

Definition cost_value (p : t) : Decimal.t :=
  (Decimal.of_int (quantity p) * avg_cost p)%Q.

Definition profit_loss (p : t) : Decimal.t :=
  (market_value p - cost_value p)%Q.

Definition profit_loss_ratio (p : t) : Decimal.t :=
  if Decimal.eqb (cost_value p) Decimal.zero then Decimal.zero
  else Decimal.quantize (profit_loss p / cost_value p)%Q 4.

End Position.

(** ** quant_engine.models.account *)

Module Account.

Record t : Type := mk {
  account_id : string;
  account_type : string;
  total_asset : Decimal.t;
  cash : Decimal.t;
  frozen_cash : Decimal.t;
  market_value : Decimal.t;
  total_profit_loss : Decimal.t;
  today_profit_loss : Decimal.t;
  updated_at : Timestamp
}.

Definition available_cash (a : t) : Decimal.t :=
  (cash a - frozen_cash a)%Q.

Definition position_ratio (a : t) : Decimal.t :=
  if Decimal.eqb (total_asset a) Decimal.zero then Decimal.zero
  else Decimal.quantize (market_value a / total_asset a)%Q 4.

End Account.


(** ** quant_engine.utils.exceptions *)

(** An f-string: literal text, interpolated strings and integers, and
    decimals printed with [:.Nf]. *)
Inductive Frag : Type :=
| Lit (s : string)
| Int (n : Z)
| Fixed (places : nat) (q : Decimal.t).

Definition Message : Type := list Frag.

Inductive Exn : Type :=
| ValidationError
| RiskControlError (message : Message) (rule : string)
| PositionLimitError (message : Message)
| StopLossError (message : Message)
| DailyLossLimitError (message : Message)
| OrderSubmitError (message : string)
| BrokerRaised (str_e : string)
| AttributeError (message : string).

(** [isinstance(e, RiskControlError)]. *)
Definition is_RiskControlError (e : Exn) : bool :=
  match e with
  | RiskControlError _ _ | PositionLimitError _
  | StopLossError _ | DailyLossLimitError _ => true
  | _ => false
  end.

(** The [rule] attribute of a risk-control error. *)
Definition exn_rule (e : Exn) : string :=
  match e with
  | RiskControlError _ r => r
  | PositionLimitError _ => "POSITION_LIMIT"
  | StopLossError _ => "STOP_LOSS"
  | DailyLossLimitError _ => "DAILY_LOSS_LIMIT"
  | _ => ""
  end.

Inductive Result (A : Type) : Type :=
| Ok (a : A)
| Raise (e : Exn).

Arguments Ok {A} a.
Arguments Raise {A} e.

(** [str(e)] for the [AttributeError] of [x.value] on a [str]. *)
Definition no_attribute_value : string :=
  "'str' object has no attribute 'value'".

(** [attr.value] for an enum attribute whose member has the value
    [member_value]. *)
Definition dot_value (attr : EnumAttr) (member_value : string)
    : Result string :=
  match attr with
  | AsMember => Ok member_value
  | AsValue => Raise (AttributeError no_attribute_value)
  end.

(** ** quant_engine.utils.config.RiskConfig *)

Module RiskConfig.

Record t : Type := mk {
  enabled : bool;
  max_position_ratio : Decimal.t;
  max_daily_loss_ratio : Decimal.t;
  stop_loss_ratio : Decimal.t;
  take_profit_ratio : Decimal.t;
  max_holdings : Z;
  max_order_amount : Decimal.t
}.

End RiskConfig.

(** ** quant_engine.core.risk *)

Inductive DetailValue : Type :=
| DNum (q : Decimal.t)
| DInt (n : Z)
| DStr (s : string).

Module RiskCheckResult.

Record t : Type := mk {
  passed : bool;
  rule : string;
  message : Message;
  details : option (list (string * DetailValue))
}.

End RiskCheckResult.

Module RiskManager.

Import RiskCheckResult.

Record t : Type := mk_manager {
  _config : RiskConfig.t;
  _daily_loss : Decimal.t;
  _initial_asset : Decimal.t
}.

Definition enabled (rm : t) : bool := RiskConfig.enabled (_config rm).

Definition set_initial_asset (asset : Decimal.t) (rm : t) : t :=
  mk_manager (_config rm) Decimal.zero asset.

Definition reset_daily_loss (rm : t) : t :=
  mk_manager (_config rm) Decimal.zero (_initial_asset rm).

Definition _check_order_amount (rm : t) (order : Order.t) : RiskCheckResult.t :=
  match Order.price order with
  | None => mk true "order_amount" [Lit "市价单跳过金额检查"] None
  | Some price =>
      let amount := (price * Decimal.of_int (Order.quantity order))%Q in
      let max_amount := RiskConfig.max_order_amount (_config rm) in
      if Decimal.gtb amount max_amount then
        mk false "order_amount"
           [Lit "单笔交易金额 "; Fixed 2 amount; Lit " 超过限制 ";
            Fixed 2 max_amount]
           (Some [("amount", DNum amount); ("limit", DNum max_amount)])
      else
        mk true "order_amount" [Lit "单笔交易金额检查通过"] None
  end.

Definition _check_position_limit (rm : t) (order : Order.t)
    (account : Account.t) (positions : list Position.t) : RiskCheckResult.t :=
  match Order.direction order with
  | SELL => mk true "position_limit" [Lit "卖出订单跳过持仓比例检查"] None
  | BUY =>
      let current_position :=
        find (fun p => String.eqb (Position.symbol p) (Order.symbol order))
             positions in
      let current_value :=
        match current_position with
        | Some p => Position.market_value p
        | None => Decimal.zero
        end in
      let order_value :=
        (Decimal.or_zero (Order.price order)
         * Decimal.of_int (Order.quantity order))%Q in
      let total_value := (current_value + order_value)%Q in
      let max_ratio := RiskConfig.max_position_ratio (_config rm) in
      let max_value := (Account.total_asset account * max_ratio)%Q in
      if Decimal.gtb total_value max_value then
        mk false "position_limit"
           [Lit "股票 "; Lit (Order.symbol order); Lit " 持仓将达到 ";
            Fixed 2 total_value; Lit "，超过限制 "; Fixed 2 max_value;
            Lit " ("; Fixed 0 (max_ratio * 100)%Q; Lit "%)"]
           (Some [("symbol", DStr (Order.symbol order));
                  ("current_value", DNum current_value);
                  ("order_value", DNum order_value);
                  ("total_value", DNum total_value);
                  ("limit", DNum max_value)])
      else
        mk true "position_limit" [Lit "持仓比例检查通过"] None
  end.

(** [{p.symbol for p in positions if p.quantity > 0}], as a list without
    repetitions. *)
Definition current_symbols (positions : list Position.t) : list string :=
  nodup string_dec
    (map Position.symbol
       (filter (fun p => 0 <? Position.quantity p) positions)).

Definition _check_holdings_limit (rm : t) (order : Order.t)
    (positions : list Position.t) : RiskCheckResult.t :=
  match Order.direction order with
  | SELL => mk true "holdings_limit" [Lit "卖出订单跳过持仓数量检查"] None
  | BUY =>
      let symbols := current_symbols positions in
      let is_new_position :=
        negb (existsb (String.eqb (Order.symbol order)) symbols) in
      let max_holdings := RiskConfig.max_holdings (_config rm) in
      if is_new_position && (max_holdings <=? Z.of_nat (length symbols)) then
        mk false "holdings_limit"
           [Lit "持仓股票数量已达上限 "; Int max_holdings]
           (Some [("current_holdings", DInt (Z.of_nat (length symbols)));
                  ("limit", DInt max_holdings)])
      else
        mk true "holdings_limit" [Lit "持仓数量检查通过"] None
  end.

Definition _check_daily_loss (rm : t) (account : Account.t)
    : RiskCheckResult.t :=
  if Decimal.leb (_initial_asset rm) Decimal.zero then
    mk true "daily_loss" [Lit "未设置初始资产，跳过日内亏损检查"] None
  else
    let daily_loss := (_initial_asset rm - Account.total_asset account)%Q in
    let loss_ratio := (daily_loss / _initial_asset rm)%Q in
    let max_loss_ratio := RiskConfig.max_daily_loss_ratio (_config rm) in
    if Decimal.gtb loss_ratio max_loss_ratio then
      mk false "daily_loss"
         [Lit "日内亏损 "; Fixed 2 (loss_ratio * 100)%Q; Lit "% 超过限制 ";
          Fixed 0 (max_loss_ratio * 100)%Q; Lit "%"]
         (Some [("daily_loss", DNum daily_loss);
                ("loss_ratio", DNum loss_ratio);
                ("limit", DNum max_loss_ratio)])
    else
      mk true "daily_loss"
         [Lit "日内亏损 "; Fixed 2 (loss_ratio * 100)%Q; Lit "% 在限制范围内"]
         None.

Definition _check_stop_loss (rm : t) (position : Position.t)
    : RiskCheckResult.t :=
  if Position.quantity position <=? 0 then
    mk true "stop_loss" [Lit "无持仓，跳过止损检查"] None
  else
    let loss_ratio := (- Position.profit_loss_ratio position)%Q in
    let stop_loss_ratio := RiskConfig.stop_loss_ratio (_config rm) in
    if Decimal.geb loss_ratio stop_loss_ratio then
      mk false "stop_loss"
         [Lit "股票 "; Lit (Position.symbol position); Lit " 亏损 ";
          Fixed 2 (loss_ratio * 100)%Q; Lit "% 触发止损线 ";
          Fixed 0 (stop_loss_ratio * 100)%Q; Lit "%"]
         (Some [("symbol", DStr (Position.symbol position));
                ("loss_ratio", DNum loss_ratio);
                ("stop_loss_ratio", DNum stop_loss_ratio);
                ("quantity", DInt (Position.quantity position))])
    else
      mk true "stop_loss"
         [Lit "股票 "; Lit (Position.symbol position); Lit " 未触发止损"] None.

Definition _check_take_profit (rm : t) (position : Position.t)
    : RiskCheckResult.t :=
  if Position.quantity position <=? 0 then
    mk true "take_profit" [Lit "无持仓，跳过止盈检查"] None
  else
    let profit_ratio := Position.profit_loss_ratio position in
    let take_profit_ratio := RiskConfig.take_profit_ratio (_config rm) in
    if Decimal.geb profit_ratio take_profit_ratio then
      mk false "take_profit"
         [Lit "股票 "; Lit (Position.symbol position); Lit " 盈利 ";
          Fixed 2 (profit_ratio * 100)%Q; Lit "% 触发止盈线 ";
          Fixed 0 (take_profit_ratio * 100)%Q; Lit "%"]
         (Some [("symbol", DStr (Position.symbol position));
                ("profit_ratio", DNum profit_ratio);
                ("take_profit_ratio", DNum take_profit_ratio);
                ("quantity", DInt (Position.quantity position))])
    else
      mk true "take_profit"
         [Lit "股票 "; Lit (Position.symbol position); Lit " 未触发止盈"] None.

Definition _check_single_position_ratio (rm : t) (position : Position.t)
    (account : Account.t) : RiskCheckResult.t :=
  if Decimal.leb (Account.total_asset account) Decimal.zero then
    mk true "single_position_ratio" [Lit "总资产为0，跳过检查"] None
  else
    let ratio :=
      (Position.market_value position / Account.total_asset account)%Q in
    let max_ratio := RiskConfig.max_position_ratio (_config rm) in
    if Decimal.gtb ratio max_ratio then
      mk false "single_position_ratio"
         [Lit "股票 "; Lit (Position.symbol position); Lit " 持仓比例 ";
          Fixed 2 (ratio * 100)%Q; Lit "% 超过限制 ";
          Fixed 0 (max_ratio * 100)%Q; Lit "%"]
         (Some [("symbol", DStr (Position.symbol position));
                ("ratio", DNum ratio);
                ("limit", DNum max_ratio)])
    else
      mk true "single_position_ratio"
         [Lit "股票 "; Lit (Position.symbol position); Lit " 持仓比例正常"]
         None.

(** The [for result in checks] loop: the first result that did not pass. *)
Fixpoint first_failed (checks : list RiskCheckResult.t)
    : option RiskCheckResult.t :=
  match checks with
  | [] => None
  | result :: rest =>
      if negb (passed result) then Some result else first_failed rest
  end.

Definition check_order (rm : t) (order : Order.t) (account : Account.t)
    (positions : list Position.t) : RiskCheckResult.t :=
  if negb (RiskConfig.enabled (_config rm)) then
    mk true "disabled" [Lit "风控已禁用"] None
  else
    let checks :=
      [ _check_order_amount rm order;
        _check_position_limit rm order account positions;
        _check_holdings_limit rm order positions;
        _check_daily_loss rm account ] in
    match first_failed checks with
    | Some result => result
    | None => mk true "all" [Lit "所有风控检查通过"] None
    end.

Definition check_all (rm : t) (account : Account.t)
    (positions : list Position.t) : list RiskCheckResult.t :=
  _check_daily_loss rm account
  :: flat_map
       (fun position =>
          [ _check_stop_loss rm position;
            _check_take_profit rm position;
            _check_single_position_ratio rm position account ])
       positions.

Definition validate_order_or_raise (rm : t) (order : Order.t)
    (account : Account.t) (positions : list Position.t) : Result unit :=
  let result := check_order rm order account positions in
  if negb (passed result) then
    if String.eqb (rule result) "position_limit" then
      Raise (PositionLimitError (message result))
    else if String.eqb (rule result) "daily_loss" then
      Raise (DailyLossLimitError (message result))
    else if String.eqb (rule result) "stop_loss" then
      Raise (StopLossError (message result))
    else
      Raise (RiskControlError (message result) (rule result))
  else Ok tt.

End RiskManager.


(** ** datetime.time and datetime.datetime *)

Module TimeOfDay.

Record t : Type := mk {
  hour : Z;
  minute : Z;
  second : Z;
  microsecond : Z
}.

(** The field ranges every [datetime.time] object has. *)
Definition valid (x : t) : Prop :=
  0 <= hour x < 24 /\ 0 <= minute x < 60 /\ 0 <= second x < 60
  /\ 0 <= microsecond x < 1000000.

(** [a < b] and [a <= b]: naive times compare as the tuples
    (hour, minute, second, microsecond). *)
Definition ltb (a b : t) : bool :=
  (hour a <? hour b)
  || ((hour a =? hour b)
      && ((minute a <? minute b)
          || ((minute a =? minute b)
              && ((second a <? second b)
                  || ((second a =? second b)
                      && (microsecond a <? microsecond b)))))).

Definition eqb (a b : t) : bool :=
  (hour a =? hour b) && (minute a =? minute b)
  && (second a =? second b) && (microsecond a =? microsecond b).

Definition leb (a b : t) : bool := ltb a b || eqb a b.

(** Microseconds since midnight. *)
Definition to_micros (x : t) : Z :=
  ((hour x * 60 + minute x) * 60 + second x) * 1000000 + microsecond x.

End TimeOfDay.

Module DateTime.

(** A naive [datetime]: the proleptic Gregorian ordinal of its date
    ([date.toordinal()], day 1 is Monday 0001-01-01) and its time of day. *)
Record t : Type := mk {
  toordinal : Z;
  time : TimeOfDay.t
}.

(** [dt.weekday()]: Monday is 0 and Sunday is 6. *)
Definition weekday (dt : t) : Z := (toordinal dt + 6) mod 7.

(** [dt.replace(hour=h, minute=m, second=0, microsecond=0)]. *)
Definition replace_hm (h m : Z) (dt : t) : t :=
  mk (toordinal dt) (TimeOfDay.mk h m 0 0).

End DateTime.

(** ** quant_engine.core.scheduler *)

Module TradingScheduler.

(** The scheduler after [__init__]: the six configured times, parsed. *)
Record t : Type := mk {
  _morning_start : TimeOfDay.t;
  _morning_end : TimeOfDay.t;
  _afternoon_start : TimeOfDay.t;
  _afternoon_end : TimeOfDay.t;
  _signal_fetch_time : TimeOfDay.t;
  _order_execute_time : TimeOfDay.t
}.

(** [now] is the reading of [datetime.now()] used when [dt] is [None]. *)
Definition is_trading_time (sch : t) (now : DateTime.t)
    (dt : option DateTime.t) : bool :=
  let dt := match dt with Some d => d | None => now end in
  if 5 <=? DateTime.weekday dt then false
  else
    let current_time := DateTime.time dt in
    let in_morning :=
      TimeOfDay.leb (_morning_start sch) current_time
      && TimeOfDay.leb current_time (_morning_end sch) in
    let in_afternoon :=
      TimeOfDay.leb (_afternoon_start sch) current_time
      && TimeOfDay.leb current_time (_afternoon_end sch) in
    in_morning || in_afternoon.

Definition is_signal_fetch_time (sch : t) (now : DateTime.t)
    (dt : option DateTime.t) : bool :=
  let dt := match dt with Some d => d | None => now end in
  let current_time := DateTime.time dt in
  (TimeOfDay.hour current_time =? TimeOfDay.hour (_signal_fetch_time sch))
  && (TimeOfDay.minute current_time
      =? TimeOfDay.minute (_signal_fetch_time sch)).

Definition is_order_execute_time (sch : t) (now : DateTime.t)
    (dt : option DateTime.t) : bool :=
  let dt := match dt with Some d => d | None => now end in
  let current_time := DateTime.time dt in
  (TimeOfDay.hour current_time =? TimeOfDay.hour (_order_execute_time sch))
  && (TimeOfDay.minute current_time
      =? TimeOfDay.minute (_order_execute_time sch)).

Definition get_next_trading_time (sch : t) (now : DateTime.t)
    (dt : option DateTime.t) : option DateTime.t :=
  let dt := match dt with Some d => d | None => now end in
  let current_time := DateTime.time dt in
  if TimeOfDay.ltb current_time (_morning_start sch) then
    Some (DateTime.replace_hm (TimeOfDay.hour (_morning_start sch))
            (TimeOfDay.minute (_morning_start sch)) dt)
  else if TimeOfDay.ltb (_morning_end sch) current_time
          && TimeOfDay.ltb current_time (_afternoon_start sch) then
    Some (DateTime.replace_hm (TimeOfDay.hour (_afternoon_start sch))
            (TimeOfDay.minute (_afternoon_start sch)) dt)
  else None.

End TradingScheduler.


(** ** quant_engine.adapters.broker.base *)

Module OrderResult.

Record t : Type := mk {
  success : bool;
  broker_order_id : option string;
  message : option string
}.

End OrderResult.

(** What a call to the broker does: it returns, or it raises an exception
    [e], of which the core only ever uses [str(e)]. *)
Inductive BrokerReply (A : Type) : Type :=
| Returns (a : A)
| Throws (str_e : string).

Arguments Returns {A} a.
Arguments Throws {A} str_e.

Module Broker.

(** The abstract base class [Broker], over the state [B] of an adapter.
    Submitting and cancelling act on the broker; the three queries read
    it. *)
Class t (B : Type) : Type := {
  submit_order : Order.t -> B -> BrokerReply OrderResult.t * B;
  cancel_order : string -> B -> BrokerReply bool * B;
  query_order : string -> B -> BrokerReply (option Order.t);
  get_positions : B -> BrokerReply (list Position.t);
  get_account : B -> BrokerReply Account.t
}.

End Broker.

(** ** The world the executor runs in *)

Inductive ContextValue : Type :=
| CUuid (u : UUID)
| COptStr (s : option string).

Module TradeLog.

(** A row of [TradeLogTable]. *)
Record t : Type := mk {
  level : string;
  message : Message;
  context : list (string * ContextValue);
  created_at : Timestamp
}.

End TradeLog.

Module World.

Record t (B : Type) : Type := mk {
  orders : list Order.t;          (** rows of [OrderTable], keyed by [id] *)
  trade_logs : list TradeLog.t;   (** rows of [TradeLogTable] *)
  broker : B;
  submissions : list Order.t;     (** every order handed to
                                      [Broker.submit_order], latest first *)
  clock : Timestamp;              (** the next reading of [datetime.now()] *)
  next_uuid : UUID                (** the next value of [uuid4()] *)
}.

Arguments mk {B}.
Arguments orders {B}.
Arguments trade_logs {B}.
Arguments broker {B}.
Arguments submissions {B}.
Arguments clock {B}.
Arguments next_uuid {B}.

Definition set_orders {B} (rows : list Order.t) (w : t B) : t B :=
  mk rows (trade_logs w) (broker w) (submissions w) (clock w) (next_uuid w).

End World.

(** Computations that act on the world, and those that may also raise. *)
Definition St (B A : Type) : Type := World.t B -> A * World.t B.

Definition M (B A : Type) : Type := St B (Result A).

Definition retS {B A} (a : A) : St B A := fun w => (a, w).

Definition bindS {B A C} (c : St B A) (k : A -> St B C) : St B C :=
  fun w => let (a, w') := c w in k a w'.

Definition ret {B A} (a : A) : M B A := retS (Ok a).

Definition raise {B A} (e : Exn) : M B A := retS (Raise e).

Definition bind {B A C} (c : M B A) (k : A -> M B C) : M B C :=
  bindS c (fun r => match r with
                    | Ok a => k a
                    | Raise e => raise e
                    end).

Definition lift {B A} (c : St B A) : M B A := bindS c ret.

Definition of_result {B A} (r : Result A) : M B A := retS r.

Declare Scope exec_scope.
Delimit Scope exec_scope with exec.

Notation "x <-- c ; k" := (bindS c (fun x => k))
  (at level 61, c at next level, right associativity) : exec_scope.
Notation "x <- c ;; k" := (bind c (fun x => k))
  (at level 61, c at next level, right associativity) : exec_scope.

(** [datetime.now()]. *)
Definition datetime_now {B} : St B Timestamp :=
  fun w =>
    (World.clock w,
     World.mk (World.orders w) (World.trade_logs w) (World.broker w)
       (World.submissions w) (World.clock w + 1) (World.next_uuid w)).

(** [uuid4()]. *)
Definition uuid4 {B} : St B UUID :=
  fun w =>
    (World.next_uuid w,
     World.mk (World.orders w) (World.trade_logs w) (World.broker w)
       (World.submissions w) (World.clock w) (S (World.next_uuid w))).

(** [Order(symbol=..., direction=..., quantity=..., price=...,
    order_type=..., signal_id=...)]: the remaining fields take their
    defaults, and pydantic raises when a field constraint is violated. *)
Definition new_Order {B} (symbol : string) (direction : OrderDirection)
    (quantity : Z) (price : option Decimal.t) (order_type : OrderType)
    (signal_id : option UUID) : M B Order.t :=
  (id <-- uuid4 ;
   created_at <-- datetime_now ;
   updated_at <-- datetime_now ;
   if Order.valid_fields symbol quantity then
     ret (Order.mk id symbol direction AsValue quantity price order_type
            PENDING 0 None None signal_id None created_at updated_at)
   else raise ValidationError)%exec.

(** ** quant_engine.storage.repository *)

Module OrderRepository.

(** A row is held in the record of the model: its prices are the
    [float]s of the [Numeric(12, 4)] columns, and its [direction] is the
    member that the [Enum] column gives. *)

(** [float(d) if d else None], as written to a [Numeric] column. *)
Definition column (d : option Decimal.t) : option Float.t :=
  if Decimal.truthy d then option_map Float.of_decimal d else None.

(** [Decimal(str(x)) if x else None] for the value [x] of a [Numeric]
    column of scale 4: the ORM gives the [float] of the store as
    [Decimal("%.4f" % value)]. *)
Definition of_column (x : option Float.t) : option Decimal.t :=
  let d := option_map (Float.format_fixed 4) x in
  if Decimal.truthy d then d else None.

Definition _to_row (order : Order.t) : Order.t :=
  Order.mk (Order.id order) (Order.symbol order) (Order.direction order)
    AsMember (Order.quantity order) (column (Order.price order))
    (Order.order_type order) (Order.status order)
    (Order.filled_quantity order) (column (Order.filled_price order))
    (Order.broker_order_id order) (Order.signal_id order)
    (Order.error_message order) (Order.created_at order)
    (Order.updated_at order).

Definition _to_model (row : Order.t) : Order.t :=
  Order.mk (Order.id row) (Order.symbol row) (Order.direction row)
    AsValue (Order.quantity row) (of_column (Order.price row))
    (Order.order_type row) (Order.status row)
    (Order.filled_quantity row) (of_column (Order.filled_price row))
    (Order.broker_order_id row) (Order.signal_id row)
    (Order.error_message row) (Order.created_at row)
    (Order.updated_at row).

(** [query(OrderTable).filter(OrderTable.id == id).first()]. *)
Definition first_by_id (id : UUID) (rows : list Order.t) : option Order.t :=
  find (fun row => Nat.eqb (Order.id row) id) rows.

(** The assignments [save] makes to an existing row. *)
Definition update_row (order : Order.t) (now : Timestamp) (existing : Order.t)
    : Order.t :=
  Order.mk (Order.id existing) (Order.symbol existing)
    (Order.direction existing) (Order.direction_attr existing)
    (Order.quantity existing)
    (Order.price existing) (Order.order_type existing)
    (Order.status order) (Order.filled_quantity order)
    (column (Order.filled_price order)) (Order.broker_order_id order)
    (Order.signal_id existing) (Order.error_message order)
    (Order.created_at existing) now.

(** Replaces the first row with the given id. *)
Fixpoint replace_first (id : UUID) (f : Order.t -> Order.t)
    (rows : list Order.t) : list Order.t :=
  match rows with
  | [] => []
  | row :: rest =>
      if Nat.eqb (Order.id row) id then f row :: rest
      else row :: replace_first id f rest
  end.

Definition save {B} (order : Order.t) : St B Order.t :=
  fun w =>
    match first_by_id (Order.id order) (World.orders w) with
    | Some _ =>
        let (now, w) := datetime_now w in
        (order,
         World.set_orders
           (replace_first (Order.id order) (update_row order now)
              (World.orders w)) w)
    | None =>
        (order, World.set_orders (World.orders w ++ [_to_row order]) w)
    end.

Definition get_by_id {B} (order_id : UUID) : St B (option Order.t) :=
  fun w => (option_map _to_model (first_by_id order_id (World.orders w)), w).

(** [order_by(desc(OrderTable.created_at))]. *)
Fixpoint insert_desc (row : Order.t) (sorted : list Order.t)
    : list Order.t :=
  match sorted with
  | [] => [row]
  | x :: rest =>
      if Order.created_at x <=? Order.created_at row then row :: sorted
      else x :: insert_desc row rest
  end.

Definition order_by_created_desc (rows : list Order.t) : list Order.t :=
  fold_right insert_desc [] rows.

Definition get_by_status {B} (status : OrderStatus) : St B (list Order.t) :=
  fun w =>
    (map _to_model
       (order_by_created_desc
          (filter (fun row => OrderStatus_eqb (Order.status row) status)
             (World.orders w))),
     w).

Definition get_pending_orders {B} : St B (list Order.t) :=
  get_by_status PENDING.

Definition is_active (row : Order.t) : bool :=
  match Order.status row with
  | SUBMITTED | PARTIAL_FILLED => true
  | _ => false
  end.

Definition get_active_orders {B} : St B (list Order.t) :=
  fun w =>
    (map _to_model
       (order_by_created_desc (filter is_active (World.orders w))),
     w).

End OrderRepository.

Module TradeLogRepository.

Definition log {B} (level : string) (message : Message)
    (context : list (string * ContextValue)) : St B unit :=
  fun w =>
    let (now, w) := datetime_now w in
    (tt,
     World.mk (World.orders w)
       (World.trade_logs w ++ [TradeLog.mk level message context now])
       (World.broker w) (World.submissions w) (World.clock w)
       (World.next_uuid w)).

Definition info {B} (message : Message)
    (context : list (string * ContextValue)) : St B unit :=
  log "INFO" message context.

Definition error {B} (message : Message)
    (context : list (string * ContextValue)) : St B unit :=
  log "ERROR" message context.

End TradeLogRepository.


(** ** quant_engine.core.executor *)

Module OrderExecutor.

Section WithBroker.

Context {B : Type} `{Broker.t B}.

Local Open Scope exec_scope.

(** [self._broker.get_account()] and [self._broker.get_positions()]; an
    exception of the broker propagates. *)
Definition broker_get_account : M B Account.t :=
  fun w =>
    match Broker.get_account (World.broker w) with
    | Returns a => (Ok a, w)
    | Throws e => (Raise (BrokerRaised e), w)
    end.

Definition broker_get_positions : M B (list Position.t) :=
  fun w =>
    match Broker.get_positions (World.broker w) with
    | Returns ps => (Ok ps, w)
    | Throws e => (Raise (BrokerRaised e), w)
    end.

(** [if account is None: account = self._broker.get_account()], and the
    same for the positions. *)
Definition account_or_fetch (account : option Account.t) : M B Account.t :=
  match account with
  | Some a => ret a
  | None => broker_get_account
  end.

Definition positions_or_fetch (positions : option (list Position.t))
    : M B (list Position.t) :=
  match positions with
  | Some ps => ret ps
  | None => broker_get_positions
  end.

Definition _create_order_from_signal (signal : TradingSignal.t)
    : M B Order.t :=
  let direction :=
    match TradingSignal.direction signal with
    | SIG_BUY => BUY
    | SIG_SELL => SELL
    end in
  let order_type :=
    if Decimal.truthy (TradingSignal.target_price signal)
    then LIMIT else MARKET in
  new_Order (TradingSignal.symbol signal) direction
    (TradingSignal.target_quantity signal)
    (TradingSignal.target_price signal) order_type
    (Some (TradingSignal.id signal)).

(** The [try]/[except Exception] around [self._broker.submit_order]. *)
Definition _submit_order (order : Order.t) : St B OrderResult.t :=
  fun w =>
    let (reply, b) := Broker.submit_order order (World.broker w) in
    let w :=
      World.mk (World.orders w) (World.trade_logs w) b
        (order :: World.submissions w) (World.clock w) (World.next_uuid w) in
    match reply with
    | Returns result => (result, w)
    | Throws e => (OrderResult.mk false None (Some e), w)
    end.

(** Returns, next to the result, the signal object as the call leaves
    it: [mark_executed] has been applied to it also when the call raises
    afterwards.  The text of the log line at entry is built from
    [signal.direction.value], that of the audit line from
    [order.direction.value], before anything is logged. *)
Definition execute_signal (rm : RiskManager.t) (signal : TradingSignal.t)
    (account : option Account.t) (positions : option (list Position.t))
    : St B (Result Order.t * TradingSignal.t) :=
  match dot_value (TradingSignal.direction_attr signal)
          (SignalDirection_value (TradingSignal.direction signal)) with
  | Raise e => retS (Raise e, signal)
  | Ok _ =>
      checked <--
        (order <- _create_order_from_signal signal ;;
         account <- account_or_fetch account ;;
         positions <- positions_or_fetch positions ;;
         _ <- of_result
                (RiskManager.validate_order_or_raise rm order account
                   positions) ;;
         ret order) ;
      match checked with
      | Raise e => retS (Raise e, signal)
      | Ok order =>
          _ <-- OrderRepository.save order ;
          result <-- _submit_order order ;
          if OrderResult.success result then
            let order :=
              Order.set_broker_order_id (OrderResult.broker_order_id result)
                order in
            now <-- datetime_now ;
            let order := Order.update_status SUBMITTED None now order in
            now <-- datetime_now ;
            let signal :=
              TradingSignal.mark_executed (Order.id order) now signal in
            match dot_value (Order.direction_attr order)
                    (OrderDirection_value (Order.direction order)) with
            | Raise e => retS (Raise e, signal)
            | Ok value =>
                _ <-- TradeLogRepository.info
                        [Lit "订单已提交: "; Lit (Order.symbol order);
                         Lit " "; Lit value; Lit " ";
                         Int (Order.quantity order); Lit "股"]
                        [("order_id", CUuid (Order.id order));
                         ("broker_order_id",
                          COptStr (OrderResult.broker_order_id result))] ;
                _ <-- OrderRepository.save order ;
                retS (Ok order, signal)
            end
          else
            now <-- datetime_now ;
            let order :=
              Order.update_status REJECTED (OrderResult.message result) now
                order in
            _ <-- TradeLogRepository.error
                    [Lit "订单提交失败: "; Lit (Order.symbol order);
                     Lit " - ";
                     Lit (match OrderResult.message result with
                          | Some m => m
                          | None => "None"
                          end)]
                    [("order_id", CUuid (Order.id order))] ;
            _ <-- OrderRepository.save order ;
            retS (Ok order, signal)
      end
  end.

(** Returns, next to the result, the caller's order object as the call
    leaves it: it has been updated also when the call raises. *)
Definition submit_order (order : Order.t)
    : St B (Result Order.t * Order.t) :=
  _ <-- OrderRepository.save order ;
  result <-- _submit_order order ;
  if OrderResult.success result then
    let order :=
      Order.set_broker_order_id (OrderResult.broker_order_id result) order in
    now <-- datetime_now ;
    let order := Order.update_status SUBMITTED None now order in
    _ <-- OrderRepository.save order ;
    retS (Ok order, order)
  else
    now <-- datetime_now ;
    let order :=
      Order.update_status REJECTED (OrderResult.message result) now order in
    retS (Raise (OrderSubmitError
                   (str_or (OrderResult.message result) "订单提交失败")),
          order).

Definition cancel_order (order_id : UUID) : St B bool :=
  found <-- OrderRepository.get_by_id order_id ;
  match found with
  | None => retS false
  | Some order =>
      if Order.is_completed order then retS false
      else if negb (str_truthy (Order.broker_order_id order)) then
        now <-- datetime_now ;
        let order := Order.update_status CANCELLED None now order in
        _ <-- OrderRepository.save order ;
        retS true
      else
        fun w =>
          let bid := match Order.broker_order_id order with
                     | Some b => b
                     | None => ""
                     end in
          let (reply, b) := Broker.cancel_order bid (World.broker w) in
          let w :=
            World.mk (World.orders w) (World.trade_logs w) b
              (World.submissions w) (World.clock w) (World.next_uuid w) in
          match reply with
          | Returns true =>
              (now <-- datetime_now ;
               let order := Order.update_status CANCELLED None now order in
               _ <-- OrderRepository.save order ;
               _ <-- TradeLogRepository.info
                       [Lit "订单已撤销: "; Lit (Order.symbol order)]
                       [("order_id", CUuid (Order.id order))] ;
               retS true) w
          | Returns false => (false, w)
          | Throws _ => (false, w)
          end
  end.

Definition sync_order_status (order_id : UUID) : St B (option Order.t) :=
  found <-- OrderRepository.get_by_id order_id ;
  match found with
  | None => retS None
  | Some order =>
      if negb (str_truthy (Order.broker_order_id order)) then
        retS (Some order)
      else
        fun w =>
          let bid := match Order.broker_order_id order with
                     | Some b => b
                     | None => ""
                     end in
          match Broker.query_order bid (World.broker w) with
          | Returns (Some broker_order) =>
              (let order :=
                 Order.set_status (Order.status broker_order) order in
               let order :=
                 Order.set_filled_quantity
                   (Order.filled_quantity broker_order) order in
               let order :=
                 Order.set_filled_price
                   (Order.filled_price broker_order) order in
               now <-- datetime_now ;
               let order := Order.set_updated_at now order in
               _ <-- OrderRepository.save order ;
               retS (Some order)) w
          | Returns None => (Some order, w)
          | Throws _ => (Some order, w)
          end
  end.

(** The [for order in active_orders] loop. *)
Fixpoint sync_each (active_orders : list Order.t)
    (updated_orders : list Order.t) : St B (list Order.t) :=
  match active_orders with
  | [] => retS updated_orders
  | order :: rest =>
      updated <-- sync_order_status (Order.id order) ;
      match updated with
      | Some o => sync_each rest (updated_orders ++ [o])
      | None => sync_each rest updated_orders
      end
  end.

Definition sync_all_active_orders : St B (list Order.t) :=
  active_orders <-- OrderRepository.get_active_orders ;
  sync_each active_orders [].

End WithBroker.

End OrderExecutor.


(** ** Runs of [update_status] *)

(** One call [order.update_status(status, error_message)] together with
    the clock reading it takes. *)
Record StatusCall : Type := mk_call {
  call_status : OrderStatus;
  call_message : option string;
  call_now : Timestamp
}.

Definition apply_call (o : Order.t) (c : StatusCall) : Order.t :=
  Order.update_status (call_status c) (call_message c) (call_now c) o.

(** The calls of the list, made one after the other on the same order. *)
Definition update_status_calls (calls : list StatusCall) (o : Order.t)
    : Order.t :=
  fold_left apply_call calls o.

(** ** Outcomes of the broker calls *)

(** The result [_submit_order] makes of a reply of the broker: the
    result itself, or a failure that carries [str(e)]. *)
Definition submit_result (reply : BrokerReply OrderResult.t) : OrderResult.t :=
  match reply with
  | Returns result => result
  | Throws e => OrderResult.mk false None (Some e)
  end.

(** The submission failed: the broker raised, or it answered
    [success=False]. *)
Definition submission_failed (reply : BrokerReply OrderResult.t) : bool :=
  negb (OrderResult.success (submit_result reply)).

(** The failure message that comes with a failed submission. *)
Definition failure_message (reply : BrokerReply OrderResult.t)
    : option string :=
  OrderResult.message (submit_result reply).

(** What [sync_order_status] hands back for the order [before] it found
    in the store, given the reply of the broker to the query: the order
    as it was found when it has no broker id, when the query raises and
    when the broker does not know the order; otherwise the order with the
    status and the fill of the broker's snapshot. *)
Definition sync_outcome (reply : string -> BrokerReply (option Order.t))
    (before after : Order.t) : Prop :=
  match Order.broker_order_id before with
  | None => after = before
  | Some bid =>
      if String.eqb bid "" then after = before
      else
        match reply bid with
        | Throws _ => after = before
        | Returns None => after = before
        | Returns (Some snapshot) =>
            Order.id after = Order.id before
            /\ Order.status after = Order.status snapshot
            /\ Order.filled_quantity after = Order.filled_quantity snapshot
            /\ Order.filled_price after = Order.filled_price snapshot
        end
  end.

(** The order [sync_order_status] makes of [order] and of the snapshot
    of the broker, at the clock reading [now]. *)
Definition refreshed (snapshot : Order.t) (now : Timestamp) (order : Order.t)
    : Order.t :=
  Order.set_updated_at now
    (Order.set_filled_price (Order.filled_price snapshot)
       (Order.set_filled_quantity (Order.filled_quantity snapshot)
          (Order.set_status (Order.status snapshot) order))).

(** The parts of the world that the clock and the id supply leave alone. *)
Definition same_books {B : Type} (w w' : World.t B) : Prop :=
  World.orders w' = World.orders w
  /\ World.trade_logs w' = World.trade_logs w
  /\ World.broker w' = World.broker w
  /\ World.submissions w' = World.submissions w.

(** ** Concrete inputs *)

Module Sample.

(** A filled order of 1000 shares, as the store gives it: the prices
    have the four places of the [Numeric(12, 4)] columns. *)
Definition filled_order : Order.t :=
  Order.mk 1 "000001.XSHE" BUY AsValue 1000 (Some 10.5000%Q) LIMIT FILLED
    1000 (Some 10.5000%Q) (Some "B1") None None 0 1.

(** The risk configuration of the unit tests, which is also the default
    one, with no baseline asset set. *)
Definition risk_config : RiskConfig.t :=
  RiskConfig.mk true 0.2%Q 0.05%Q 0.08%Q 0.20%Q 10 100000%Q.

Definition risk_manager : RiskManager.t :=
  RiskManager.mk_manager risk_config 0%Q 0%Q.

(** One share bought at 3 and quoted at 4: the exact ratio is 1/3. *)
Definition third_position : Position.t :=
  Position.mk 11 "600000.XSHG" None 1 1 0 3%Q 4%Q 0.

(** 5000 shares bought at 10.00 and quoted at 9.00. *)
Definition losing_position : Position.t :=
  Position.mk 12 "600000.XSHG" None 5000 5000 0 10%Q 9%Q 0.

(** The account of the unit tests. *)
Definition account : Account.t :=
  Account.mk "TEST001" "stock" 1000000%Q 500000%Q 0%Q 500000%Q 0%Q 0%Q 0.

(** A MARKET order that carries a price: one share at 200000. *)
Definition priced_market_order : Order.t :=
  Order.mk 2 "000002.XSHE" BUY AsValue 1 (Some 200000%Q) MARKET PENDING 0
    None None None None 0 0.

(** The LIMIT order of [test_check_order_amount_fail]: 10000 shares at
    50.00. *)
Definition large_limit_order : Order.t :=
  Order.mk 3 "000002.XSHE" BUY AsValue 10000 (Some 50%Q) LIMIT PENDING 0
    None None None None 0 0.

(** A broker for the examples: it accepts, rejects or fails every
    submission according to its mode and counts the submissions it has
    received; it knows every order but "B2", for which its query raises. *)
Inductive BrokerMode : Type := Accepting | Rejecting | Failing.

Record DemoBroker : Type := mk_demo {
  mode : BrokerMode;
  received : nat
}.

Definition snapshot : Order.t :=
  Order.mk 0 "000001.XSHE" BUY AsValue 1000 (Some 10.5%Q) LIMIT FILLED
    1000 (Some 10.5%Q) None None None 0 0.

#[global] Instance demo_broker : Broker.t DemoBroker := {|
  Broker.submit_order _ b :=
    (match mode b with
     | Accepting => Returns (OrderResult.mk true (Some "B100") None)
     | Rejecting => Returns (OrderResult.mk false None (Some "insufficient funds"))
     | Failing => Throws "connection lost"
     end,
     mk_demo (mode b) (S (received b)));
  Broker.cancel_order _ b := (Returns true, b);
  Broker.query_order bid _ :=
    if String.eqb bid "B2" then Throws "timeout"
    else Returns (Some snapshot);
  Broker.get_positions _ := Returns [];
  Broker.get_account _ := Returns account
|}.

(** Three active orders, created in the order 23, 22, 21, and a filled
    one, as the store gives them. *)
Definition order21 : Order.t :=
  Order.mk 21 "000001.XSHE" BUY AsValue 1000 (Some 10.5000%Q) LIMIT
    SUBMITTED 0 None (Some "B1") None None 30 30.

Definition order22 : Order.t :=
  Order.mk 22 "000002.XSHE" BUY AsValue 500 (Some 20.0000%Q) LIMIT
    SUBMITTED 0 None (Some "B2") None None 20 20.

Definition order23 : Order.t :=
  Order.mk 23 "600000.XSHG" SELL AsValue 300 (Some 8.0000%Q) LIMIT
    PARTIAL_FILLED 100 (Some 8.0000%Q) (Some "B3") None None 10 10.

Definition world (m : BrokerMode) : World.t DemoBroker :=
  World.mk [order21; order22; order23; filled_order] [] (mk_demo m 0) []
    100 50.

(** A signal to buy 1000 shares at the market price (scenario D), built
    by the constructor of the model, as the signals below. *)
Definition market_signal : TradingSignal.t :=
  TradingSignal.mk 7 "000001.XSHE" None SIG_BUY AsValue 1000 None None
    "manual" None None false None 5 None.

(** A signal to buy 10000 shares at 50.00: more than the order limit. *)
Definition large_signal : TradingSignal.t :=
  TradingSignal.mk 8 "000002.XSHE" None SIG_BUY AsValue 10000 (Some 50%Q)
    None "manual" None None false None 5 None.

(** A signal that has been executed and is linked to order 1. *)
Definition executed_signal : TradingSignal.t :=
  TradingSignal.mk 9 "000001.XSHE" None SIG_BUY AsValue 1000 None None
    "manual" None None true (Some 1%nat) 5 (Some 6).

(** The same signals with the member of the enum assigned to
    [direction]. *)
Definition with_member (signal : TradingSignal.t) : TradingSignal.t :=
  TradingSignal.mk (TradingSignal.id signal) (TradingSignal.symbol signal)
    (TradingSignal.name signal) (TradingSignal.direction signal) AsMember
    (TradingSignal.target_quantity signal)
    (TradingSignal.target_price signal) (TradingSignal.target_ratio signal)
    (TradingSignal.source signal) (TradingSignal.strategy_name signal)
    (TradingSignal.reason signal) (TradingSignal.executed signal)
    (TradingSignal.order_id signal) (TradingSignal.created_at signal)
    (TradingSignal.executed_at signal).

(** A new order of 100 shares, not yet in the store. *)
Definition new_order : Order.t :=
  Order.mk 40 "000001.XSHE" BUY AsValue 100 (Some 10%Q) LIMIT PENDING 0 None
    None None None 90 90.

(** The default trading hours: 09:30-11:30 and 13:00-15:00, signals
    fetched at 09:00 and orders executed at 09:35. *)
Definition scheduler : TradingScheduler.t :=
  TradingScheduler.mk
    (TimeOfDay.mk 9 30 0 0) (TimeOfDay.mk 11 30 0 0)
    (TimeOfDay.mk 13 0 0 0) (TimeOfDay.mk 15 0 0 0)
    (TimeOfDay.mk 9 0 0 0) (TimeOfDay.mk 9 35 0 0).

(** Monday 2024-01-01, 11:30:00, the last instant of the morning
    window. *)
Definition monday_1130 : DateTime.t :=
  DateTime.mk 738886 (TimeOfDay.mk 11 30 0 0).

End Sample.

(** * Further parts of the engine *)

From Stdlib Require Import Qpower Sorted.

(** ** quant_engine.storage.repository.SignalRepository *)

Module SignalRepository.

(** The rows of [SignalTable], keyed by [id]. *)
Definition table : Type := list TradingSignal.t.

Definition _to_row (signal : TradingSignal.t) : TradingSignal.t :=
  TradingSignal.mk (TradingSignal.id signal) (TradingSignal.symbol signal)
    (TradingSignal.name signal) (TradingSignal.direction signal) AsMember
    (TradingSignal.target_quantity signal)
    (OrderRepository.column (TradingSignal.target_price signal))
    (OrderRepository.column (TradingSignal.target_ratio signal))
    (TradingSignal.source signal) (TradingSignal.strategy_name signal)
    (TradingSignal.reason signal) (TradingSignal.executed signal)
    (TradingSignal.order_id signal) (TradingSignal.created_at signal)
    (TradingSignal.executed_at signal).

Definition _to_model (row : TradingSignal.t) : TradingSignal.t :=
  TradingSignal.mk (TradingSignal.id row) (TradingSignal.symbol row)
    (TradingSignal.name row) (TradingSignal.direction row) AsValue
    (TradingSignal.target_quantity row)
    (OrderRepository.of_column (TradingSignal.target_price row))
    (OrderRepository.of_column (TradingSignal.target_ratio row))
    (TradingSignal.source row) (TradingSignal.strategy_name row)
    (TradingSignal.reason row) (TradingSignal.executed row)
    (TradingSignal.order_id row) (TradingSignal.created_at row)
    (TradingSignal.executed_at row).

(** [query(SignalTable).filter(SignalTable.id == id).first()]. *)
Definition first_by_id (id : UUID) (rows : table) : option TradingSignal.t :=
  find (fun row => Nat.eqb (TradingSignal.id row) id) rows.

(** Replaces the first row with the given id. *)
Fixpoint replace_first (id : UUID) (f : TradingSignal.t -> TradingSignal.t)
    (rows : table) : table :=
  match rows with
  | [] => []
  | row :: rest =>
      if Nat.eqb (TradingSignal.id row) id then f row :: rest
      else row :: replace_first id f rest
  end.

(** The assignments [save] makes to an existing row. *)
Definition update_row (signal existing : TradingSignal.t) : TradingSignal.t :=
  TradingSignal.mk (TradingSignal.id existing) (TradingSignal.symbol existing)
    (TradingSignal.name existing) (TradingSignal.direction existing)
    (TradingSignal.direction_attr existing)
    (TradingSignal.target_quantity existing)
    (TradingSignal.target_price existing)
    (TradingSignal.target_ratio existing)
    (TradingSignal.source existing) (TradingSignal.strategy_name existing)
    (TradingSignal.reason existing) (TradingSignal.executed signal)
    (TradingSignal.order_id signal) (TradingSignal.created_at existing)
    (TradingSignal.executed_at signal).

(** Returns the table after the call; the call itself returns [signal]. *)
Definition save (signal : TradingSignal.t) (rows : table) : table :=
  match first_by_id (TradingSignal.id signal) rows with
  | Some _ => replace_first (TradingSignal.id signal) (update_row signal) rows
  | None => (rows ++ [_to_row signal])%list
  end.

(** [session.merge(row)]: the row replaces the one stored under its id,
    and is added when there is none. *)
Definition merge (row : TradingSignal.t) (rows : table) : table :=
  match first_by_id (TradingSignal.id row) rows with
  | Some _ => replace_first (TradingSignal.id row) (fun _ => row) rows
  | None => (rows ++ [row])%list
  end.

(** Returns the table after the call; the call itself returns
    [signals]. *)
Definition save_batch (signals : list TradingSignal.t) (rows : table)
    : table :=
  fold_left (fun rows signal => merge (_to_row signal) rows) signals rows.

Definition get_by_id (signal_id : UUID) (rows : table)
    : option TradingSignal.t :=
  option_map _to_model (first_by_id signal_id rows).

(** [order_by(desc(SignalTable.created_at))]. *)
Fixpoint insert_desc (row : TradingSignal.t) (sorted : table) : table :=
  match sorted with
  | [] => [row]
  | x :: rest =>
      if TradingSignal.created_at x <=? TradingSignal.created_at row
      then row :: sorted
      else x :: insert_desc row rest
  end.

Definition order_by_created_desc (rows : table) : table :=
  fold_right insert_desc [] rows.

Definition get_pending_signals (rows : table) : list TradingSignal.t :=
  map _to_model
    (order_by_created_desc
       (filter (fun row => negb (TradingSignal.executed row)) rows)).

End SignalRepository.

(** ** quant_engine.core.signal *)

Module SignalProcessor.

Definition get_pending_signals (rows : SignalRepository.table)
    : list TradingSignal.t :=
  SignalRepository.get_pending_signals rows.

Definition mark_signal_executed (signal : TradingSignal.t)
    (rows : SignalRepository.table) : SignalRepository.table :=
  SignalRepository.save signal rows.

End SignalProcessor.

(** ** quant_engine.adapters.broker.miniqmt, in simulation mode *)

Module MiniQMTBroker.

(** The adapter with [simulation=True]; in the other mode every call
    goes to the xtquant SDK.  [_uuid] is the next value of [uuid4()] and
    [_now] the reading of [datetime.now()] inside the adapter. *)
Record t : Type := mk {
  _account_id : string;
  _connected : bool;
  _uuid : N;
  _now : Timestamp
}.

Definition is_connected (b : t) : bool := _connected b.

Definition is_simulation (_ : t) : bool := true.

Definition connect (b : t) : bool * t :=
  (true, mk (_account_id b) true (_uuid b) (_now b)).

Definition disconnect (b : t) : t :=
  mk (_account_id b) false (_uuid b) (_now b).

(** [Broker.health_check]. *)
Definition health_check (b : t) : bool := is_connected b.

(** [str(BrokerNotConnectedError())]. *)
Definition not_connected : string := "券商接口未连接".

Definition hex_digit (d : N) : string :=
  match d with
  | 0%N => "0" | 1%N => "1" | 2%N => "2" | 3%N => "3"
  | 4%N => "4" | 5%N => "5" | 6%N => "6" | 7%N => "7"
  | 8%N => "8" | 9%N => "9" | 10%N => "A" | 11%N => "B"
  | 12%N => "C" | 13%N => "D" | 14%N => "E" | _ => "F"
  end.

(** [u.hex[:8].upper()] for a uuid whose first 32 bits are [u mod 2^32]. *)
Definition hex8 (u : N) : string :=
  String.concat ""
    (map (fun i => hex_digit (N.modulo (N.div u (N.pow 16 i)) 16))
       [7%N; 6%N; 5%N; 4%N; 3%N; 2%N; 1%N; 0%N]).

(** The id is drawn first; the text of the log line is then built from
    [order.direction.value], and the [AttributeError] of a [str] leaves
    the call. *)
Definition _simulate_submit_order (order : Order.t) (b : t)
    : BrokerReply OrderResult.t * t :=
  let broker_order_id := "SIM_" ++ hex8 (_uuid b) in
  let b := mk (_account_id b) (_connected b) (N.succ (_uuid b)) (_now b) in
  match dot_value (Order.direction_attr order)
          (OrderDirection_value (Order.direction order)) with
  | Raise _ => (Throws no_attribute_value, b)
  | Ok _ =>
      (Returns
         (OrderResult.mk true (Some broker_order_id)
            (Some "[模拟] 订单提交成功")),
       b)
  end.

Definition submit_order (order : Order.t) (b : t)
    : BrokerReply OrderResult.t * t :=
  if negb (_connected b) then (Throws not_connected, b)
  else _simulate_submit_order order b.

Definition cancel_order (order_id : string) (b : t) : BrokerReply bool * t :=
  if negb (_connected b) then (Throws not_connected, b)
  else (Returns true, b).

Definition query_order (order_id : string) (b : t)
    : BrokerReply (option Order.t) :=
  if negb (_connected b) then Throws not_connected
  else Returns None.

Definition _get_simulated_positions (b : t) : list Position.t := [].

Definition get_positions (b : t) : BrokerReply (list Position.t) :=
  if negb (_connected b) then Throws not_connected
  else Returns (_get_simulated_positions b).

Definition _get_simulated_account (b : t) : Account.t :=
  Account.mk
    ("SIM_" ++ (if String.eqb (_account_id b) "" then "DEFAULT"
                else _account_id b))
    "stock" 1000000%Q 1000000%Q 0%Q 0%Q 0%Q 0%Q (_now b).

Definition get_account (b : t) : BrokerReply Account.t :=
  if negb (_connected b) then Throws not_connected
  else Returns (_get_simulated_account b).

#[global] Instance broker : Broker.t t := {|
  Broker.submit_order := submit_order;
  Broker.cancel_order := cancel_order;
  Broker.query_order := query_order;
  Broker.get_positions := get_positions;
  Broker.get_account := get_account
|}.

End MiniQMTBroker.

(** ** Notions used in the further properties *)

(** The market value held under a symbol as [_check_position_limit] takes
    it: that of the first position listed under the symbol, and zero when
    there is none. *)
Definition held_value (symbol : string) (positions : list Position.t)
    : Decimal.t :=
  match find (fun p => String.eqb (Position.symbol p) symbol) positions with
  | Some p => Position.market_value p
  | None => Decimal.zero
  end.

(** The notional of an order as [_check_position_limit] takes it: zero
    for an order without a price. *)
Definition notional (order : Order.t) : Decimal.t :=
  (Decimal.or_zero (Order.price order)
   * Decimal.of_int (Order.quantity order))%Q.

(** The risk manager with its master switch set to [flag]. *)
Definition with_enabled (flag : bool) (rm : RiskManager.t) : RiskManager.t :=
  RiskManager.mk_manager
    (RiskConfig.mk flag
       (RiskConfig.max_position_ratio (RiskManager._config rm))
       (RiskConfig.max_daily_loss_ratio (RiskManager._config rm))
       (RiskConfig.stop_loss_ratio (RiskManager._config rm))
       (RiskConfig.take_profit_ratio (RiskManager._config rm))
       (RiskConfig.max_holdings (RiskManager._config rm))
       (RiskConfig.max_order_amount (RiskManager._config rm)))
    (RiskManager._daily_loss rm) (RiskManager._initial_asset rm).

(** A time parsed from "HH:MM": its seconds and microseconds are zero. *)
Definition on_the_minute (x : TimeOfDay.t) : Prop :=
  TimeOfDay.second x = 0 /\ TimeOfDay.microsecond x = 0.

(** A price that a [Numeric(12, 4)] column gives back as it went in:
    none, or one that is not zero and is written with four decimals and
    at most twelve digits. *)
Definition kept_by_column (d : option Decimal.t) : Prop :=
  match d with
  | Some q =>
      Qden q = 10000%positive /\ Qnum q <> 0 /\ Z.abs (Qnum q) < 10 ^ 12
  | None => True
  end.

(** An integer that an [INTEGER] column takes. *)
Definition fits_integer_column (n : Z) : Prop :=
  - 2 ^ 63 <= n < 2 ^ 63.

(** An order or a row with its update time blanked. *)
Definition without_updated_at (o : Order.t) : Order.t :=
  Order.set_updated_at 0 o.

(** The ids of the order table. *)
Definition order_ids {B : Type} (w : World.t B) : list UUID :=
  map Order.id (World.orders w).

(** From [w] to [w'] the primary key of the order table is kept and no
    row is lost. *)
Definition store_kept {B : Type} (w w' : World.t B) : Prop :=
  (NoDup (order_ids w) -> NoDup (order_ids w'))
  /\ incl (order_ids w) (order_ids w').

(** ** Further concrete inputs *)

Module Cases.

(** The two positions of the unit tests. *)
Definition position_000001 : Position.t :=
  Position.mk 31 "000001.XSHE" (Some "平安银行") 10000 10000 0 10%Q 10.5%Q 0.

Definition position_600000 : Position.t :=
  Position.mk 32 "600000.XSHG" (Some "浦发银行") 5000 5000 0 8%Q 7.5%Q 0.

Definition positions : list Position.t := [position_000001; position_600000].

(** Bought at 10.00 and quoted at 12.50. *)
Definition winning_position : Position.t :=
  Position.mk 33 "000001.XSHE" None 10000 10000 0 10%Q 12.5%Q 0.

(** 30000 shares quoted at 10.00. *)
Definition heavy_position : Position.t :=
  Position.mk 34 "000001.XSHE" None 30000 30000 0 10%Q 10%Q 0.

(** The account of the unit tests after a loss of 100000. *)
Definition down_account : Account.t :=
  Account.mk "TEST001" "stock" 900000%Q 500000%Q 0%Q 400000%Q 0%Q 0%Q 0.

(** The risk configuration of the unit tests with an order limit of
    1000000. *)
Definition wide_manager : RiskManager.t :=
  RiskManager.mk_manager
    (RiskConfig.mk true 0.2%Q 0.05%Q 0.08%Q 0.20%Q 10 1000000%Q) 0%Q 0%Q.

(** The risk configuration of the unit tests with at most two
    holdings. *)
Definition tight_manager : RiskManager.t :=
  RiskManager.mk_manager
    (RiskConfig.mk true 0.2%Q 0.05%Q 0.08%Q 0.20%Q 2 100000%Q) 0%Q 0%Q.

(** A BUY of 15000 shares of 000001.XSHE at 10.00. *)
Definition topping_up_order : Order.t :=
  Order.mk 41 "000001.XSHE" BUY AsValue 15000 (Some 10%Q) LIMIT PENDING 0
    None None None None 0 0.

(** Saturday 2024-01-06 at 08:00:00, 09:00:30 and 09:30:00. *)
Definition saturday_0800 : DateTime.t :=
  DateTime.mk 738891 (TimeOfDay.mk 8 0 0 0).

Definition saturday_090030 : DateTime.t :=
  DateTime.mk 738891 (TimeOfDay.mk 9 0 30 0).

Definition saturday_0930 : DateTime.t :=
  DateTime.mk 738891 (TimeOfDay.mk 9 30 0 0).

(** Order 21 as a filled SELL of one share of another symbol. *)
Definition order21_rewritten : Order.t :=
  Order.mk 21 "600000.XSHG" SELL AsValue 1 None MARKET FILLED 1000
    (Some 10.5%Q) (Some "B1") None None 0 0.


(** A signal whose target quantity is zero: the signal model accepts it,
    the order model does not. *)
Definition flat_signal : TradingSignal.t :=
  TradingSignal.mk 10 "000001.XSHE" None SIG_BUY AsValue 0 None None
    "manual" None None false None 5 None.

(** A store that holds an order never handed to a broker, and the filled
    order. *)
Definition draft_world : World.t Sample.DemoBroker :=
  World.mk [Sample.new_order; Sample.filled_order] []
    (Sample.mk_demo Sample.Accepting 0) [] 100 50.

(** The sample store over the simulated miniQMT broker, connected. *)
Definition simulated_world : World.t MiniQMTBroker.t :=
  World.mk
    [Sample.order21; Sample.order22; Sample.order23; Sample.filled_order] []
    (MiniQMTBroker.mk "55001234" true 0 0) [] 100 50.

End Cases.

(** * Properties *)

(** ** The order state machine *)

Lemma update_status_status (s : OrderStatus) (m : option string)
    (now : Timestamp) (o : Order.t) :
  Order.status (Order.update_status s m now o) = s.
Proof.
  unfold Order.update_status.
  destruct (str_truthy m); reflexivity.
Qed.

Lemma update_status_calls_snoc (calls : list StatusCall) (c : StatusCall)
    (o : Order.t) :
  update_status_calls (calls ++ [c]) o
  = apply_call (update_status_calls calls o) c.
Proof.
  unfold update_status_calls.
  rewrite fold_left_app.
  reflexivity.
Qed.

(** C1, as the specification states it, fails: a FILLED order on which
    [update_status(PENDING)] is called is a PENDING order afterwards. *)
Lemma terminal_status_not_kept :
  Order.is_completed Sample.filled_order = true
  /\ Order.status
       (update_status_calls [mk_call PENDING None 2] Sample.filled_order)
     = PENDING
  /\ Order.status
       (update_status_calls [mk_call PENDING None 2] Sample.filled_order)
     <> Order.status Sample.filled_order.
Proof.
  repeat split; discriminate.
Qed.

(** C1, amended: [update_status] assigns the status it is given, whatever
    the current one is.  After any sequence of calls the status of the
    order is the status passed to the last call, and the status it started
    with when the sequence is empty. *)
Theorem update_status_last_call_wins (o : Order.t) (calls : list StatusCall) :
  Order.status (update_status_calls calls o)
  = last (map call_status calls) (Order.status o).
Proof.
  induction calls as [| c calls IH] using rev_ind.
  - reflexivity.
  - rewrite update_status_calls_snoc, map_app.
    cbn [map].
    rewrite last_last.
    apply update_status_status.
Qed.

(** ** The trading calendar *)

Lemma TimeOfDay_ltb_micros (a b : TimeOfDay.t) :
  TimeOfDay.valid a -> TimeOfDay.valid b ->
  TimeOfDay.ltb a b = (TimeOfDay.to_micros a <? TimeOfDay.to_micros b).
Proof.
  unfold TimeOfDay.valid, TimeOfDay.ltb, TimeOfDay.to_micros.
  intros (Ha1 & Ha2 & Ha3 & Ha4) (Hb1 & Hb2 & Hb3 & Hb4).
  destruct (Z.ltb_spec (TimeOfDay.hour a) (TimeOfDay.hour b));
    destruct (Z.eqb_spec (TimeOfDay.hour a) (TimeOfDay.hour b));
    destruct (Z.ltb_spec (TimeOfDay.minute a) (TimeOfDay.minute b));
    destruct (Z.eqb_spec (TimeOfDay.minute a) (TimeOfDay.minute b));
    destruct (Z.ltb_spec (TimeOfDay.second a) (TimeOfDay.second b));
    destruct (Z.eqb_spec (TimeOfDay.second a) (TimeOfDay.second b));
    destruct (Z.ltb_spec (TimeOfDay.microsecond a) (TimeOfDay.microsecond b));
    cbn [orb andb]; symmetry;
    first [ apply Z.ltb_lt; lia | apply Z.ltb_ge; lia ].
Qed.

Lemma TimeOfDay_eqb_micros (a b : TimeOfDay.t) :
  TimeOfDay.valid a -> TimeOfDay.valid b ->
  TimeOfDay.eqb a b = (TimeOfDay.to_micros a =? TimeOfDay.to_micros b).
Proof.
  unfold TimeOfDay.valid, TimeOfDay.eqb, TimeOfDay.to_micros.
  intros (Ha1 & Ha2 & Ha3 & Ha4) (Hb1 & Hb2 & Hb3 & Hb4).
  destruct (Z.eqb_spec (TimeOfDay.hour a) (TimeOfDay.hour b));
    destruct (Z.eqb_spec (TimeOfDay.minute a) (TimeOfDay.minute b));
    destruct (Z.eqb_spec (TimeOfDay.second a) (TimeOfDay.second b));
    destruct (Z.eqb_spec (TimeOfDay.microsecond a) (TimeOfDay.microsecond b));
    cbn [andb]; symmetry;
    first [ apply Z.eqb_eq; lia | apply Z.eqb_neq; lia ].
Qed.

Lemma TimeOfDay_leb_micros (a b : TimeOfDay.t) :
  TimeOfDay.valid a -> TimeOfDay.valid b ->
  TimeOfDay.leb a b = true
  <-> TimeOfDay.to_micros a <= TimeOfDay.to_micros b.
Proof.
  intros Ha Hb.
  unfold TimeOfDay.leb.
  rewrite (TimeOfDay_ltb_micros a b Ha Hb), (TimeOfDay_eqb_micros a b Ha Hb).
  rewrite orb_true_iff, Z.ltb_lt, Z.eqb_eq.
  lia.
Qed.

Lemma weekday_range (dt : DateTime.t) : 0 <= DateTime.weekday dt <= 6.
Proof.
  unfold DateTime.weekday.
  pose proof (Z.mod_pos_bound (DateTime.toordinal dt + 6) 7).
  lia.
Qed.

(** C9: [is_trading_time] is false on a Saturday or a Sunday; on the other
    days it is true exactly when the time of day lies in the morning
    window or in the afternoon window, the bounds of both included.  The
    instant is [dt], or the current time when [dt] is [None]; times are
    compared by their microseconds since midnight. *)
Theorem is_trading_time_windows (sch : TradingScheduler.t)
    (now : DateTime.t) (dt : option DateTime.t) :
  let instant := match dt with Some d => d | None => now end in
  let t := TimeOfDay.to_micros (DateTime.time instant) in
  TimeOfDay.valid (DateTime.time instant) ->
  TimeOfDay.valid (TradingScheduler._morning_start sch) ->
  TimeOfDay.valid (TradingScheduler._morning_end sch) ->
  TimeOfDay.valid (TradingScheduler._afternoon_start sch) ->
  TimeOfDay.valid (TradingScheduler._afternoon_end sch) ->
  (DateTime.weekday instant = 5 \/ DateTime.weekday instant = 6 ->
   TradingScheduler.is_trading_time sch now dt = false)
  /\ (DateTime.weekday instant < 5 ->
      (TradingScheduler.is_trading_time sch now dt = true
       <-> (TimeOfDay.to_micros (TradingScheduler._morning_start sch) <= t
            <= TimeOfDay.to_micros (TradingScheduler._morning_end sch))
           \/ (TimeOfDay.to_micros (TradingScheduler._afternoon_start sch) <= t
               <= TimeOfDay.to_micros (TradingScheduler._afternoon_end sch)))).
Proof.
  intros instant t Ht Hms Hme Has Hae.
  unfold TradingScheduler.is_trading_time.
  fold instant.
  split.
  - intros Hwd.
    destruct (Z.leb_spec 5 (DateTime.weekday instant)); [reflexivity | lia].
  - intros Hwd.
    destruct (Z.leb_spec 5 (DateTime.weekday instant)); [lia |].
    rewrite orb_true_iff, !andb_true_iff.
    rewrite !TimeOfDay_leb_micros by assumption.
    fold t.
    tauto.
Qed.

(** Monday 11:30:00 is a trading time: the end of the morning window is
    part of it. *)
Lemma is_trading_time_windows_witness :
  TradingScheduler.is_trading_time Sample.scheduler Sample.monday_1130
    (Some Sample.monday_1130) = true.
Proof.
  assert (V : forall h m, 0 <= h < 24 -> 0 <= m < 60 ->
                          TimeOfDay.valid (TimeOfDay.mk h m 0 0)).
  { intros h m Hh Hm. unfold TimeOfDay.valid. cbn. lia. }
  destruct (is_trading_time_windows Sample.scheduler Sample.monday_1130
              (Some Sample.monday_1130)) as [_ Hweek];
    try (apply V; lia).
  apply Hweek.
  - vm_compute. reflexivity.
  - left. vm_compute. split; discriminate.
Defined.

(** ** Profit and loss of a position, and the stop-loss check *)

Lemma round_half_even_near (q : Q) :
  2 * Z.abs (Qnum q - Decimal.round_half_even q * Zpos (Qden q))
  <= Zpos (Qden q).
Proof.
  unfold Decimal.round_half_even.
  set (n := Qnum q).
  set (d := Zpos (Qden q)).
  assert (Hd : 0 < d) by (unfold d; lia).
  pose proof (Z.div_mod n d ltac:(lia)) as Hdm.
  pose proof (Z.mod_pos_bound n d Hd) as Hr.
  destruct (Z.compare_spec (2 * (n mod d)) d) as [He | Hl | Hg].
  - destruct (Z.even (n / d)); nia.
  - nia.
  - nia.
Qed.

(** A quantized value is at most half a quantum away from the value. *)
Lemma quantize_near (q : Q) (places : nat) :
  (Decimal.quantize q places - q <= 1 # (2 * Decimal.pow10 places))%Q
  /\ (q - Decimal.quantize q places <= 1 # (2 * Decimal.pow10 places))%Q.
Proof.
  unfold Decimal.quantize.
  set (p := Decimal.pow10 places).
  pose proof (round_half_even_near (q * inject_Z (Zpos p))) as Hn.
  set (z := Decimal.round_half_even (q * inject_Z (Zpos p))) in *.
  destruct q as [n d].
  cbn [Qnum Qden Qmult inject_Z] in Hn.
  unfold Qle, Qminus, Qplus, Qopp.
  cbn [Qnum Qden].
  rewrite ?Pos2Z.inj_mul in *.
  split; nia.
Qed.

Lemma Decimal_geb_opp (a b : Q) :
  (a <= - b)%Q -> Decimal.geb (- a)%Q b = true.
Proof.
  intros Hab.
  unfold Decimal.geb, Decimal.leb.
  apply Qle_bool_iff.
  revert Hab.
  unfold Qle, Qopp.
  cbn [Qnum Qden].
  lia.
Qed.

(** C3, as the specification states it, fails: for one share bought at 3
    and quoted at 4 the ratio is 0.3333 and not 1/3. *)
Lemma profit_loss_ratio_not_exact :
  (Position.profit_loss_ratio Sample.third_position == 3333 # 10000)%Q
  /\ ~ (Position.profit_loss_ratio Sample.third_position
        == (Position.market_value Sample.third_position
            - Position.cost_value Sample.third_position)
           / Position.cost_value Sample.third_position)%Q.
Proof.
  split.
  - reflexivity.
  - intros Heq.
    vm_compute in Heq.
    discriminate Heq.
Qed.

(** C3, amended: [profit_loss_ratio] is the quotient
    (market_value - cost_value) / cost_value quantized to four decimal
    places, rounding half to even: a multiple of 0.0001 at most 0.00005
    away from the quotient.  It is 0 when cost_value is 0.  A position
    with quantity > 0 whose [profit_loss_ratio] is at most
    -stop_loss_ratio makes [_check_stop_loss] return passed=false with
    rule "stop_loss". *)
Theorem profit_loss_ratio_quantized (rm : RiskManager.t) (p : Position.t) :
  let exact :=
    ((Position.market_value p - Position.cost_value p)
     / Position.cost_value p)%Q in
  let ratio := Position.profit_loss_ratio p in
  ((Position.cost_value p == 0)%Q -> ratio = 0%Q)
  /\ (~ (Position.cost_value p == 0)%Q ->
      ratio = Decimal.quantize exact 4
      /\ (exists k : Z, ratio = k # 10000)
      /\ (ratio - exact <= 1 # 20000)%Q
      /\ (exact - ratio <= 1 # 20000)%Q)
  /\ (0 < Position.quantity p ->
      (ratio <= - RiskConfig.stop_loss_ratio (RiskManager._config rm))%Q ->
      RiskCheckResult.passed (RiskManager._check_stop_loss rm p) = false
      /\ RiskCheckResult.rule (RiskManager._check_stop_loss rm p)
         = "stop_loss").
Proof.
  intros exact ratio.
  split; [| split].
  - intros Hzero.
    unfold ratio, Position.profit_loss_ratio, Decimal.eqb.
    apply Qeq_bool_iff in Hzero.
    unfold Decimal.zero.
    rewrite Hzero.
    reflexivity.
  - intros Hnz.
    assert (Hq : ratio = Decimal.quantize exact 4).
    { unfold ratio, Position.profit_loss_ratio, Decimal.eqb, Decimal.zero.
      destruct (Qeq_bool (Position.cost_value p) 0) eqn:E.
      - apply Qeq_bool_iff in E. contradiction.
      - reflexivity. }
    split; [exact Hq |].
    rewrite Hq.
    split.
    + exists (Decimal.round_half_even (exact * inject_Z 10000)).
      reflexivity.
    + exact (quantize_near exact 4).
  - intros Hqty Hloss.
    unfold RiskManager._check_stop_loss.
    destruct (Z.leb_spec (Position.quantity p) 0) as [Hle | _]; [lia |].
    fold ratio.
    rewrite (Decimal_geb_opp _ _ Hloss).
    split; reflexivity.
Qed.

(** Scenario C of the specification: a position bought at 10.00 and
    quoted at 9.00 has ratio -0.1000 and triggers the stop loss at 0.08. *)
Lemma profit_loss_ratio_quantized_witness :
  (Position.profit_loss_ratio Sample.losing_position
   = Decimal.quantize
       ((Position.market_value Sample.losing_position
         - Position.cost_value Sample.losing_position)
        / Position.cost_value Sample.losing_position)%Q 4)
  /\ RiskCheckResult.passed
       (RiskManager._check_stop_loss Sample.risk_manager
          Sample.losing_position) = false.
Proof.
  destruct (profit_loss_ratio_quantized Sample.risk_manager
              Sample.losing_position) as (_ & Hnz & Hstop).
  split.
  - apply Hnz.
    intros Heq. vm_compute in Heq. discriminate Heq.
  - apply Hstop.
    + reflexivity.
    + vm_compute. discriminate.
Defined.

(** ** The checks of an order *)

Lemma Decimal_gtb_lt (a b : Q) : (b < a)%Q -> Decimal.gtb a b = true.
Proof.
  intros Hlt.
  unfold Decimal.gtb, Decimal.ltb.
  destruct (Qle_bool a b) eqn:E; [| reflexivity].
  apply Qle_bool_iff in E.
  exfalso.
  exact (Qlt_not_le _ _ Hlt E).
Qed.

Lemma _check_order_amount_rule (rm : RiskManager.t) (order : Order.t) :
  RiskCheckResult.rule (RiskManager._check_order_amount rm order)
  = "order_amount".
Proof.
  unfold RiskManager._check_order_amount.
  destruct (Order.price order) as [price |]; [| reflexivity].
  destruct (Decimal.gtb _ _); reflexivity.
Qed.

Lemma _check_position_limit_rule (rm : RiskManager.t) (order : Order.t)
    (account : Account.t) (positions : list Position.t) :
  RiskCheckResult.rule
    (RiskManager._check_position_limit rm order account positions)
  = "position_limit".
Proof.
  unfold RiskManager._check_position_limit.
  destruct (Order.direction order); [| reflexivity].
  destruct (Decimal.gtb _ _); reflexivity.
Qed.

Lemma _check_holdings_limit_rule (rm : RiskManager.t) (order : Order.t)
    (positions : list Position.t) :
  RiskCheckResult.rule (RiskManager._check_holdings_limit rm order positions)
  = "holdings_limit".
Proof.
  unfold RiskManager._check_holdings_limit.
  destruct (Order.direction order); [| reflexivity].
  destruct (_ && _); reflexivity.
Qed.

Lemma _check_daily_loss_rule (rm : RiskManager.t) (account : Account.t) :
  RiskCheckResult.rule (RiskManager._check_daily_loss rm account)
  = "daily_loss".
Proof.
  unfold RiskManager._check_daily_loss.
  destruct (Decimal.leb _ _); [reflexivity |].
  destruct (Decimal.gtb _ _); reflexivity.
Qed.

(** With the risk control enabled, [check_order] returns the result of
    the order-amount check as soon as that check fails. *)
Lemma check_order_amount_first (rm : RiskManager.t) (order : Order.t)
    (account : Account.t) (positions : list Position.t) :
  RiskManager.enabled rm = true ->
  RiskCheckResult.passed (RiskManager._check_order_amount rm order) = false ->
  RiskManager.check_order rm order account positions
  = RiskManager._check_order_amount rm order.
Proof.
  unfold RiskManager.enabled, RiskManager.check_order.
  intros Hen Hfail.
  rewrite Hen.
  cbn [negb RiskManager.first_failed].
  rewrite Hfail.
  reflexivity.
Qed.

(** C6, as the specification states it, fails: a MARKET order that
    carries a price is checked against the limit, and fails the check
    when price x quantity exceeds it. *)
Lemma market_order_amount_checked :
  Order.order_type Sample.priced_market_order = MARKET
  /\ RiskCheckResult.passed
       (RiskManager._check_order_amount Sample.risk_manager
          Sample.priced_market_order) = false.
Proof.
  split; reflexivity.
Qed.

(** C6, amended: the order-amount check looks at the price of the order
    and not at its kind.  Every order that carries a price with
    price x quantity > M, every such LIMIT order among them, makes
    [check_order] (risk enabled) return passed=false with rule
    "order_amount"; every order without a price passes the order-amount
    check. *)
Theorem order_amount_limit (rm : RiskManager.t) (order : Order.t)
    (account : Account.t) (positions : list Position.t) :
  (forall price : Decimal.t,
      RiskManager.enabled rm = true ->
      Order.price order = Some price ->
      (RiskConfig.max_order_amount (RiskManager._config rm)
       < price * inject_Z (Order.quantity order))%Q ->
      RiskCheckResult.passed
        (RiskManager.check_order rm order account positions) = false
      /\ RiskCheckResult.rule
           (RiskManager.check_order rm order account positions)
         = "order_amount")
  /\ (Order.price order = None ->
      RiskCheckResult.passed (RiskManager._check_order_amount rm order)
      = true).
Proof.
  split.
  - intros price Hen Hprice Hgt.
    assert (Hfail : RiskCheckResult.passed
                      (RiskManager._check_order_amount rm order) = false).
    { unfold RiskManager._check_order_amount.
      rewrite Hprice.
      unfold Decimal.of_int.
      rewrite (Decimal_gtb_lt _ _ Hgt).
      reflexivity. }
    rewrite (check_order_amount_first rm order account positions Hen Hfail).
    split; [exact Hfail | apply _check_order_amount_rule].
  - intros Hnone.
    unfold RiskManager._check_order_amount.
    rewrite Hnone.
    reflexivity.
Qed.

(** The LIMIT order of 10000 shares at 50.00 exceeds the limit of
    100000. *)
Lemma order_amount_limit_witness :
  RiskCheckResult.rule
    (RiskManager.check_order Sample.risk_manager Sample.large_limit_order
       Sample.account [])
  = "order_amount".
Proof.
  destruct (order_amount_limit Sample.risk_manager Sample.large_limit_order
              Sample.account []) as [Hlimit _].
  apply (Hlimit 50%Q).
  - reflexivity.
  - reflexivity.
  - vm_compute. reflexivity.
Defined.

(** C7: with the risk control enabled, [check_order] returns the result
    of the first check that fails among the order-amount, position-ratio,
    holdings and daily-loss checks, taken in this order, and a passed
    result with rule "all" when all four pass; with the risk control
    disabled it returns the same passed result with rule "disabled"
    whatever the order, the account and the positions are. *)
Theorem check_order_first_failure (rm : RiskManager.t) (order : Order.t)
    (account : Account.t) (positions : list Position.t) :
  let amount := RiskManager._check_order_amount rm order in
  let position :=
    RiskManager._check_position_limit rm order account positions in
  let holdings := RiskManager._check_holdings_limit rm order positions in
  let daily := RiskManager._check_daily_loss rm account in
  let result := RiskManager.check_order rm order account positions in
  (RiskManager.enabled rm = false ->
   result = RiskCheckResult.mk true "disabled" [Lit "风控已禁用"] None)
  /\ (RiskManager.enabled rm = true ->
      (RiskCheckResult.passed amount = false -> result = amount)
      /\ (RiskCheckResult.passed amount = true ->
          RiskCheckResult.passed position = false -> result = position)
      /\ (RiskCheckResult.passed amount = true ->
          RiskCheckResult.passed position = true ->
          RiskCheckResult.passed holdings = false -> result = holdings)
      /\ (RiskCheckResult.passed amount = true ->
          RiskCheckResult.passed position = true ->
          RiskCheckResult.passed holdings = true ->
          RiskCheckResult.passed daily = false -> result = daily)
      /\ (RiskCheckResult.passed amount = true ->
          RiskCheckResult.passed position = true ->
          RiskCheckResult.passed holdings = true ->
          RiskCheckResult.passed daily = true ->
          result
          = RiskCheckResult.mk true "all" [Lit "所有风控检查通过"] None))
  /\ RiskCheckResult.rule amount = "order_amount"
  /\ RiskCheckResult.rule position = "position_limit"
  /\ RiskCheckResult.rule holdings = "holdings_limit"
  /\ RiskCheckResult.rule daily = "daily_loss".
Proof.
  intros amount position holdings daily result.
  split; [| split].
  - unfold result, RiskManager.check_order, RiskManager.enabled.
    intros Hdis.
    rewrite Hdis.
    reflexivity.
  - unfold result, RiskManager.check_order, RiskManager.enabled.
    intros Hen.
    rewrite Hen.
    cbn [negb RiskManager.first_failed].
    fold amount position holdings daily.
    repeat split; intros;
      repeat match goal with
             | Hp : RiskCheckResult.passed _ = _ |- _ => rewrite Hp; clear Hp
             end;
      reflexivity.
  - unfold amount, position, holdings, daily.
    rewrite _check_order_amount_rule, _check_position_limit_rule,
      _check_holdings_limit_rule, _check_daily_loss_rule.
    repeat split.
Qed.

(** A small order on an empty portfolio passes all four checks. *)
Lemma check_order_first_failure_witness :
  RiskManager.check_order Sample.risk_manager Sample.filled_order
    Sample.account []
  = RiskCheckResult.mk true "all" [Lit "所有风控检查通过"] None.
Proof.
  destruct (check_order_first_failure Sample.risk_manager Sample.filled_order
              Sample.account []) as (_ & Hen & _).
  destruct (Hen eq_refl) as (_ & _ & _ & _ & Hall).
  apply Hall; reflexivity.
Defined.

(** ** The order store *)

Section StoreFacts.
Context {B : Type} `{Broker.t B}.

Lemma first_by_id_replace_same (id : UUID) (f : Order.t -> Order.t)
    (rows : list Order.t) (row : Order.t) :
  (forall r, Order.id (f r) = Order.id r) ->
  OrderRepository.first_by_id id rows = Some row ->
  OrderRepository.first_by_id id (OrderRepository.replace_first id f rows)
  = Some (f row).
Proof.
  intros Hf.
  unfold OrderRepository.first_by_id.
  induction rows as [| r rows IH]; cbn; [discriminate |].
  destruct (Nat.eqb (Order.id r) id) eqn:E.
  - intros [= ->]. cbn. rewrite Hf, E. reflexivity.
  - intros Hfind. cbn. rewrite E. auto.
Qed.

Lemma first_by_id_replace_other (id id' : UUID) (f : Order.t -> Order.t)
    (rows : list Order.t) :
  (forall r, Order.id (f r) = Order.id r) ->
  id' <> id ->
  OrderRepository.first_by_id id' (OrderRepository.replace_first id f rows)
  = OrderRepository.first_by_id id' rows.
Proof.
  intros Hf Hne.
  unfold OrderRepository.first_by_id.
  induction rows as [| r rows IH]; cbn; [reflexivity |].
  destruct (Nat.eqb (Order.id r) id) eqn:E.
  - cbn. rewrite Hf.
    apply Nat.eqb_eq in E.
    destruct (Nat.eqb_spec (Order.id r) id'); [congruence | reflexivity].
  - cbn. rewrite IH. reflexivity.
Qed.

Lemma first_by_id_app_none (id : UUID) (rows : list Order.t) (row : Order.t) :
  OrderRepository.first_by_id id rows = None ->
  OrderRepository.first_by_id id (rows ++ [row])%list
  = if Nat.eqb (Order.id row) id then Some row else None.
Proof.
  unfold OrderRepository.first_by_id.
  induction rows as [| r rows IH]; cbn; [reflexivity |].
  destruct (Nat.eqb (Order.id r) id); [discriminate | exact IH].
Qed.

Lemma first_by_id_app_some (id : UUID) (rows : list Order.t)
    (row found : Order.t) :
  OrderRepository.first_by_id id rows = Some found ->
  OrderRepository.first_by_id id (rows ++ [row])%list = Some found.
Proof.
  unfold OrderRepository.first_by_id.
  induction rows as [| r rows IH]; cbn; [discriminate |].
  destruct (Nat.eqb (Order.id r) id); [trivial | exact IH].
Qed.

(** After [save], the store holds the status, the fill, the broker id and
    the error message of the saved order under its id. *)
Lemma save_stored (order : Order.t) (w : World.t B) :
  exists row,
    OrderRepository.first_by_id (Order.id order)
      (World.orders (snd (OrderRepository.save order w))) = Some row
    /\ Order.id row = Order.id order
    /\ Order.status row = Order.status order
    /\ Order.filled_quantity row = Order.filled_quantity order
    /\ Order.broker_order_id row = Order.broker_order_id order
    /\ Order.error_message row = Order.error_message order.
Proof.
  unfold OrderRepository.save.
  destruct (OrderRepository.first_by_id (Order.id order) (World.orders w))
    as [existing |] eqn:E.
  - unfold World.set_orders, datetime_now.
    cbn [snd World.orders World.clock].
    exists (OrderRepository.update_row order (World.clock w) existing).
    split.
    + apply first_by_id_replace_same; [reflexivity | exact E].
    + unfold OrderRepository.first_by_id in E.
      apply find_some in E.
      destruct E as [_ E].
      apply Nat.eqb_eq in E.
      cbn.
      auto.
  - unfold World.set_orders.
    cbn [snd World.orders].
    exists (OrderRepository._to_row order).
    split.
    + rewrite (first_by_id_app_none _ _ _ E).
      cbn [OrderRepository._to_row Order.id].
      rewrite Nat.eqb_refl.
      reflexivity.
    + cbn.
      auto.
Qed.

Lemma save_other (order : Order.t) (w : World.t B) (id' : UUID) :
  id' <> Order.id order ->
  OrderRepository.first_by_id id'
    (World.orders (snd (OrderRepository.save order w)))
  = OrderRepository.first_by_id id' (World.orders w).
Proof.
  intros Hne.
  unfold OrderRepository.save.
  destruct (OrderRepository.first_by_id (Order.id order) (World.orders w))
    as [existing |] eqn:E.
  - unfold World.set_orders, datetime_now.
    cbn [snd World.orders World.clock].
    apply first_by_id_replace_other; [reflexivity | exact Hne].
  - unfold World.set_orders.
    cbn [snd World.orders].
    destruct (OrderRepository.first_by_id id' (World.orders w)) as [r |] eqn:E'.
    + apply first_by_id_app_some.
      exact E'.
    + rewrite (first_by_id_app_none _ _ _ E').
      cbn [OrderRepository._to_row Order.id].
      destruct (Nat.eqb_spec (Order.id order) id'); [congruence | reflexivity].
Qed.

Lemma save_fst (order : Order.t) (w : World.t B) :
  fst (OrderRepository.save order w) = order.
Proof.
  unfold OrderRepository.save.
  destruct (OrderRepository.first_by_id _ _); reflexivity.
Qed.

Lemma save_rest (order : Order.t) (w : World.t B) :
  let w' := snd (OrderRepository.save order w) in
  World.trade_logs w' = World.trade_logs w
  /\ World.broker w' = World.broker w
  /\ World.submissions w' = World.submissions w.
Proof.
  unfold OrderRepository.save.
  destruct (OrderRepository.first_by_id _ _); cbn; auto.
Qed.


Lemma new_Order_books (symbol : string) (direction : OrderDirection)
    (quantity : Z) (price : option Decimal.t) (order_type : OrderType)
    (signal_id : option UUID) (w : World.t B) :
  same_books w (snd (new_Order symbol direction quantity price order_type
                       signal_id w)).
Proof.
  unfold new_Order, bindS, uuid4, datetime_now, ret, raise, retS.
  cbn.
  destruct (Order.valid_fields symbol quantity); cbn; repeat split.
Qed.

Lemma new_Order_built (symbol : string) (direction : OrderDirection)
    (quantity : Z) (price : option Decimal.t) (order_type : OrderType)
    (signal_id : option UUID) (w w1 : World.t B) (order : Order.t) :
  new_Order symbol direction quantity price order_type signal_id w
  = (Ok order, w1) ->
  Order.order_type order = order_type
  /\ Order.price order = price
  /\ Order.quantity order = quantity
  /\ Order.status order = PENDING
  /\ Order.error_message order = None
  /\ Order.broker_order_id order = None
  /\ Order.id order = World.next_uuid w.
Proof.
  unfold new_Order, bindS, uuid4, datetime_now, ret, raise, retS.
  cbn.
  destruct (Order.valid_fields symbol quantity); [| discriminate].
  intros [= <- _].
  cbn.
  repeat split.
Qed.

Lemma account_or_fetch_world (account : option Account.t) (w : World.t B) :
  snd (OrderExecutor.account_or_fetch account w) = w.
Proof.
  unfold OrderExecutor.account_or_fetch, OrderExecutor.broker_get_account,
    ret, retS.
  destruct account; [reflexivity |].
  destruct (Broker.get_account (World.broker w)); reflexivity.
Qed.

Lemma positions_or_fetch_world (positions : option (list Position.t))
    (w : World.t B) :
  snd (OrderExecutor.positions_or_fetch positions w) = w.
Proof.
  unfold OrderExecutor.positions_or_fetch,
    OrderExecutor.broker_get_positions, ret, retS.
  destruct positions; [reflexivity |].
  destruct (Broker.get_positions (World.broker w)); reflexivity.
Qed.

Lemma replace_first_ids (id : UUID) (f : Order.t -> Order.t)
    (rows : list Order.t) :
  (forall r, Order.id (f r) = Order.id r) ->
  map Order.id (OrderRepository.replace_first id f rows) = map Order.id rows.
Proof.
  intros Hf.
  induction rows as [| r rows IH]; cbn; [reflexivity |].
  destruct (Nat.eqb (Order.id r) id); cbn.
  - rewrite Hf.
    reflexivity.
  - rewrite IH.
    reflexivity.
Qed.

Lemma first_by_id_none_not_in (id : UUID) (rows : list Order.t) :
  OrderRepository.first_by_id id rows = None -> ~ In id (map Order.id rows).
Proof.
  unfold OrderRepository.first_by_id.
  intros Hnone Hin.
  apply in_map_iff in Hin.
  destruct Hin as (row & Hid & Hin).
  apply (find_none _ _ Hnone) in Hin.
  rewrite Hid, Nat.eqb_refl in Hin.
  discriminate Hin.
Qed.

(** [save] keeps the ids of the order table pairwise different: [id] is
    its primary key. *)
Lemma save_keeps_primary_key (order : Order.t) (w : World.t B) :
  NoDup (map Order.id (World.orders w)) ->
  NoDup (map Order.id (World.orders (snd (OrderRepository.save order w)))).
Proof.
  intros Hnd.
  unfold OrderRepository.save.
  destruct (OrderRepository.first_by_id (Order.id order) (World.orders w))
    as [existing |] eqn:E.
  - unfold World.set_orders, datetime_now.
    cbn [snd World.orders World.clock].
    rewrite replace_first_ids; [exact Hnd | reflexivity].
  - unfold World.set_orders.
    cbn [snd World.orders].
    rewrite map_app.
    apply NoDup_app; [exact Hnd | repeat constructor; intros [] |].
    intros id Hin [<- | []].
    exact (first_by_id_none_not_in _ _ E Hin).
Qed.

End StoreFacts.

(** Runs [execute_signal] up to the risk check, given that the log line
    at entry does not raise ([Hm]), that the order is built ([Hc]) and
    what account and positions are used ([Ha], [Hp]). *)
Ltac run_to_risk_check Hm Hc Ha Hp :=
  unfold OrderExecutor.execute_signal;
  rewrite Hm; cbn [dot_value];
  unfold bindS at 1;
  unfold bind at 1; unfold bindS at 1; rewrite Hc;
  unfold bind at 1; unfold bindS at 1;
  match goal with
  | |- context [OrderExecutor.account_or_fetch ?a ?w] =>
      let Hw := fresh "Hw" in
      let ra := fresh "ra" in
      let wa := fresh "wa" in
      pose proof (account_or_fetch_world a w) as Hw;
      destruct (OrderExecutor.account_or_fetch a w) as [ra wa];
      cbn [fst snd] in Ha, Hw; subst ra wa
  end;
  unfold bind at 1; unfold bindS at 1;
  match goal with
  | |- context [OrderExecutor.positions_or_fetch ?p ?w] =>
      let Hw := fresh "Hw" in
      let rp := fresh "rp" in
      let wp := fresh "wp" in
      pose proof (positions_or_fetch_world p w) as Hw;
      destruct (OrderExecutor.positions_or_fetch p w) as [rp wp];
      cbn [fst snd] in Hp, Hw; subst rp wp
  end;
  unfold bind at 1; unfold bindS at 1; unfold of_result at 1, retS at 1.

(** ** The executor *)

Section ExecutorFacts.
Context {B : Type} `{Broker.t B}.

Lemma validate_raises (rm : RiskManager.t) (order : Order.t)
    (account : Account.t) (positions : list Position.t) :
  RiskCheckResult.passed (RiskManager.check_order rm order account positions)
  = false ->
  exists e,
    RiskManager.validate_order_or_raise rm order account positions = Raise e
    /\ is_RiskControlError e = true.
Proof.
  intros Hfail.
  unfold RiskManager.validate_order_or_raise.
  rewrite Hfail.
  cbn [negb].
  repeat match goal with
         | |- context [if ?c then _ else _] => destruct c
         end;
    eexists; split; reflexivity.
Qed.

Lemma validate_passes (rm : RiskManager.t) (order : Order.t)
    (account : Account.t) (positions : list Position.t) :
  RiskCheckResult.passed (RiskManager.check_order rm order account positions)
  = true ->
  RiskManager.validate_order_or_raise rm order account positions = Ok tt.
Proof.
  intros Hpass.
  unfold RiskManager.validate_order_or_raise.
  rewrite Hpass.
  reflexivity.
Qed.

Lemma create_order_books (signal : TradingSignal.t) (w w1 : World.t B)
    (r : Result Order.t) :
  OrderExecutor._create_order_from_signal signal w = (r, w1) ->
  same_books w w1.
Proof.
  unfold OrderExecutor._create_order_from_signal.
  intros Hc.
  match type of Hc with
  | new_Order ?s ?d ?q ?p ?t ?i w = _ =>
      pose proof (new_Order_books s d q p t i w) as Hb
  end.
  rewrite Hc in Hb.
  exact Hb.
Qed.

Lemma bindS_eq {A C : Type} (c : St B A) (k : A -> St B C) (w : World.t B) :
  bindS c k w = k (fst (c w)) (snd (c w)).
Proof.
  unfold bindS.
  destruct (c w); reflexivity.
Qed.

Lemma update_status_id (s : OrderStatus) (m : option string)
    (now : Timestamp) (o : Order.t) :
  Order.id (Order.update_status s m now o) = Order.id o.
Proof.
  unfold Order.update_status.
  destruct (str_truthy m); reflexivity.
Qed.

Lemma _submit_order_eq (order : Order.t) (w : World.t B)
    (reply : BrokerReply OrderResult.t) (b' : B) :
  Broker.submit_order order (World.broker w) = (reply, b') ->
  OrderExecutor._submit_order order w
  = (submit_result reply,
     World.mk (World.orders w) (World.trade_logs w) b'
       (order :: World.submissions w) (World.clock w) (World.next_uuid w)).
Proof.
  intros Hsub.
  unfold OrderExecutor._submit_order.
  rewrite Hsub.
  destruct reply; reflexivity.
Qed.

Lemma update_status_attr (s : OrderStatus) (m : option string)
    (now : Timestamp) (o : Order.t) :
  Order.direction_attr (Order.update_status s m now o)
  = Order.direction_attr o.
Proof.
  unfold Order.update_status.
  destruct (str_truthy m); reflexivity.
Qed.

Lemma create_order_attr (signal : TradingSignal.t) (w w1 : World.t B)
    (order : Order.t) :
  OrderExecutor._create_order_from_signal signal w = (Ok order, w1) ->
  Order.direction_attr order = AsValue.
Proof.
  unfold OrderExecutor._create_order_from_signal, new_Order, bindS, uuid4,
    datetime_now, ret, raise, retS.
  cbn.
  destruct (Order.valid_fields _ _); [| discriminate].
  intros [= <- _].
  reflexivity.
Qed.

Lemma valid_fields_false (symbol : string) (quantity : Z) :
  quantity <= 0 \/ (20 < str_len symbol)%nat ->
  Order.valid_fields symbol quantity = false.
Proof.
  unfold Order.valid_fields.
  intros [Hq | Hs].
  - apply andb_false_iff.
    right.
    apply Z.ltb_ge.
    exact Hq.
  - apply andb_false_iff.
    left.
    apply Nat.leb_gt.
    exact Hs.
Qed.

Lemma valid_fields_true (symbol : string) (quantity : Z) :
  0 < quantity -> (str_len symbol <= 20)%nat ->
  Order.valid_fields symbol quantity = true.
Proof.
  unfold Order.valid_fields.
  intros Hq Hs.
  apply andb_true_iff.
  split; [apply Nat.leb_le; exact Hs | apply Z.ltb_lt; exact Hq].
Qed.

Lemma create_order_fst (signal : TradingSignal.t) (w : World.t B) :
  (Order.valid_fields (TradingSignal.symbol signal)
     (TradingSignal.target_quantity signal) = false ->
   fst (OrderExecutor._create_order_from_signal signal w)
   = Raise ValidationError)
  /\ (Order.valid_fields (TradingSignal.symbol signal)
        (TradingSignal.target_quantity signal) = true ->
      exists order,
        fst (OrderExecutor._create_order_from_signal signal w) = Ok order).
Proof.
  unfold OrderExecutor._create_order_from_signal, new_Order, bindS, uuid4,
    datetime_now, ret, raise, retS.
  cbn.
  split; intros Hv; rewrite Hv; [reflexivity | eexists; reflexivity].
Qed.

(** The log line at entry: with the value of the enum in
    [signal.direction], [execute_signal] raises before anything else is
    done. *)
Lemma execute_signal_as_value (rm : RiskManager.t)
    (signal : TradingSignal.t) (account : option Account.t)
    (positions : option (list Position.t)) (w : World.t B) :
  TradingSignal.direction_attr signal = AsValue ->
  OrderExecutor.execute_signal rm signal account positions w
  = ((Raise (AttributeError no_attribute_value), signal), w).
Proof.
  intros Hv.
  unfold OrderExecutor.execute_signal.
  rewrite Hv.
  reflexivity.
Qed.

(** The run of [execute_signal] when the risk check fails. *)
Lemma execute_signal_risk_raises (rm : RiskManager.t)
    (signal : TradingSignal.t) (account : option Account.t)
    (positions : option (list Position.t)) (w w1 : World.t B)
    (order : Order.t) (acct : Account.t) (ps : list Position.t) (e : Exn) :
  TradingSignal.direction_attr signal = AsMember ->
  OrderExecutor._create_order_from_signal signal w = (Ok order, w1) ->
  fst (OrderExecutor.account_or_fetch account w1) = Ok acct ->
  fst (OrderExecutor.positions_or_fetch positions w1) = Ok ps ->
  RiskManager.validate_order_or_raise rm order acct ps = Raise e ->
  OrderExecutor.execute_signal rm signal account positions w
  = ((Raise e, signal), w1).
Proof.
  intros Hm Hc Ha Hp He.
  run_to_risk_check Hm Hc Ha Hp.
  rewrite He.
  reflexivity.
Qed.

(** The run of [execute_signal] when the risk check passes and the
    submission fails. *)
Lemma execute_signal_rejected (rm : RiskManager.t)
    (signal : TradingSignal.t) (account : option Account.t)
    (positions : option (list Position.t)) (w w1 : World.t B)
    (order : Order.t) (acct : Account.t) (ps : list Position.t)
    (reply : BrokerReply OrderResult.t) (b' : B) :
  TradingSignal.direction_attr signal = AsMember ->
  OrderExecutor._create_order_from_signal signal w = (Ok order, w1) ->
  fst (OrderExecutor.account_or_fetch account w1) = Ok acct ->
  fst (OrderExecutor.positions_or_fetch positions w1) = Ok ps ->
  RiskCheckResult.passed (RiskManager.check_order rm order acct ps) = true ->
  Broker.submit_order order (World.broker w) = (reply, b') ->
  submission_failed reply = true ->
  exists (now : Timestamp) (w' : World.t B) (row : Order.t),
    OrderExecutor.execute_signal rm signal account positions w
    = ((Ok (Order.update_status REJECTED (failure_message reply) now order),
        signal), w')
    /\ OrderRepository.first_by_id (Order.id order) (World.orders w')
       = Some row
    /\ Order.status row = REJECTED
    /\ World.submissions w' = order :: World.submissions w.
Proof.
  intros Hm Hc Ha Hp Hpass Hsub Hfail.
  destruct (create_order_books signal w w1 _ Hc) as (_ & _ & Hb1 & Hs1).
  pose proof (save_rest order w1) as (_ & Hb2 & Hs2).
  rewrite <- Hb1, <- Hb2 in Hsub.
  unfold submission_failed in Hfail.
  apply negb_true_iff in Hfail.
  assert (Hrun :
            exists now w',
              OrderExecutor.execute_signal rm signal account positions w
              = ((Ok (Order.update_status REJECTED (failure_message reply) now
                        order), signal),
                 snd (OrderRepository.save
                        (Order.update_status REJECTED (failure_message reply)
                           now order) w'))
              /\ World.submissions w' = order :: World.submissions w).
  { eexists _, _.
    split.
    - run_to_risk_check Hm Hc Ha Hp.
      rewrite (validate_passes rm order acct ps Hpass).
      unfold ret at 1, retS at 1.
      rewrite bindS_eq; cbv beta.
      rewrite bindS_eq; cbv beta.
      rewrite (_submit_order_eq _ _ _ _ Hsub).
      cbn [fst snd].
      rewrite Hfail.
      rewrite bindS_eq; cbv beta.
      rewrite bindS_eq; cbv beta.
      rewrite bindS_eq; cbv beta.
      unfold retS, failure_message.
      reflexivity.
    - unfold TradeLogRepository.error, TradeLogRepository.log, datetime_now.
      cbn [fst snd World.submissions].
      rewrite Hs2, Hs1.
      reflexivity. }
  destruct Hrun as (now & w' & Hrun & Hsubs).
  destruct (save_stored
              (Order.update_status REJECTED (failure_message reply) now order)
              w') as (row & Hrow & _ & Hst & _).
  rewrite update_status_id in Hrow.
  rewrite update_status_status in Hst.
  pose proof (save_rest
                (Order.update_status REJECTED (failure_message reply) now
                   order) w') as (_ & _ & Hs5).
  exists now.
  eexists.
  exists row.
  split; [exact Hrun |].
  split; [exact Hrow |].
  split; [exact Hst |].
  rewrite Hs5.
  exact Hsubs.
Qed.

(** The run of [execute_signal] when the risk check passes and the
    broker accepts the order: the order that [_create_order_from_signal]
    has built holds the value of the enum in [direction], and the call
    raises when the text of the audit line is built, after
    [mark_executed] and before the audit line and the second save. *)
Lemma execute_signal_accepted_run (rm : RiskManager.t)
    (signal : TradingSignal.t) (account : option Account.t)
    (positions : option (list Position.t)) (w w1 : World.t B)
    (order : Order.t) (acct : Account.t) (ps : list Position.t)
    (result : OrderResult.t) (b' : B) :
  TradingSignal.direction_attr signal = AsMember ->
  OrderExecutor._create_order_from_signal signal w = (Ok order, w1) ->
  fst (OrderExecutor.account_or_fetch account w1) = Ok acct ->
  fst (OrderExecutor.positions_or_fetch positions w1) = Ok ps ->
  RiskCheckResult.passed (RiskManager.check_order rm order acct ps) = true ->
  Broker.submit_order order (World.broker w) = (Returns result, b') ->
  OrderResult.success result = true ->
  exists (now : Timestamp) (w' : World.t B),
    OrderExecutor.execute_signal rm signal account positions w
    = ((Raise (AttributeError no_attribute_value),
        TradingSignal.mark_executed (Order.id order) now signal), w')
    /\ World.orders w' = World.orders (snd (OrderRepository.save order w1))
    /\ World.submissions w' = order :: World.submissions w
    /\ World.broker w' = b'
    /\ World.trade_logs w' = World.trade_logs w.
Proof.
  intros Hm Hc Ha Hp Hpass Hsub Hok.
  destruct (create_order_books signal w w1 _ Hc) as (_ & Hl1 & Hb1 & Hs1).
  pose proof (save_rest order w1) as (Hl2 & Hb2 & Hs2).
  rewrite <- Hb1, <- Hb2 in Hsub.
  eexists _, _.
  split.
  - run_to_risk_check Hm Hc Ha Hp.
    rewrite (validate_passes rm order acct ps Hpass).
    unfold ret at 1, retS at 1.
    rewrite bindS_eq; cbv beta.
    rewrite bindS_eq; cbv beta.
    rewrite (_submit_order_eq _ _ _ _ Hsub).
    cbn [fst snd submit_result].
    rewrite Hok.
    rewrite bindS_eq; cbv beta.
    rewrite bindS_eq; cbv beta.
    rewrite update_status_attr.
    cbn [Order.set_broker_order_id Order.direction_attr].
    rewrite (create_order_attr signal w w1 order Hc).
    cbn [dot_value].
    unfold retS.
    rewrite update_status_id.
    reflexivity.
  - unfold datetime_now.
    cbn.
    rewrite Hs2, Hs1, Hl2, Hl1.
    repeat split.
Qed.

Lemma update_status_error_message (s : OrderStatus) (m : option string)
    (now : Timestamp) (o : Order.t) :
  Order.error_message (Order.update_status s m now o)
  = if str_truthy m then m else Order.error_message o.
Proof.
  unfold Order.update_status.
  destruct (str_truthy m); reflexivity.
Qed.


(** What a run of [execute_signal] has done to the signal: nothing,
    unless the order it built has been handed to the broker and accepted,
    and then [mark_executed] with the id of that order. *)
Lemma execute_signal_signal (rm : RiskManager.t)
    (signal : TradingSignal.t) (account : option Account.t)
    (positions : option (list Position.t)) (w w' : World.t B)
    (r : Result Order.t) (s' : TradingSignal.t) :
  OrderExecutor.execute_signal rm signal account positions w
  = ((r, s'), w') ->
  s' = signal
  \/ exists (order : Order.t) (result : OrderResult.t) (b' : B)
        (now : Timestamp),
      fst (OrderExecutor._create_order_from_signal signal w) = Ok order
      /\ Broker.submit_order order (World.broker w) = (Returns result, b')
      /\ OrderResult.success result = true
      /\ World.submissions w' = order :: World.submissions w
      /\ s' = TradingSignal.mark_executed (Order.id order) now signal.
Proof.
  assert (Hof : forall (x : Result unit) (w0 : World.t B),
             of_result x w0 = (x, w0)) by reflexivity.
  unfold OrderExecutor.execute_signal.
  destruct (dot_value _ _) as [value | e];
    [| intros [= _ <- _]; left; reflexivity].
  unfold bindS at 1.
  unfold bind at 1.
  rewrite bindS_eq; cbv beta.
  pose proof (create_order_books signal w _ _ (surjective_pairing _))
    as (_ & Hl1 & Hb1 & Hs1).
  set (w1 := snd (OrderExecutor._create_order_from_signal signal w)) in *.
  destruct (fst (OrderExecutor._create_order_from_signal signal w))
    as [order | e]; [| intros [= _ <- _]; left; reflexivity].
  unfold bind at 1.
  rewrite bindS_eq; cbv beta.
  rewrite account_or_fetch_world.
  destruct (fst (OrderExecutor.account_or_fetch account w1))
    as [acct | e]; [| intros [= _ <- _]; left; reflexivity].
  unfold bind at 1.
  rewrite bindS_eq; cbv beta.
  rewrite positions_or_fetch_world.
  destruct (fst (OrderExecutor.positions_or_fetch positions w1))
    as [ps | e]; [| intros [= _ <- _]; left; reflexivity].
  unfold bind at 1.
  rewrite bindS_eq; cbv beta.
  rewrite !Hof.
  cbn [fst snd].
  destruct (RiskManager.validate_order_or_raise rm order acct ps)
    as [[] | e]; [| intros [= _ <- _]; left; reflexivity].
  unfold ret at 1, retS at 1.
  rewrite bindS_eq; cbv beta.
  rewrite bindS_eq; cbv beta.
  pose proof (save_rest order w1) as (Hl2 & Hb2 & Hs2).
  destruct (Broker.submit_order order (World.broker w)) as [reply b'] eqn:Hsub.
  pose proof Hsub as Hsub'.
  rewrite <- Hb1, <- Hb2 in Hsub'.
  rewrite (_submit_order_eq _ _ _ _ Hsub').
  cbn [fst snd].
  destruct (OrderResult.success (submit_result reply)) eqn:Hok.
  - destruct reply as [result | e]; [| discriminate Hok].
    cbn [submit_result] in *.
    rewrite bindS_eq; cbv beta.
    rewrite bindS_eq; cbv beta.
    destruct (dot_value _ _) as [value' | e].
    + rewrite bindS_eq; cbv beta.
      rewrite bindS_eq; cbv beta.
      unfold retS.
      intros [= _ <- <-].
      right.
      exists order, result, b'.
      eexists.
      split; [reflexivity |].
      split; [exact Hsub |].
      split; [exact Hok |].
      split; [| reflexivity].
      match goal with
      | |- context [OrderRepository.save ?o ?w0] =>
          pose proof (save_rest o w0) as (_ & _ & Hs5)
      end.
      rewrite Hs5.
      cbn [World.submissions].
      rewrite Hs2, Hs1.
      reflexivity.
    + unfold retS.
      intros [= _ <- <-].
      right.
      exists order, result, b'.
      eexists.
      split; [reflexivity |].
      split; [exact Hsub |].
      split; [exact Hok |].
      split; [| reflexivity].
      cbn [World.submissions].
      rewrite Hs2, Hs1.
      reflexivity.
  - rewrite bindS_eq; cbv beta.
    rewrite bindS_eq; cbv beta.
    rewrite bindS_eq; cbv beta.
    intros [= _ <- _].
    left.
    reflexivity.
Qed.

Lemma first_by_id_id (id : UUID) (rows : list Order.t) (row : Order.t) :
  OrderRepository.first_by_id id rows = Some row -> Order.id row = id.
Proof.
  unfold OrderRepository.first_by_id.
  intros Hfind.
  apply find_some in Hfind.
  destruct Hfind as [_ Heq].
  apply Nat.eqb_eq.
  exact Heq.
Qed.

Lemma sync_order_status_eq (oid : UUID) (w : World.t B) (row : Order.t) :
  OrderRepository.first_by_id oid (World.orders w) = Some row ->
  OrderExecutor.sync_order_status oid w
  = let before := OrderRepository._to_model row in
    match Order.broker_order_id before with
    | None => (Some before, w)
    | Some bid =>
        if String.eqb bid "" then (Some before, w)
        else
          match Broker.query_order bid (World.broker w) with
          | Returns (Some snapshot) =>
              (Some (refreshed snapshot (World.clock w) before),
               snd (OrderRepository.save
                      (refreshed snapshot (World.clock w) before)
                      (snd (datetime_now w))))
          | Returns None => (Some before, w)
          | Throws _ => (Some before, w)
          end
    end.
Proof.
  intros Hrow.
  unfold OrderExecutor.sync_order_status.
  rewrite bindS_eq; cbv beta.
  unfold OrderRepository.get_by_id.
  cbn [fst snd].
  rewrite Hrow.
  cbn [option_map].
  cbv zeta.
  unfold str_truthy.
  destruct (Order.broker_order_id (OrderRepository._to_model row))
    as [bid |]; [| reflexivity].
  destruct (String.eqb bid ""); [reflexivity |].
  cbn [negb].
  destruct (Broker.query_order bid (World.broker w)) as [[snapshot |] | e];
    try reflexivity.
  rewrite bindS_eq; cbv beta.
  rewrite bindS_eq; cbv beta.
  reflexivity.
Qed.

(** One call of [sync_order_status] on an order that the store holds. *)
Lemma sync_order_status_found (oid : UUID) (w : World.t B) (row : Order.t) :
  OrderRepository.first_by_id oid (World.orders w) = Some row ->
  exists after : Order.t,
    fst (OrderExecutor.sync_order_status oid w) = Some after
    /\ sync_outcome (fun bid => Broker.query_order bid (World.broker w))
         (OrderRepository._to_model row) after
    /\ World.broker (snd (OrderExecutor.sync_order_status oid w))
       = World.broker w
    /\ forall id' : UUID,
         id' <> oid ->
         OrderRepository.first_by_id id'
           (World.orders (snd (OrderExecutor.sync_order_status oid w)))
         = OrderRepository.first_by_id id' (World.orders w).
Proof.
  intros Hrow.
  pose proof (first_by_id_id _ _ _ Hrow) as Hid.
  rewrite (sync_order_status_eq oid w row Hrow).
  cbv zeta.
  unfold sync_outcome.
  set (before := OrderRepository._to_model row).
  assert (Hbid : Order.id before = oid) by exact Hid.
  destruct (Order.broker_order_id before) as [bid |];
    [| exists before; repeat split; reflexivity].
  destruct (String.eqb bid "");
    [exists before; repeat split; reflexivity |].
  destruct (Broker.query_order bid (World.broker w)) as [[snapshot |] | e];
    [| exists before; repeat split; reflexivity
     | exists before; repeat split; reflexivity].
  exists (refreshed snapshot (World.clock w) before).
  cbn [fst snd].
  split; [reflexivity |].
  split; [repeat split |].
  split.
  - pose proof (save_rest (refreshed snapshot (World.clock w) before)
                  (snd (datetime_now w))) as (_ & Hb & _).
    rewrite Hb.
    reflexivity.
  - intros id' Hne.
    rewrite save_other.
    + reflexivity.
    + unfold refreshed.
      cbn [Order.set_updated_at Order.set_filled_price
             Order.set_filled_quantity Order.set_status Order.id].
      congruence.
Qed.

(** The guard of [cancel_order]: an order in a terminal status is not
    touched and the call answers [False]. *)
Lemma cancel_order_completed (oid : UUID) (w : World.t B) (row : Order.t) :
  OrderRepository.first_by_id oid (World.orders w) = Some row ->
  Order.is_completed row = true ->
  OrderExecutor.cancel_order oid w = (false, w).
Proof.
  intros Hrow Hdone.
  unfold OrderExecutor.cancel_order.
  rewrite bindS_eq; cbv beta.
  unfold OrderRepository.get_by_id.
  cbn [fst snd].
  rewrite Hrow.
  cbn [option_map].
  change (Order.is_completed (OrderRepository._to_model row))
    with (Order.is_completed row).
  rewrite Hdone.
  reflexivity.
Qed.

(** The loop of [sync_all_active_orders] over rows of the store with
    pairwise different ids. *)
Lemma sync_each_all (rows : list Order.t) :
  NoDup (map Order.id rows) ->
  forall (w : World.t B) (acc : list Order.t),
    (forall row, In row rows ->
                 OrderRepository.first_by_id (Order.id row) (World.orders w)
                 = Some row) ->
    exists out : list Order.t,
      fst (OrderExecutor.sync_each (map OrderRepository._to_model rows) acc w)
      = (acc ++ out)%list
      /\ Forall2
           (sync_outcome (fun bid => Broker.query_order bid (World.broker w)))
           (map OrderRepository._to_model rows) out
      /\ World.broker
           (snd (OrderExecutor.sync_each
                   (map OrderRepository._to_model rows) acc w))
         = World.broker w.
Proof.
  induction rows as [| row rows IH]; intros Hnd w acc Hstore.
  - exists [].
    cbn.
    rewrite app_nil_r.
    repeat split.
    constructor.
  - cbn [map] in Hnd.
    apply NoDup_cons_iff in Hnd.
    destruct Hnd as [Hnotin Hnd].
    destruct (sync_order_status_found (Order.id row) w row
                (Hstore row (or_introl eq_refl)))
      as (after & Hafter & Hout & Hbroker & Hothers).
    cbn [map OrderExecutor.sync_each].
    rewrite bindS_eq; cbv beta.
    change (Order.id (OrderRepository._to_model row)) with (Order.id row).
    rewrite Hafter.
    destruct (IH Hnd (snd (OrderExecutor.sync_order_status (Order.id row) w))
                (acc ++ [after])%list) as (out & Hlist & Hall & Hb).
    { intros row' Hin.
      rewrite Hothers.
      - apply Hstore.
        right.
        exact Hin.
      - intros Heq.
        apply Hnotin.
        rewrite <- Heq.
        apply in_map.
        exact Hin. }
    exists (after :: out).
    rewrite Hlist, <- app_assoc.
    split; [reflexivity |].
    rewrite Hbroker in Hall, Hb.
    split; [| exact Hb].
    constructor; assumption.
Qed.


Lemma insert_desc_perm (row : Order.t) (sorted : list Order.t) :
  Permutation (OrderRepository.insert_desc row sorted) (row :: sorted).
Proof.
  induction sorted as [| x rest IH]; cbn.
  - apply Permutation_refl.
  - destruct (Order.created_at x <=? Order.created_at row).
    + apply Permutation_refl.
    + apply Permutation_trans with (x :: row :: rest).
      * apply perm_skip. exact IH.
      * apply perm_swap.
Qed.

Lemma order_by_created_desc_perm (rows : list Order.t) :
  Permutation (OrderRepository.order_by_created_desc rows) rows.
Proof.
  induction rows as [| row rows IH]; cbn.
  - apply Permutation_refl.
  - apply Permutation_trans with (row :: OrderRepository.order_by_created_desc rows).
    + apply insert_desc_perm.
    + apply perm_skip. exact IH.
Qed.

Lemma NoDup_map_filter {A K : Type} (key : A -> K) (f : A -> bool)
    (l : list A) :
  NoDup (map key l) -> NoDup (map key (filter f l)).
Proof.
  induction l as [| x l IH]; cbn; intros Hnd; [constructor |].
  apply NoDup_cons_iff in Hnd.
  destruct Hnd as [Hnotin Hnd].
  destruct (f x); cbn; [| auto].
  constructor; [| auto].
  intros Hin.
  apply Hnotin.
  apply in_map_iff in Hin.
  destruct Hin as (y & Hy & Hin).
  apply filter_In in Hin.
  rewrite <- Hy.
  apply in_map.
  tauto.
Qed.

(** In a table with pairwise different ids a row is the first row with
    its id. *)
Lemma first_by_id_In (rows : list Order.t) (row : Order.t) :
  NoDup (map Order.id rows) ->
  In row rows ->
  OrderRepository.first_by_id (Order.id row) rows = Some row.
Proof.
  unfold OrderRepository.first_by_id.
  induction rows as [| r rows IH]; cbn; intros Hnd Hin; [contradiction |].
  apply NoDup_cons_iff in Hnd.
  destruct Hnd as [Hnotin Hnd].
  destruct Hin as [-> | Hin].
  - rewrite Nat.eqb_refl. reflexivity.
  - destruct (Nat.eqb_spec (Order.id r) (Order.id row)) as [Heq | _].
    + exfalso.
      apply Hnotin.
      rewrite Heq.
      apply in_map.
      exact Hin.
    + auto.
Qed.

Lemma sync_outcome_id (reply : string -> BrokerReply (option Order.t))
    (before after : Order.t) :
  sync_outcome reply before after -> Order.id after = Order.id before.
Proof.
  unfold sync_outcome.
  destruct (Order.broker_order_id before) as [bid |]; [| congruence].
  destruct (String.eqb bid ""); [congruence |].
  destruct (reply bid) as [[snapshot |] | e]; [tauto | congruence | congruence].
Qed.

(** C2, amended: over a store whose orders have pairwise different ids,
    [sync_all_active_orders] returns one order for every active order
    (SUBMITTED or PARTIAL_FILLED) of the store, in the order of the
    store's query and under the same id, whether the broker query for it
    succeeded or not.  An order whose query raises, which the broker does
    not know or which has no broker id comes back as the store holds it;
    every other one comes back with the status and the fill of the
    broker's snapshot.  A failing query does not end the batch. *)
Theorem sync_all_returns_every_active_order (w : World.t B) :
  NoDup (map Order.id (World.orders w)) ->
  let active := fst (OrderRepository.get_active_orders w) in
  let result := fst (OrderExecutor.sync_all_active_orders w) in
  (forall o : Order.t,
      In o active
      <-> exists row, In row (World.orders w)
                      /\ OrderRepository.is_active row = true
                      /\ o = OrderRepository._to_model row)
  /\ Forall2
       (sync_outcome (fun bid => Broker.query_order bid (World.broker w)))
       active result
  /\ map Order.id result = map Order.id active.
Proof.
  intros Hnd active result.
  set (rows := OrderRepository.order_by_created_desc
                 (filter OrderRepository.is_active (World.orders w))).
  assert (Hperm : Permutation rows
                    (filter OrderRepository.is_active (World.orders w)))
    by apply order_by_created_desc_perm.
  assert (Hactive : active = map OrderRepository._to_model rows)
    by reflexivity.
  assert (Hall : Forall2
                   (sync_outcome
                      (fun bid => Broker.query_order bid (World.broker w)))
                   active result).
  { destruct (sync_each_all rows) with (w := w) (acc := @nil Order.t)
      as (out & Hout & Hall & _).
    - apply (Permutation_NoDup (Permutation_sym (Permutation_map Order.id Hperm))).
      apply NoDup_map_filter.
      exact Hnd.
    - intros row Hin.
      apply first_by_id_In; [exact Hnd |].
      apply (Permutation_in _ Hperm) in Hin.
      apply filter_In in Hin.
      tauto.
    - unfold result, OrderExecutor.sync_all_active_orders.
      rewrite bindS_eq.
      change (fst (OrderRepository.get_active_orders w))
        with (map OrderRepository._to_model rows).
      change (snd (OrderRepository.get_active_orders w)) with w.
      rewrite Hout, Hactive.
      exact Hall. }
  split; [| split].
  - intros o.
    rewrite Hactive, in_map_iff.
    split.
    + intros (row & Ho & Hin).
      apply (Permutation_in _ Hperm) in Hin.
      apply filter_In in Hin.
      exists row.
      split; [tauto |].
      split; [tauto |].
      symmetry.
      exact Ho.
    + intros (row & Hin & Hact & Ho).
      exists row.
      split; [symmetry; exact Ho |].
      apply (Permutation_in _ (Permutation_sym Hperm)).
      apply filter_In.
      tauto.
  - exact Hall.
  - clear - Hall.
    induction Hall as [| before after active result Hout _ IH]; cbn.
    + reflexivity.
    + rewrite (sync_outcome_id _ _ _ Hout), IH.
      reflexivity.
Qed.


(** C5: the claim fails on the code for every signal that the
    constructor of the model has built.  Such a signal holds the value of
    the enum in [direction], and [execute_signal] raises [AttributeError]
    while it builds the log line at entry, before the order is built and
    checked: the error is not a risk-control error.  Nothing has been
    saved, submitted or logged by then.  For a signal that holds the
    member the claim holds: when the order built from the signal fails
    the risk check, [execute_signal] raises the risk-control error that
    [validate_order_or_raise] selects for the failing rule, and by then
    it has saved no order, handed no order to the broker, left the broker
    as it was and written no audit log entry. *)
Theorem risk_failure_leaves_no_trace (rm : RiskManager.t)
    (signal : TradingSignal.t) (account : option Account.t)
    (positions : option (list Position.t)) (w : World.t B) :
  (TradingSignal.direction_attr signal = AsValue ->
   OrderExecutor.execute_signal rm signal account positions w
   = ((Raise (AttributeError no_attribute_value), signal), w)
   /\ is_RiskControlError (AttributeError no_attribute_value) = false)
  /\ (TradingSignal.direction_attr signal = AsMember ->
      forall (w1 : World.t B) (order : Order.t) (acct : Account.t)
             (ps : list Position.t),
        OrderExecutor._create_order_from_signal signal w = (Ok order, w1) ->
        fst (OrderExecutor.account_or_fetch account w1) = Ok acct ->
        fst (OrderExecutor.positions_or_fetch positions w1) = Ok ps ->
        RiskCheckResult.passed (RiskManager.check_order rm order acct ps)
        = false ->
        exists e,
          OrderExecutor.execute_signal rm signal account positions w
          = ((Raise e, signal), w1)
          /\ RiskManager.validate_order_or_raise rm order acct ps = Raise e
          /\ is_RiskControlError e = true
          /\ World.orders w1 = World.orders w
          /\ World.submissions w1 = World.submissions w
          /\ World.broker w1 = World.broker w
          /\ World.trade_logs w1 = World.trade_logs w).
Proof.
  split.
  - intros Hv.
    split; [| reflexivity].
    exact (execute_signal_as_value rm signal account positions w Hv).
  - intros Hm w1 order acct ps Hc Ha Hp Hfail.
    destruct (validate_raises rm order acct ps Hfail) as (e & He & Hrisk).
    destruct (create_order_books signal w w1 _ Hc) as (Ho & Hl & Hbr & Hs).
    exists e.
    split.
    + exact (execute_signal_risk_raises rm signal account positions w w1
               order acct ps e Hm Hc Ha Hp He).
    + repeat split; assumption.
Qed.


(** C8, amended: [mark_executed] sets [executed] and puts the id it is
    given into [order_id], whatever the signal held before.  The executor
    calls it in [execute_signal] alone, after the broker has accepted the
    order: a run of [execute_signal] leaves the signal as it was, or it
    has handed an order to the broker, the broker has accepted it, and
    the signal is executed and linked to the id of that order.  For a
    signal that holds the member of the enum in [direction], with an
    order that passes the risk check: the signal is left as it was when
    the submission fails, and linked to the order when it succeeds, also
    when the signal had been executed and linked before. *)
Theorem signal_linked_on_submission (rm : RiskManager.t)
    (signal : TradingSignal.t) (account : option Account.t)
    (positions : option (list Position.t)) (w : World.t B) :
  (forall (oid : UUID) (now : Timestamp),
      TradingSignal.executed (TradingSignal.mark_executed oid now signal)
      = true
      /\ TradingSignal.order_id (TradingSignal.mark_executed oid now signal)
         = Some oid)
  /\ (forall (r : Result Order.t) (s' : TradingSignal.t) (w' : World.t B),
         OrderExecutor.execute_signal rm signal account positions w
         = ((r, s'), w') ->
         s' = signal
         \/ exists (order : Order.t) (result : OrderResult.t) (b' : B),
             Broker.submit_order order (World.broker w)
             = (Returns result, b')
             /\ OrderResult.success result = true
             /\ World.submissions w' = order :: World.submissions w
             /\ TradingSignal.executed s' = true
             /\ TradingSignal.order_id s' = Some (Order.id order))
  /\ (TradingSignal.direction_attr signal = AsMember ->
      forall (w1 : World.t B) (order : Order.t) (acct : Account.t)
             (ps : list Position.t) (reply : BrokerReply OrderResult.t)
             (b' : B),
        OrderExecutor._create_order_from_signal signal w = (Ok order, w1) ->
        fst (OrderExecutor.account_or_fetch account w1) = Ok acct ->
        fst (OrderExecutor.positions_or_fetch positions w1) = Ok ps ->
        RiskCheckResult.passed (RiskManager.check_order rm order acct ps)
        = true ->
        Broker.submit_order order (World.broker w) = (reply, b') ->
        let s' :=
          snd (fst (OrderExecutor.execute_signal rm signal account positions
                      w)) in
        (submission_failed reply = true -> s' = signal)
        /\ (submission_failed reply = false ->
            TradingSignal.executed s' = true
            /\ TradingSignal.order_id s' = Some (Order.id order))).
Proof.
  split; [| split].
  - intros oid now.
    split; reflexivity.
  - intros r s' w' Hrun.
    destruct (execute_signal_signal rm signal account positions w w' r s'
                Hrun)
      as [Hsame | (order & result & b' & now & _ & Hsub & Hok & Hsubs & ->)].
    + left.
      exact Hsame.
    + right.
      exists order, result, b'.
      repeat split; assumption.
  - intros Hm w1 order acct ps reply b' Hc Ha Hp Hpass Hsub s'.
    split.
    + intros Hfail.
      destruct (execute_signal_rejected rm signal account positions w w1
                  order acct ps reply b' Hm Hc Ha Hp Hpass Hsub Hfail)
        as (now & w' & row & Hrun & _).
      unfold s'.
      rewrite Hrun.
      reflexivity.
    + intros Hok.
      unfold submission_failed in Hok.
      apply negb_false_iff in Hok.
      destruct reply as [result | e]; [| discriminate Hok].
      cbn [submit_result] in Hok.
      destruct (execute_signal_accepted_run rm signal account positions w w1
                  order acct ps result b' Hm Hc Ha Hp Hpass Hsub Hok)
        as (now & w' & Hrun & _).
      unfold s'.
      rewrite Hrun.
      split; reflexivity.
Qed.


End ExecutorFacts.


(** ** The executor on concrete inputs *)

(** C2, as the specification states it, fails: the broker query for the
    second of three active orders raises, and the order is returned all
    the same, in the state the store holds, between the two refreshed
    ones. *)
Lemma sync_returns_unrefreshed_order :
  Broker.query_order "B2" (World.broker (Sample.world Sample.Accepting))
  = Throws "timeout"
  /\ map (fun o => (Order.id o, Order.status o))
       (fst (OrderExecutor.sync_all_active_orders
               (Sample.world Sample.Accepting)))
     = [(21%nat, FILLED); (22%nat, SUBMITTED); (23%nat, FILLED)]
  /\ In Sample.order22
       (fst (OrderExecutor.sync_all_active_orders
               (Sample.world Sample.Accepting))).
Proof.
  split; [reflexivity |].
  split; [vm_compute; reflexivity |].
  vm_compute.
  right; left.
  reflexivity.
Qed.

(** The three active orders of the sample store all come back. *)
Lemma sync_all_returns_every_active_order_witness :
  map Order.id
    (fst (OrderExecutor.sync_all_active_orders
            (Sample.world Sample.Accepting)))
  = map Order.id
      (fst (OrderRepository.get_active_orders
              (Sample.world Sample.Accepting))).
Proof.
  apply (sync_all_returns_every_active_order (Sample.world Sample.Accepting)).
  cbn.
  repeat (constructor; [cbn; intuition discriminate |]).
  constructor.
Defined.



(** The failing input of C5: a signal for 10000 shares at 50.00, as the
    constructor of the model builds it.  The order built from it exceeds
    the order limit and fails the risk check; [execute_signal] raises
    [AttributeError], which is no risk-control error, and leaves the
    world as it was. *)
Lemma risk_failure_leaves_no_trace_witness :
  (exists (order : Order.t) (w1 : World.t Sample.DemoBroker),
      OrderExecutor._create_order_from_signal Sample.large_signal
        (Sample.world Sample.Accepting) = (Ok order, w1)
      /\ RiskCheckResult.passed
           (RiskManager.check_order Sample.risk_manager order Sample.account
              []) = false)
  /\ OrderExecutor.execute_signal Sample.risk_manager Sample.large_signal
       None None (Sample.world Sample.Accepting)
     = ((Raise (AttributeError no_attribute_value), Sample.large_signal),
        Sample.world Sample.Accepting)
  /\ is_RiskControlError (AttributeError no_attribute_value) = false.
Proof.
  split.
  - eexists _, _.
    split; vm_compute; reflexivity.
  - destruct (risk_failure_leaves_no_trace Sample.risk_manager
                Sample.large_signal None None
                (Sample.world Sample.Accepting)) as [Hvalue _].
    exact (Hvalue eq_refl).
Defined.

(** C8, as the specification states it, fails.  The signal is executed
    and linked to order 1; [mark_executed] with another id links it to
    that id, and [execute_signal] on the signal, with the member of the
    enum in [direction] and a broker that accepts, leaves it linked to
    the new order 50 (the call itself raises after [mark_executed], when
    the audit line is built). *)
Lemma executed_signal_relinked :
  TradingSignal.executed Sample.executed_signal = true
  /\ TradingSignal.order_id Sample.executed_signal = Some 1%nat
  /\ TradingSignal.order_id
       (TradingSignal.mark_executed 50%nat 100 Sample.executed_signal)
     = Some 50%nat
  /\ TradingSignal.order_id
       (Sample.with_member Sample.executed_signal) = Some 1%nat
  /\ TradingSignal.order_id
       (snd (fst (OrderExecutor.execute_signal Sample.risk_manager
                    (Sample.with_member Sample.executed_signal) None None
                    (Sample.world Sample.Accepting))))
     = Some 50%nat.
Proof.
  repeat split; vm_compute; reflexivity.
Qed.

(** The market signal with the member of the enum in [direction]: once
    the broker has accepted the order, the signal is linked to it. *)
Lemma signal_linked_on_submission_witness :
  TradingSignal.order_id
    (snd (fst (OrderExecutor.execute_signal Sample.risk_manager
                 (Sample.with_member Sample.market_signal) None None
                 (Sample.world Sample.Accepting))))
  = Some 50%nat.
Proof.
  destruct (signal_linked_on_submission Sample.risk_manager
              (Sample.with_member Sample.market_signal) None None
              (Sample.world Sample.Accepting)) as (_ & _ & Hlinked).
  edestruct (Hlinked eq_refl) as [_ Hok].
  - vm_compute. reflexivity.
  - vm_compute. reflexivity.
  - vm_compute. reflexivity.
  - vm_compute. reflexivity.
  - vm_compute. reflexivity.
  - destruct (Hok eq_refl) as [_ Hid].
    exact Hid.
Defined.


(** * Further properties *)

(** ** The risk checks *)

Lemma Decimal_gtb_iff (a b : Q) : Decimal.gtb a b = true <-> (b < a)%Q.
Proof.
  unfold Decimal.gtb, Decimal.ltb.
  rewrite negb_true_iff.
  split.
  - intros Hle.
    apply Qnot_le_lt.
    intros Hab.
    apply Qle_bool_iff in Hab.
    congruence.
  - intros Hlt.
    destruct (Qle_bool a b) eqn:E; [| reflexivity].
    apply Qle_bool_iff in E.
    exfalso.
    exact (Qlt_not_le _ _ Hlt E).
Qed.

Lemma Decimal_leb_iff (a b : Q) : Decimal.leb a b = true <-> (a <= b)%Q.
Proof.
  unfold Decimal.leb.
  apply Qle_bool_iff.
Qed.

Lemma Decimal_leb_false_iff (a b : Q) : Decimal.leb a b = false <-> (b < a)%Q.
Proof.
  rewrite <- Decimal_gtb_iff.
  unfold Decimal.gtb, Decimal.ltb, Decimal.leb.
  rewrite negb_true_iff.
  reflexivity.
Qed.

Lemma Qlt_div_iff (a b c : Q) :
  (0 < c)%Q -> (a < b / c)%Q <-> (a * c < b)%Q.
Proof.
  intros Hc.
  assert (Hne : ~ (c == 0)%Q).
  { intros Heq. rewrite Heq in Hc. exact (Qlt_irrefl _ Hc). }
  split.
  - intros Hlt.
    apply (Qmult_lt_compat_r _ _ c Hc) in Hlt.
    setoid_replace (b / c * c)%Q with b in Hlt by (field; exact Hne).
    exact Hlt.
  - intros Hlt.
    apply Qlt_shift_div_l; assumption.
Qed.

Lemma check_order_cases (rm : RiskManager.t) (order : Order.t)
    (account : Account.t) (positions : list Position.t) :
  RiskManager.enabled rm = true ->
  let amount := RiskManager._check_order_amount rm order in
  let position :=
    RiskManager._check_position_limit rm order account positions in
  let holdings := RiskManager._check_holdings_limit rm order positions in
  let daily := RiskManager._check_daily_loss rm account in
  let result := RiskManager.check_order rm order account positions in
  (RiskCheckResult.passed amount = false /\ result = amount)
  \/ (RiskCheckResult.passed amount = true
      /\ RiskCheckResult.passed position = false /\ result = position)
  \/ (RiskCheckResult.passed amount = true
      /\ RiskCheckResult.passed position = true
      /\ RiskCheckResult.passed holdings = false /\ result = holdings)
  \/ (RiskCheckResult.passed amount = true
      /\ RiskCheckResult.passed position = true
      /\ RiskCheckResult.passed holdings = true
      /\ RiskCheckResult.passed daily = false /\ result = daily)
  \/ (RiskCheckResult.passed amount = true
      /\ RiskCheckResult.passed position = true
      /\ RiskCheckResult.passed holdings = true
      /\ RiskCheckResult.passed daily = true
      /\ RiskCheckResult.passed result = true
      /\ RiskCheckResult.rule result = "all").
Proof.
  intros Hen amount position holdings daily result.
  unfold result, RiskManager.check_order.
  unfold RiskManager.enabled in Hen.
  rewrite Hen.
  cbn [negb RiskManager.first_failed].
  fold amount position holdings daily.
  destruct (RiskCheckResult.passed amount); cbn [negb]; [| tauto].
  destruct (RiskCheckResult.passed position); cbn [negb]; [| tauto].
  destruct (RiskCheckResult.passed holdings); cbn [negb]; [| tauto].
  destruct (RiskCheckResult.passed daily); cbn [negb]; [| tauto].
  do 4 right.
  repeat split.
Qed.

Lemma position_limit_fails_iff (rm : RiskManager.t) (order : Order.t)
    (account : Account.t) (positions : list Position.t) :
  RiskCheckResult.passed
    (RiskManager._check_position_limit rm order account positions) = false
  <-> Order.direction order = BUY
      /\ (Account.total_asset account
          * RiskConfig.max_position_ratio (RiskManager._config rm)
          < held_value (Order.symbol order) positions + notional order)%Q.
Proof.
  unfold RiskManager._check_position_limit, held_value, notional.
  destruct (Order.direction order).
  - rewrite <- Decimal_gtb_iff.
    destruct (Decimal.gtb _ _); cbn [RiskCheckResult.passed].
    + split; [intros _; split; reflexivity | reflexivity].
    + split; [discriminate | intros [_ H]; discriminate H].
  - cbn [RiskCheckResult.passed].
    split; [discriminate | intros [H _]; discriminate H].
Qed.

(** X1: with the risk control enabled, [check_order] fails with rule
    "position_limit" exactly when the order passes the order-amount
    check, is a BUY, and the market value already held under its symbol
    plus its notional exceeds total_asset x max_position_ratio.  A SELL
    never fails with this rule, and an order without a price counts with
    a notional of zero. *)
Theorem check_order_position_limit (rm : RiskManager.t) (order : Order.t)
    (account : Account.t) (positions : list Position.t) :
  RiskManager.enabled rm = true ->
  let result := RiskManager.check_order rm order account positions in
  (RiskCheckResult.passed result = false
   /\ RiskCheckResult.rule result = "position_limit")
  <-> RiskCheckResult.passed (RiskManager._check_order_amount rm order) = true
      /\ Order.direction order = BUY
      /\ (Account.total_asset account
          * RiskConfig.max_position_ratio (RiskManager._config rm)
          < held_value (Order.symbol order) positions + notional order)%Q.
Proof.
  intros Hen result.
  rewrite <- position_limit_fails_iff.
  pose proof (_check_order_amount_rule rm order) as Ra.
  pose proof (_check_position_limit_rule rm order account positions) as Rp.
  pose proof (_check_holdings_limit_rule rm order positions) as Rh.
  pose proof (_check_daily_loss_rule rm account) as Rd.
  destruct (check_order_cases rm order account positions Hen)
    as [(Ha & Hr) | [(Ha & Hp & Hr) | [(Ha & Hp & Hh & Hr)
        | [(Ha & Hp & Hh & Hd & Hr) | (Ha & Hp & Hh & Hd & Hr & Hrule)]]]];
    fold result in Hr; try fold result in Hrule.
  - rewrite Hr, Ra, Ha.
    split; [intros [_ H]; discriminate H | intros [H _]; discriminate H].
  - rewrite Hr, Rp, Hp, Ha.
    split; repeat split.
  - rewrite Hr, Rh, Hp.
    split; [intros [_ H]; discriminate H | intros [_ H]; discriminate H].
  - rewrite Hr, Rd, Hp.
    split; [intros [_ H]; discriminate H | intros [_ H]; discriminate H].
  - rewrite Hr, Hp.
    split; [intros [H _]; discriminate H | intros [_ H]; discriminate H].
Qed.

(** Scenario B of the specification: 105000 held and 150000 ordered
    against a cap of 200000. *)
Lemma check_order_position_limit_witness :
  RiskCheckResult.passed
    (RiskManager.check_order Cases.wide_manager Cases.topping_up_order
       Sample.account Cases.positions) = false
  /\ RiskCheckResult.rule
       (RiskManager.check_order Cases.wide_manager Cases.topping_up_order
          Sample.account Cases.positions) = "position_limit".
Proof.
  apply (check_order_position_limit Cases.wide_manager Cases.topping_up_order
           Sample.account Cases.positions).
  - reflexivity.
  - split; [reflexivity |].
    split; [reflexivity |].
    vm_compute.
    reflexivity.
Defined.

Lemma current_symbols_length (positions : list Position.t) :
  (length (RiskManager.current_symbols positions) <= length positions)%nat.
Proof.
  unfold RiskManager.current_symbols.
  eapply Nat.le_trans; [apply NoDup_incl_length |].
  - apply NoDup_nodup.
  - intros s Hs.
    apply nodup_In in Hs.
    exact Hs.
  - rewrite length_map.
    apply filter_length_le.
Qed.

Lemma current_symbols_In (symbol : string) (positions : list Position.t) :
  In symbol (RiskManager.current_symbols positions)
  <-> exists p, In p positions /\ Position.symbol p = symbol
                /\ 0 < Position.quantity p.
Proof.
  unfold RiskManager.current_symbols.
  rewrite nodup_In, in_map_iff.
  split.
  - intros (p & Hs & Hin).
    apply filter_In in Hin.
    destruct Hin as [Hin Hq].
    apply Z.ltb_lt in Hq.
    exists p.
    auto.
  - intros (p & Hin & Hs & Hq).
    exists p.
    split; [exact Hs |].
    apply filter_In.
    split; [exact Hin |].
    apply Z.ltb_lt.
    exact Hq.
Qed.

Lemma existsb_eqb_In (symbol : string) (symbols : list string) :
  existsb (String.eqb symbol) symbols = true <-> In symbol symbols.
Proof.
  rewrite existsb_exists.
  split.
  - intros (s & Hin & Heq).
    apply String.eqb_eq in Heq.
    subst s.
    exact Hin.
  - intros Hin.
    exists symbol.
    split; [exact Hin | apply String.eqb_refl].
Qed.

(** X2: the holdings check never fails for a SELL order, for a BUY into
    a symbol that is already held with a positive quantity, or when the
    portfolio lists fewer positions than [max_holdings]. *)
Theorem holdings_limit_exemptions (rm : RiskManager.t) (order : Order.t)
    (positions : list Position.t) :
  Order.direction order = SELL
  \/ (exists p, In p positions /\ Position.symbol p = Order.symbol order
                /\ 0 < Position.quantity p)
  \/ Z.of_nat (length positions)
     < RiskConfig.max_holdings (RiskManager._config rm) ->
  RiskCheckResult.passed (RiskManager._check_holdings_limit rm order positions)
  = true.
Proof.
  intros Hcase.
  unfold RiskManager._check_holdings_limit.
  destruct (Order.direction order) eqn:Hdir; [| reflexivity].
  destruct Hcase as [Hsell | [Hheld | Hroom]]; [discriminate Hsell | |].
  - apply current_symbols_In in Hheld.
    apply existsb_eqb_In in Hheld.
    rewrite Hheld.
    reflexivity.
  - pose proof (current_symbols_length positions) as Hlen.
    destruct (RiskConfig.max_holdings (RiskManager._config rm)
              <=? Z.of_nat (length (RiskManager.current_symbols positions)))
      eqn:E.
    + apply Z.leb_le in E.
      lia.
    + rewrite andb_false_r.
      reflexivity.
Qed.

(** A BUY into 000001.XSHE, which the portfolio holds, with the limit of
    two holdings reached. *)
Lemma holdings_limit_exemptions_witness :
  RiskCheckResult.passed
    (RiskManager._check_holdings_limit Cases.tight_manager
       Cases.topping_up_order Cases.positions) = true.
Proof.
  apply (holdings_limit_exemptions Cases.tight_manager Cases.topping_up_order
           Cases.positions).
  right; left.
  exists Cases.position_000001.
  split; [left; reflexivity |].
  split; reflexivity.
Defined.

(** X3: a BUY of a symbol that is not held fails the holdings check with
    rule "holdings_limit" when the portfolio holds, each under its own
    symbol and with a positive quantity, at least [max_holdings]
    positions. *)
Theorem holdings_limit_full (rm : RiskManager.t) (order : Order.t)
    (positions : list Position.t) :
  Order.direction order = BUY ->
  NoDup (map Position.symbol positions) ->
  Forall (fun p => 0 < Position.quantity p) positions ->
  ~ In (Order.symbol order) (map Position.symbol positions) ->
  RiskConfig.max_holdings (RiskManager._config rm)
  <= Z.of_nat (length positions) ->
  RiskCheckResult.passed (RiskManager._check_holdings_limit rm order positions)
  = false
  /\ RiskCheckResult.rule (RiskManager._check_holdings_limit rm order positions)
     = "holdings_limit".
Proof.
  intros Hdir Hnd Hall Hnew Hfull.
  split; [| apply _check_holdings_limit_rule].
  unfold RiskManager._check_holdings_limit.
  rewrite Hdir.
  assert (Hsyms : RiskManager.current_symbols positions
                  = map Position.symbol positions).
  { unfold RiskManager.current_symbols.
    assert (Hf : filter (fun p => 0 <? Position.quantity p) positions
                 = positions).
    { clear - Hall.
      induction Hall as [| p ps Hp _ IH]; cbn; [reflexivity |].
      apply Z.ltb_lt in Hp.
      rewrite Hp, IH.
      reflexivity. }
    rewrite Hf.
    apply nodup_fixed_point.
    exact Hnd. }
  rewrite Hsyms, length_map.
  destruct (existsb (String.eqb (Order.symbol order))
              (map Position.symbol positions)) eqn:E.
  - apply existsb_eqb_In in E.
    contradiction.
  - apply Z.leb_le in Hfull.
    rewrite Hfull.
    reflexivity.
Qed.

(** A BUY of 000002.XSHE with two other symbols held and a limit of
    two. *)
Lemma holdings_limit_full_witness :
  RiskCheckResult.passed
    (RiskManager._check_holdings_limit Cases.tight_manager
       Sample.large_limit_order Cases.positions) = false.
Proof.
  apply (holdings_limit_full Cases.tight_manager Sample.large_limit_order
           Cases.positions).
  - reflexivity.
  - repeat (constructor; [cbn; intuition discriminate |]).
    constructor.
  - repeat (constructor; [reflexivity |]).
    constructor.
  - cbn.
    intuition discriminate.
  - vm_compute.
    discriminate.
Defined.

(** X4: without a baseline (an initial asset of zero or less) the
    daily-loss check passes; with a baseline it fails exactly when
    baseline - total_asset exceeds max_daily_loss_ratio x baseline, the
    boundary passing. *)
Theorem daily_loss_threshold (rm : RiskManager.t) (account : Account.t) :
  let baseline := RiskManager._initial_asset rm in
  let limit := RiskConfig.max_daily_loss_ratio (RiskManager._config rm) in
  let result := RiskManager._check_daily_loss rm account in
  ((baseline <= 0)%Q -> RiskCheckResult.passed result = true)
  /\ ((0 < baseline)%Q ->
      (RiskCheckResult.passed result = false
       <-> (limit * baseline < baseline - Account.total_asset account)%Q)).
Proof.
  intros baseline limit result.
  unfold result, RiskManager._check_daily_loss.
  fold baseline limit.
  split.
  - intros Hle.
    apply Decimal_leb_iff in Hle.
    unfold Decimal.zero.
    rewrite Hle.
    reflexivity.
  - intros Hpos.
    unfold Decimal.zero.
    rewrite (proj2 (Decimal_leb_false_iff baseline 0) Hpos).
    rewrite <- (Qlt_div_iff _ _ _ Hpos), <- Decimal_gtb_iff.
    destruct (Decimal.gtb _ limit); cbn [RiskCheckResult.passed].
    + split; reflexivity.
    + split; discriminate.
Qed.

(** A baseline of 1000000 and a total asset of 900000: a loss of 10 %
    against a limit of 5 %. *)
Lemma daily_loss_threshold_witness :
  RiskCheckResult.passed
    (RiskManager._check_daily_loss
       (RiskManager.set_initial_asset 1000000%Q Sample.risk_manager)
       Cases.down_account) = false.
Proof.
  destruct (daily_loss_threshold
              (RiskManager.set_initial_asset 1000000%Q Sample.risk_manager)
              Cases.down_account) as [_ Hbase].
  apply Hbase.
  - reflexivity.
  - vm_compute.
    reflexivity.
Defined.

(** X5: right after [set_initial_asset] has taken the total asset of the
    account as the baseline, the daily-loss check passes for that
    account, for every limit that is not negative. *)
Theorem daily_loss_passes_after_reset (rm : RiskManager.t)
    (account : Account.t) :
  (0 <= RiskConfig.max_daily_loss_ratio (RiskManager._config rm))%Q ->
  RiskCheckResult.passed
    (RiskManager._check_daily_loss
       (RiskManager.set_initial_asset (Account.total_asset account) rm)
       account) = true.
Proof.
  intros Hlimit.
  unfold RiskManager._check_daily_loss.
  cbn [RiskManager.set_initial_asset RiskManager._initial_asset
         RiskManager._config].
  set (total := Account.total_asset account).
  destruct (Decimal.leb total Decimal.zero) eqn:Ebase; [reflexivity |].
  apply Decimal_leb_false_iff in Ebase.
  destruct (Decimal.gtb ((total - total) / total)%Q
              (RiskConfig.max_daily_loss_ratio (RiskManager._config rm)))
    eqn:Eloss; [| reflexivity].
  exfalso.
  apply Decimal_gtb_iff in Eloss.
  apply (Qlt_div_iff _ _ _ Ebase) in Eloss.
  setoid_replace (total - total)%Q with 0%Q in Eloss by ring.
  apply (Qlt_not_le _ _ Eloss).
  apply Qmult_le_0_compat; [exact Hlimit |].
  apply Qlt_le_weak.
  exact Ebase.
Qed.

Lemma daily_loss_passes_after_reset_witness :
  RiskCheckResult.passed
    (RiskManager._check_daily_loss
       (RiskManager.set_initial_asset (Account.total_asset Sample.account)
          Sample.risk_manager)
       Sample.account) = true.
Proof.
  apply (daily_loss_passes_after_reset Sample.risk_manager Sample.account).
  vm_compute.
  discriminate.
Defined.

Lemma _check_stop_loss_rule (rm : RiskManager.t) (p : Position.t) :
  RiskCheckResult.rule (RiskManager._check_stop_loss rm p) = "stop_loss".
Proof.
  unfold RiskManager._check_stop_loss.
  destruct (Position.quantity p <=? 0); [reflexivity |].
  destruct (Decimal.geb _ _); reflexivity.
Qed.

Lemma _check_take_profit_rule (rm : RiskManager.t) (p : Position.t) :
  RiskCheckResult.rule (RiskManager._check_take_profit rm p) = "take_profit".
Proof.
  unfold RiskManager._check_take_profit.
  destruct (Position.quantity p <=? 0); [reflexivity |].
  destruct (Decimal.geb _ _); reflexivity.
Qed.

Lemma _check_single_position_ratio_rule (rm : RiskManager.t)
    (p : Position.t) (account : Account.t) :
  RiskCheckResult.rule (RiskManager._check_single_position_ratio rm p account)
  = "single_position_ratio".
Proof.
  unfold RiskManager._check_single_position_ratio.
  destruct (Decimal.leb _ _); [reflexivity |].
  destruct (Decimal.gtb _ _); reflexivity.
Qed.

(** X6: when stop_loss_ratio + take_profit_ratio is positive, no
    position fails both the stop-loss and the take-profit check. *)
Theorem stop_loss_take_profit_exclusive (rm : RiskManager.t)
    (p : Position.t) :
  (0 < RiskConfig.stop_loss_ratio (RiskManager._config rm)
       + RiskConfig.take_profit_ratio (RiskManager._config rm))%Q ->
  RiskCheckResult.passed (RiskManager._check_stop_loss rm p) = true
  \/ RiskCheckResult.passed (RiskManager._check_take_profit rm p) = true.
Proof.
  intros Hsum.
  unfold RiskManager._check_stop_loss, RiskManager._check_take_profit.
  destruct (Position.quantity p <=? 0); [left; reflexivity |].
  destruct (Decimal.geb (- Position.profit_loss_ratio p)%Q
              (RiskConfig.stop_loss_ratio (RiskManager._config rm))) eqn:Es;
    [| left; reflexivity].
  destruct (Decimal.geb (Position.profit_loss_ratio p)
              (RiskConfig.take_profit_ratio (RiskManager._config rm))) eqn:Et;
    [| right; reflexivity].
  exfalso.
  apply Qle_bool_iff in Es, Et.
  revert Hsum Es Et.
  generalize (Position.profit_loss_ratio p)
    (RiskConfig.stop_loss_ratio (RiskManager._config rm))
    (RiskConfig.take_profit_ratio (RiskManager._config rm)).
  intros r s t Hsum Es Et.
  assert (H : (s + t <= - r + r)%Q) by (apply Qplus_le_compat; assumption).
  setoid_replace (- r + r)%Q with 0%Q in H by ring.
  exact (Qlt_not_le _ _ Hsum H).
Qed.

Lemma stop_loss_take_profit_exclusive_witness :
  RiskCheckResult.passed
    (RiskManager._check_stop_loss Sample.risk_manager Sample.losing_position)
  = true
  \/ RiskCheckResult.passed
       (RiskManager._check_take_profit Sample.risk_manager
          Sample.losing_position) = true.
Proof.
  apply (stop_loss_take_profit_exclusive Sample.risk_manager
           Sample.losing_position).
  vm_compute.
  reflexivity.
Defined.

(** X7: the take-profit check passes for a position with a quantity of
    zero or less; for a quantity above zero it fails exactly when the
    [profit_loss_ratio] of the position is at least take_profit_ratio,
    the boundary failing. *)
Theorem take_profit_threshold (rm : RiskManager.t) (p : Position.t) :
  let result := RiskManager._check_take_profit rm p in
  (Position.quantity p <= 0 -> RiskCheckResult.passed result = true)
  /\ (0 < Position.quantity p ->
      (RiskCheckResult.passed result = false
       <-> (RiskConfig.take_profit_ratio (RiskManager._config rm)
            <= Position.profit_loss_ratio p)%Q)).
Proof.
  intros result.
  unfold result, RiskManager._check_take_profit.
  split.
  - intros Hq.
    apply Z.leb_le in Hq.
    rewrite Hq.
    reflexivity.
  - intros Hq.
    destruct (Z.leb_spec (Position.quantity p) 0) as [Hle | _]; [lia |].
    unfold Decimal.geb.
    rewrite <- Decimal_leb_iff.
    destruct (Decimal.leb _ _); cbn [RiskCheckResult.passed].
    + split; reflexivity.
    + split; discriminate.
Qed.

(** The position of [test_check_take_profit_triggered]: bought at 10.00
    and quoted at 12.50. *)
Lemma take_profit_threshold_witness :
  RiskCheckResult.passed
    (RiskManager._check_take_profit Sample.risk_manager
       Cases.winning_position) = false.
Proof.
  destruct (take_profit_threshold Sample.risk_manager Cases.winning_position)
    as [_ Hheld].
  apply Hheld.
  - reflexivity.
  - vm_compute.
    discriminate.
Defined.

(** X8: the single-position check passes when the total asset is zero or
    less; otherwise it fails exactly when the market value of the
    position exceeds max_position_ratio x total_asset. *)
Theorem single_position_ratio_threshold (rm : RiskManager.t)
    (p : Position.t) (account : Account.t) :
  let result := RiskManager._check_single_position_ratio rm p account in
  ((Account.total_asset account <= 0)%Q ->
   RiskCheckResult.passed result = true)
  /\ ((0 < Account.total_asset account)%Q ->
      (RiskCheckResult.passed result = false
       <-> (RiskConfig.max_position_ratio (RiskManager._config rm)
            * Account.total_asset account
            < Position.market_value p)%Q)).
Proof.
  intros result.
  unfold result, RiskManager._check_single_position_ratio.
  split.
  - intros Hle.
    apply Decimal_leb_iff in Hle.
    unfold Decimal.zero.
    rewrite Hle.
    reflexivity.
  - intros Hpos.
    unfold Decimal.zero.
    rewrite (proj2 (Decimal_leb_false_iff _ 0) Hpos).
    rewrite <- (Qlt_div_iff _ _ _ Hpos), <- Decimal_gtb_iff.
    destruct (Decimal.gtb _ _); cbn [RiskCheckResult.passed].
    + split; reflexivity.
    + split; discriminate.
Qed.

(** A position worth 300000 in an account of 1000000, against a cap of
    20 %. *)
Lemma single_position_ratio_threshold_witness :
  RiskCheckResult.passed
    (RiskManager._check_single_position_ratio Sample.risk_manager
       Cases.heavy_position Sample.account) = false.
Proof.
  destruct (single_position_ratio_threshold Sample.risk_manager
              Cases.heavy_position Sample.account) as [_ Hasset].
  apply Hasset.
  - reflexivity.
  - vm_compute.
    reflexivity.
Defined.

(** X9: [check_all] returns one result for the daily loss followed, for
    every position in turn, by its stop-loss, take-profit and
    single-position results: 1 + 3n results for n positions, failed ones
    included, none left out.  The master switch [enabled] does not gate
    it. *)
Theorem check_all_reports_everything (rm : RiskManager.t)
    (account : Account.t) (positions : list Position.t) :
  map RiskCheckResult.rule (RiskManager.check_all rm account positions)
  = "daily_loss"
    :: flat_map (fun _ => ["stop_loss"; "take_profit"; "single_position_ratio"])
         positions
  /\ length (RiskManager.check_all rm account positions)
     = S (3 * length positions)
  /\ (forall p, In p positions ->
                In (RiskManager._check_stop_loss rm p)
                  (RiskManager.check_all rm account positions)
                /\ In (RiskManager._check_take_profit rm p)
                     (RiskManager.check_all rm account positions)
                /\ In (RiskManager._check_single_position_ratio rm p account)
                     (RiskManager.check_all rm account positions))
  /\ forall flag : bool,
       RiskManager.check_all (with_enabled flag rm) account positions
       = RiskManager.check_all rm account positions.
Proof.
  unfold RiskManager.check_all.
  split; [| split; [| split]].
  - cbn [map].
    rewrite _check_daily_loss_rule.
    f_equal.
    induction positions as [| p ps IH]; cbn; [reflexivity |].
    rewrite _check_stop_loss_rule, _check_take_profit_rule,
      _check_single_position_ratio_rule, IH.
    reflexivity.
  - cbn [length].
    f_equal.
    induction positions as [| p ps IH]; cbn; [reflexivity |].
    rewrite IH.
    lia.
  - intros p Hin.
    repeat split; right; apply in_flat_map; exists p;
      (split; [exact Hin | cbn; tauto]).
  - intros flag.
    reflexivity.
Qed.

Lemma check_all_reports_everything_witness :
  In (RiskManager._check_stop_loss Sample.risk_manager Cases.position_600000)
    (RiskManager.check_all Sample.risk_manager Sample.account Cases.positions).
Proof.
  destruct (check_all_reports_everything Sample.risk_manager Sample.account
              Cases.positions) as (_ & _ & Hin & _).
  apply (Hin Cases.position_600000).
  right; left.
  reflexivity.
Defined.

(** X10: [validate_order_or_raise] returns exactly when [check_order]
    passes, and always when the risk control is disabled.  Otherwise it
    raises, with the message of the failed check, a position-limit error
    for rule "position_limit", a daily-loss error for rule "daily_loss"
    and the generic risk-control error carrying the rule for
    "order_amount" and "holdings_limit"; it never raises a stop-loss
    error. *)
Theorem validate_order_error_kinds (rm : RiskManager.t) (order : Order.t)
    (account : Account.t) (positions : list Position.t) :
  let result := RiskManager.check_order rm order account positions in
  let outcome :=
    RiskManager.validate_order_or_raise rm order account positions in
  (outcome = Ok tt <-> RiskCheckResult.passed result = true)
  /\ (RiskManager.enabled rm = false -> outcome = Ok tt)
  /\ (forall e : Exn,
         outcome = Raise e ->
         (RiskCheckResult.rule result = "position_limit"
          /\ e = PositionLimitError (RiskCheckResult.message result))
         \/ (RiskCheckResult.rule result = "daily_loss"
             /\ e = DailyLossLimitError (RiskCheckResult.message result))
         \/ ((RiskCheckResult.rule result = "order_amount"
              \/ RiskCheckResult.rule result = "holdings_limit")
             /\ e = RiskControlError (RiskCheckResult.message result)
                      (RiskCheckResult.rule result)))
  /\ (forall message : Message, outcome <> Raise (StopLossError message)).
Proof.
  intros result outcome.
  assert (Hpass : RiskCheckResult.passed result = true -> outcome = Ok tt).
  { intros Hp.
    unfold outcome, RiskManager.validate_order_or_raise.
    fold result.
    rewrite Hp.
    reflexivity. }
  assert (Hkinds :
            forall e : Exn,
              outcome = Raise e ->
              (RiskCheckResult.rule result = "position_limit"
               /\ e = PositionLimitError (RiskCheckResult.message result))
              \/ (RiskCheckResult.rule result = "daily_loss"
                  /\ e = DailyLossLimitError (RiskCheckResult.message result))
              \/ ((RiskCheckResult.rule result = "order_amount"
                   \/ RiskCheckResult.rule result = "holdings_limit")
                  /\ e = RiskControlError (RiskCheckResult.message result)
                           (RiskCheckResult.rule result))).
  { intros e.
    destruct (RiskManager.enabled rm) eqn:Hen.
    - pose proof (_check_order_amount_rule rm order) as Ra.
      pose proof (_check_position_limit_rule rm order account positions) as Rp.
      pose proof (_check_holdings_limit_rule rm order positions) as Rh.
      pose proof (_check_daily_loss_rule rm account) as Rd.
      unfold outcome, RiskManager.validate_order_or_raise.
      fold result.
      destruct (check_order_cases rm order account positions Hen)
        as [(Ha & Hr) | [(_ & Hp & Hr) | [(_ & _ & Hh & Hr)
            | [(_ & _ & _ & Hd & Hr) | (_ & _ & _ & _ & Hr & _)]]]];
        fold result in Hr.
      + rewrite Hr, Ra, Ha.
        cbn.
        intros [= <-].
        right; right.
        split; [left |]; reflexivity.
      + rewrite Hr, Rp, Hp.
        cbn.
        intros [= <-].
        left.
        split; reflexivity.
      + rewrite Hr, Rh, Hh.
        cbn.
        intros [= <-].
        right; right.
        split; [right |]; reflexivity.
      + rewrite Hr, Rd, Hd.
        cbn.
        intros [= <-].
        right; left.
        split; reflexivity.
      + rewrite Hr.
        discriminate.
    - unfold outcome, RiskManager.validate_order_or_raise,
        RiskManager.check_order.
      unfold RiskManager.enabled in Hen.
      rewrite Hen.
      discriminate. }
  split; [| split; [| split]].
  - split; [| exact Hpass].
    intros Hok.
    destruct (RiskCheckResult.passed result) eqn:E; [reflexivity |].
    exfalso.
    revert Hok.
    unfold outcome, RiskManager.validate_order_or_raise.
    fold result.
    rewrite E.
    cbn [negb].
    repeat match goal with
           | |- context [if ?c then _ else _] => destruct c
           end; discriminate.
  - intros Hdis.
    apply Hpass.
    unfold result, RiskManager.check_order.
    unfold RiskManager.enabled in Hdis.
    rewrite Hdis.
    reflexivity.
  - exact Hkinds.
  - intros message Hstop.
    destruct (Hkinds _ Hstop) as [[_ H] | [[_ H] | [_ H]]]; discriminate H.
Qed.

Lemma validate_order_error_kinds_witness :
  RiskManager.validate_order_or_raise Sample.risk_manager Sample.filled_order
    Sample.account [] = Ok tt.
Proof.
  destruct (validate_order_error_kinds Sample.risk_manager Sample.filled_order
              Sample.account []) as [Hiff _].
  apply Hiff.
  reflexivity.
Defined.

(** ** The trading calendar, further *)

Lemma on_the_minute_eq (x : TimeOfDay.t) :
  on_the_minute x ->
  TimeOfDay.mk (TimeOfDay.hour x) (TimeOfDay.minute x) 0 0 = x.
Proof.
  destruct x as [h m s us].
  unfold on_the_minute.
  cbn.
  intros [-> ->].
  reflexivity.
Qed.

(** X11: the instant [get_next_trading_time] returns, when it returns
    one, is on the day of the probe, strictly later than the probe, and
    at the start of the morning or of the afternoon window.  The weekday
    is not looked at: the instant is a trading time exactly when the day
    is not a Saturday or a Sunday. *)
Theorem next_trading_time_same_day (sch : TradingScheduler.t)
    (now : DateTime.t) (dt : option DateTime.t) (next : DateTime.t) :
  let instant := match dt with Some d => d | None => now end in
  on_the_minute (TradingScheduler._morning_start sch) ->
  on_the_minute (TradingScheduler._afternoon_start sch) ->
  TimeOfDay.leb (TradingScheduler._morning_start sch)
    (TradingScheduler._morning_end sch) = true ->
  TimeOfDay.leb (TradingScheduler._afternoon_start sch)
    (TradingScheduler._afternoon_end sch) = true ->
  TradingScheduler.get_next_trading_time sch now dt = Some next ->
  DateTime.toordinal next = DateTime.toordinal instant
  /\ TimeOfDay.ltb (DateTime.time instant) (DateTime.time next) = true
  /\ (DateTime.time next = TradingScheduler._morning_start sch
      \/ DateTime.time next = TradingScheduler._afternoon_start sch)
  /\ (TradingScheduler.is_trading_time sch now (Some next) = true
      <-> DateTime.weekday instant < 5).
Proof.
  intros instant Hms Has Hmorning Hafternoon.
  unfold TradingScheduler.get_next_trading_time.
  fold instant.
  assert (Hrefl : forall x, TimeOfDay.leb x x = true).
  { intros x.
    unfold TimeOfDay.leb, TimeOfDay.eqb.
    rewrite !Z.eqb_refl.
    apply orb_true_r. }
  assert (Htrading :
            forall t : TimeOfDay.t,
              t = TradingScheduler._morning_start sch
              \/ t = TradingScheduler._afternoon_start sch ->
              TradingScheduler.is_trading_time sch now
                (Some (DateTime.mk (DateTime.toordinal instant) t)) = true
              <-> DateTime.weekday instant < 5).
  { intros t Ht.
    unfold TradingScheduler.is_trading_time, DateTime.weekday.
    cbn [DateTime.toordinal DateTime.time].
    fold (DateTime.weekday instant).
    destruct (Z.leb_spec 5 (DateTime.weekday instant)) as [Hwe | Hwd].
    - split; [discriminate | lia].
    - split; [intros _; exact Hwd | intros _].
      destruct Ht as [-> | ->].
      + rewrite Hrefl, Hmorning.
        reflexivity.
      + rewrite Hrefl, Hafternoon.
        apply orb_true_r. }
  destruct (TimeOfDay.ltb (DateTime.time instant)
              (TradingScheduler._morning_start sch)) eqn:E1.
  - intros [= <-].
    unfold DateTime.replace_hm.
    cbn [DateTime.toordinal DateTime.time].
    rewrite (on_the_minute_eq _ Hms).
    repeat split; [exact E1 | left; reflexivity | |];
      apply Htrading; left; reflexivity.
  - destruct (TimeOfDay.ltb (TradingScheduler._morning_end sch)
                (DateTime.time instant)
              && TimeOfDay.ltb (DateTime.time instant)
                   (TradingScheduler._afternoon_start sch)) eqn:E2;
      [| discriminate].
    apply andb_true_iff in E2.
    destruct E2 as [_ E2].
    intros [= <-].
    unfold DateTime.replace_hm.
    cbn [DateTime.toordinal DateTime.time].
    rewrite (on_the_minute_eq _ Has).
    repeat split; [exact E2 | right; reflexivity | |];
      apply Htrading; right; reflexivity.
Qed.

(** Saturday 08:00: the next trading time is 09:30 of that Saturday. *)
Lemma next_trading_time_same_day_witness :
  DateTime.toordinal Cases.saturday_0930
  = DateTime.toordinal Cases.saturday_0800
  /\ (TradingScheduler.is_trading_time Sample.scheduler Cases.saturday_0800
        (Some Cases.saturday_0930) = true
      <-> DateTime.weekday Cases.saturday_0800 < 5).
Proof.
  destruct (next_trading_time_same_day Sample.scheduler Cases.saturday_0800
              (Some Cases.saturday_0800) Cases.saturday_0930)
    as (Hday & _ & _ & Htrading).
  - split; reflexivity.
  - split; reflexivity.
  - reflexivity.
  - reflexivity.
  - reflexivity.
  - split; [exact Hday | exact Htrading].
Defined.

(** X12: during trading time there is no next trading time: with the
    morning window starting no later than the afternoon window,
    [get_next_trading_time] returns [None] for every instant at which
    [is_trading_time] holds. *)
Theorem no_next_trading_time_in_window (sch : TradingScheduler.t)
    (now : DateTime.t) (dt : option DateTime.t) :
  let instant := match dt with Some d => d | None => now end in
  TimeOfDay.valid (DateTime.time instant) ->
  TimeOfDay.valid (TradingScheduler._morning_start sch) ->
  TimeOfDay.valid (TradingScheduler._morning_end sch) ->
  TimeOfDay.valid (TradingScheduler._afternoon_start sch) ->
  TimeOfDay.valid (TradingScheduler._afternoon_end sch) ->
  TimeOfDay.leb (TradingScheduler._morning_start sch)
    (TradingScheduler._afternoon_start sch) = true ->
  TradingScheduler.is_trading_time sch now dt = true ->
  TradingScheduler.get_next_trading_time sch now dt = None.
Proof.
  intros instant Vt Vms Vme Vas Vae Horder.
  unfold TradingScheduler.is_trading_time,
    TradingScheduler.get_next_trading_time.
  fold instant.
  destruct (5 <=? DateTime.weekday instant); [discriminate |].
  rewrite orb_true_iff, !andb_true_iff.
  rewrite !TimeOfDay_leb_micros by assumption.
  apply TimeOfDay_leb_micros in Horder; [| assumption | assumption].
  rewrite !TimeOfDay_ltb_micros by assumption.
  intros Hwin.
  destruct (Z.ltb_spec (TimeOfDay.to_micros (DateTime.time instant))
              (TimeOfDay.to_micros (TradingScheduler._morning_start sch)));
    [lia |].
  destruct (Z.ltb_spec
              (TimeOfDay.to_micros (TradingScheduler._morning_end sch))
              (TimeOfDay.to_micros (DateTime.time instant)));
    destruct (Z.ltb_spec (TimeOfDay.to_micros (DateTime.time instant))
                (TimeOfDay.to_micros (TradingScheduler._afternoon_start sch)));
    cbn [andb]; try reflexivity.
  lia.
Qed.

Lemma no_next_trading_time_in_window_witness :
  TradingScheduler.get_next_trading_time Sample.scheduler Sample.monday_1130
    (Some Sample.monday_1130) = None.
Proof.
  assert (V : forall h m, 0 <= h < 24 -> 0 <= m < 60 ->
                          TimeOfDay.valid (TimeOfDay.mk h m 0 0)).
  { intros h m Hh Hm.
    unfold TimeOfDay.valid.
    cbn.
    lia. }
  apply (no_next_trading_time_in_window Sample.scheduler Sample.monday_1130
           (Some Sample.monday_1130));
    try (apply V; lia);
    reflexivity.
Defined.

(** X13: [is_signal_fetch_time] and [is_order_execute_time] hold during
    the whole minute of the configured time and at no other time of the
    day, on every day of the week: they look neither at the seconds nor
    at the weekday. *)
Theorem minute_matches (sch : TradingScheduler.t) (now : DateTime.t)
    (dt : option DateTime.t) :
  let instant := match dt with Some d => d | None => now end in
  let t := TimeOfDay.to_micros (DateTime.time instant) in
  let minute_of (x : TimeOfDay.t) :=
    TimeOfDay.to_micros
      (TimeOfDay.mk (TimeOfDay.hour x) (TimeOfDay.minute x) 0 0) in
  TimeOfDay.valid (DateTime.time instant) ->
  TimeOfDay.valid (TradingScheduler._signal_fetch_time sch) ->
  TimeOfDay.valid (TradingScheduler._order_execute_time sch) ->
  (TradingScheduler.is_signal_fetch_time sch now dt = true
   <-> minute_of (TradingScheduler._signal_fetch_time sch) <= t
       < minute_of (TradingScheduler._signal_fetch_time sch) + 60000000)
  /\ (TradingScheduler.is_order_execute_time sch now dt = true
      <-> minute_of (TradingScheduler._order_execute_time sch) <= t
          < minute_of (TradingScheduler._order_execute_time sch) + 60000000).
Proof.
  intros instant t minute_of Vt Vf Ve.
  unfold TradingScheduler.is_signal_fetch_time,
    TradingScheduler.is_order_execute_time.
  fold instant.
  unfold t, minute_of, TimeOfDay.to_micros, TimeOfDay.valid in *.
  cbn [TimeOfDay.hour TimeOfDay.minute TimeOfDay.second
         TimeOfDay.microsecond].
  rewrite !andb_true_iff, !Z.eqb_eq.
  split; lia.
Qed.

(** Saturday 09:00:30 is a signal-fetch time. *)
Lemma minute_matches_witness :
  TradingScheduler.is_signal_fetch_time Sample.scheduler Cases.saturday_0800
    (Some Cases.saturday_090030) = true.
Proof.
  destruct (minute_matches Sample.scheduler Cases.saturday_0800
              (Some Cases.saturday_090030)) as [Hfetch _].
  - unfold TimeOfDay.valid.
    cbn.
    lia.
  - unfold TimeOfDay.valid.
    cbn.
    lia.
  - unfold TimeOfDay.valid.
    cbn.
    lia.
  - apply Hfetch.
    cbn.
    lia.
Defined.

(** ** The order store, further *)

(** *** The price columns *)

Lemma round_half_even_close (y : Q) :
  (Qabs (inject_Z (Decimal.round_half_even y) - y) <= 1 # 2)%Q.
Proof.
  pose proof (round_half_even_near y) as Hn.
  destruct y as [n d].
  cbn [Qnum Qden] in Hn.
  unfold Qle, Qabs, Qminus, Qplus, Qopp, inject_Z.
  cbn [Qnum Qden].
  nia.
Qed.

Lemma round_half_even_unique (y : Q) (k : Z) :
  (Qabs (y - inject_Z k) < 1 # 2)%Q -> Decimal.round_half_even y = k.
Proof.
  intros Hk.
  pose proof (round_half_even_near y) as Hn.
  destruct y as [n d].
  cbn [Qnum Qden] in Hn.
  unfold Qlt, Qabs, Qminus, Qplus, Qopp, inject_Z in Hk.
  cbn [Qnum Qden] in Hk.
  nia.
Qed.

Lemma pow2_pos (e : Z) : (0 < Float.pow2 e)%Q.
Proof.
  apply Qpower_0_lt.
  reflexivity.
Qed.

(** The rounding error of [float(d)] is at most half a unit in the last
    place. *)
Lemma of_decimal_close (q : Q) :
  ~ (q == 0)%Q ->
  (Qabs (Float.of_decimal q - q)
   <= Float.pow2 (Z.max (Float.ilog2 q - 52) (-1074)) * (1 # 2))%Q.
Proof.
  intros Hq.
  unfold Float.of_decimal, Decimal.eqb, Decimal.zero.
  destruct (Qeq_bool q 0) eqn:E.
  - apply Qeq_bool_iff in E.
    contradiction.
  - cbv zeta.
    set (P := Float.pow2 (Z.max (Float.ilog2 q - 52) (-1074))).
    pose proof (pow2_pos (Z.max (Float.ilog2 q - 52) (-1074))) as HP.
    fold P in HP.
    pose proof (round_half_even_close (q / P)) as Hm.
    set (m := inject_Z (Decimal.round_half_even (q / P))) in *.
    assert (Heq : (m * P - q == (m - q / P) * P)%Q).
    { field.
      intros HP0.
      rewrite HP0 in HP.
      discriminate HP. }
    rewrite Heq, Qabs_Qmult.
    rewrite (Qabs_pos P) by (apply Qlt_le_weak; exact HP).
    rewrite (Qmult_comm P).
    apply Qmult_le_compat_r; [exact Hm |].
    apply Qlt_le_weak.
    exact HP.
Qed.

Lemma ilog2_below (q : Q) :
  (Qabs q < 134217728)%Q -> Float.ilog2 q <= 26.
Proof.
  intros Hq.
  unfold Float.ilog2.
  set (k := Z.log2 (Z.abs (Qnum q)) - Z.log2 (Z.pos (Qden q))).
  destruct (Qle_bool (Float.pow2 k) (Qabs q)) eqn:E.
  - apply Qle_bool_iff in E.
    assert (Hlt : (Float.pow2 k < Float.pow2 27)%Q).
    { apply Qle_lt_trans with (Qabs q); [exact E |].
      exact Hq. }
    apply Qpower_lt_compat_l_inv in Hlt; [lia | reflexivity].
  - assert (Hk : k <= 27); [| lia].
    unfold k.
    destruct q as [n d].
    unfold Qlt, Qabs in Hq.
    cbn [Qnum Qden] in *.
    assert (Hle : Z.abs n <= Z.pos d * 2 ^ 27) by lia.
    apply Z.log2_le_mono in Hle.
    rewrite Z.log2_mul_pow2 in Hle by lia.
    lia.
Qed.

(** A price of at most twelve digits, four of them decimals, comes back
    from a [Numeric(12, 4)] column as it went in. *)
Lemma price_kept (k : Z) :
  k <> 0 -> Z.abs k < 10 ^ 12 ->
  OrderRepository.of_column (OrderRepository.column (Some (k # 10000)))
  = Some (k # 10000).
Proof.
  intros Hk Hbound.
  set (q := (k # 10000)%Q).
  assert (Hq : ~ (q == 0)%Q).
  { unfold q, Qeq.
    cbn.
    lia. }
  assert (Htruthy : Decimal.truthy (Some q) = true).
  { unfold Decimal.truthy, Decimal.eqb, Decimal.zero.
    destruct (Qeq_bool q 0) eqn:E; [| reflexivity].
    apply Qeq_bool_iff in E.
    contradiction. }
  unfold OrderRepository.column.
  rewrite Htruthy.
  cbn [option_map].
  unfold OrderRepository.of_column.
  cbn [option_map].
  assert (Hround : Float.format_fixed 4 (Float.of_decimal q) = q).
  { unfold Float.format_fixed, Decimal.quantize.
    change (Decimal.pow10 4) with 10000%positive.
    unfold q.
    f_equal.
    apply round_half_even_unique.
    pose proof (of_decimal_close q Hq) as Hclose.
    assert (Hq27 : (Qabs q < 134217728)%Q).
    { unfold q, Qlt, Qabs.
      cbn [Qnum Qden].
      lia. }
    pose proof (ilog2_below q Hq27) as Hlog.
    assert (HP : (Float.pow2 (Z.max (Float.ilog2 q - 52) (-1074))
                  <= Float.pow2 (-26))%Q).
    { apply Qpower_le_compat_l; [lia | discriminate]. }
    fold q.
    set (x := Float.of_decimal q) in *.
    assert (Heq : (x * inject_Z 10000 - inject_Z k
                   == (x - q) * inject_Z 10000)%Q).
    { unfold q.
      unfold Qeq, Qminus, Qplus, Qmult, Qopp, inject_Z.
      cbn [Qnum Qden].
      destruct x as [xn xd].
      cbn [Qnum Qden].
      lia. }
    rewrite Heq, Qabs_Qmult.
    apply Qle_lt_trans
      with (Float.pow2 (-26) * (1 # 2) * Qabs (inject_Z 10000))%Q.
    - apply Qmult_le_compat_r; [| apply Qabs_nonneg].
      apply Qle_trans with (1 := Hclose).
      apply Qmult_le_compat_r; [exact HP | discriminate].
    - reflexivity. }
  rewrite Hround.
  cbv zeta.
  unfold Float.t, Decimal.t in *.
  rewrite Htruthy.
  reflexivity.
Qed.

Lemma column_kept (d : option Decimal.t) :
  kept_by_column d ->
  OrderRepository.of_column (OrderRepository.column d) = d.
Proof.
  destruct d as [[k den] |]; [| reflexivity].
  cbn [kept_by_column Qnum Qden].
  intros (-> & Hk & Hbound).
  apply price_kept; assumption.
Qed.

Section StoreExtras.
Context {B : Type} `{Broker.t B}.


(** X15: saving an order under an id that the store holds rewrites the
    status, the fill, the broker id, the error message and the update
    time of the row, and nothing else: the symbol, the direction, the
    quantity, the price, the kind, the signal and the creation time of
    the row stay, whatever the saved order says, and no row is added.
    The filled price is written as a [float], and [None] when the order
    has none or a zero one: reading the row gives it rounded to four
    decimals.  The filled quantity is within the range of the INTEGER
    column. *)
Theorem save_existing_rewrites_six_columns (order existing : Order.t)
    (w : World.t B) :
  OrderRepository.first_by_id (Order.id order) (World.orders w)
  = Some existing ->
  fits_integer_column (Order.filled_quantity order) ->
  exists row : Order.t,
    OrderRepository.first_by_id (Order.id order)
      (World.orders (snd (OrderRepository.save order w))) = Some row
    /\ (Order.symbol row, Order.direction row, Order.quantity row,
        Order.price row, Order.order_type row, Order.signal_id row,
        Order.created_at row)
       = (Order.symbol existing, Order.direction existing,
          Order.quantity existing, Order.price existing,
          Order.order_type existing, Order.signal_id existing,
          Order.created_at existing)
    /\ (Order.status row, Order.filled_quantity row,
        Order.broker_order_id row, Order.error_message row)
       = (Order.status order, Order.filled_quantity order,
          Order.broker_order_id order, Order.error_message order)
    /\ Order.filled_price row
       = (if Decimal.truthy (Order.filled_price order)
          then option_map Float.of_decimal (Order.filled_price order)
          else None)
    /\ Order.filled_price (OrderRepository._to_model row)
       = OrderRepository.of_column
           (OrderRepository.column (Order.filled_price order))
    /\ (kept_by_column (Order.filled_price order) ->
        Order.filled_price (OrderRepository._to_model row)
        = Order.filled_price order)
    /\ Order.updated_at row = World.clock w
    /\ length (World.orders (snd (OrderRepository.save order w)))
       = length (World.orders w).
Proof.
  intros Hex _.
  exists (OrderRepository.update_row order (World.clock w) existing).
  unfold OrderRepository.save.
  rewrite Hex.
  unfold World.set_orders, datetime_now.
  cbn [snd World.orders World.clock].
  split.
  - apply first_by_id_replace_same; [reflexivity | exact Hex].
  - repeat split.
    + intros Hkept.
      exact (column_kept _ Hkept).
    + clear Hex.
      induction (World.orders w) as [| r rows IH]; cbn; [reflexivity |].
      destruct (Nat.eqb (Order.id r) (Order.id order)); cbn; [reflexivity |].
      rewrite IH.
      reflexivity.
Qed.


Lemma store_kept_same (w w' : World.t B) :
  World.orders w' = World.orders w -> store_kept w w'.
Proof.
  unfold store_kept, order_ids.
  intros ->.
  split; [trivial | apply incl_refl].
Qed.

Lemma store_kept_trans (w1 w2 w3 : World.t B) :
  store_kept w1 w2 -> store_kept w2 w3 -> store_kept w1 w3.
Proof.
  unfold store_kept.
  intros [Hn1 Hi1] [Hn2 Hi2].
  split; [auto | exact (incl_tran Hi1 Hi2)].
Qed.

Lemma save_kept (order : Order.t) (w : World.t B) :
  store_kept w (snd (OrderRepository.save order w)).
Proof.
  split.
  - apply save_keeps_primary_key.
  - unfold order_ids, OrderRepository.save.
    destruct (OrderRepository.first_by_id (Order.id order) (World.orders w)).
    + unfold World.set_orders, datetime_now.
      cbn [snd World.orders World.clock].
      rewrite replace_first_ids; [apply incl_refl | reflexivity].
    + unfold World.set_orders.
      cbn [snd World.orders].
      rewrite map_app.
      apply incl_appl, incl_refl.
Qed.

Lemma bindS_kept {A C : Type} (c : St B A) (k : A -> St B C) :
  (forall w, store_kept w (snd (c w))) ->
  (forall a w, store_kept w (snd (k a w))) ->
  forall w, store_kept w (snd (bindS c k w)).
Proof.
  intros Hc Hk w.
  rewrite bindS_eq.
  exact (store_kept_trans _ _ _ (Hc w) (Hk _ _)).
Qed.

Lemma bind_kept {A C : Type} (c : M B A) (k : A -> M B C) :
  (forall w, store_kept w (snd (c w))) ->
  (forall a w, store_kept w (snd (k a w))) ->
  forall w, store_kept w (snd (bind c k w)).
Proof.
  intros Hc Hk.
  unfold bind.
  apply bindS_kept; [exact Hc |].
  intros [a | e] w; [apply Hk | apply store_kept_same; reflexivity].
Qed.

Lemma datetime_now_kept (w : World.t B) :
  store_kept w (snd (datetime_now w)).
Proof.
  apply store_kept_same.
  reflexivity.
Qed.

Lemma log_kept (level : string) (message : Message)
    (context : list (string * ContextValue)) (w : World.t B) :
  store_kept w (snd (TradeLogRepository.log level message context w)).
Proof.
  apply store_kept_same.
  reflexivity.
Qed.

Lemma _submit_order_kept (order : Order.t) (w : World.t B) :
  store_kept w (snd (OrderExecutor._submit_order order w)).
Proof.
  apply store_kept_same.
  unfold OrderExecutor._submit_order.
  destruct (Broker.submit_order order (World.broker w)) as [[result | e] b];
    reflexivity.
Qed.

Lemma new_Order_kept (symbol : string) (direction : OrderDirection)
    (quantity : Z) (price : option Decimal.t) (order_type : OrderType)
    (signal_id : option UUID) (w : World.t B) :
  store_kept w
    (snd (new_Order symbol direction quantity price order_type signal_id w)).
Proof.
  apply store_kept_same.
  apply new_Order_books.
Qed.

Lemma sync_order_status_kept (oid : UUID) (w : World.t B) :
  store_kept w (snd (OrderExecutor.sync_order_status oid w)).
Proof.
  unfold OrderExecutor.sync_order_status.
  apply bindS_kept.
  - intros w0.
    apply store_kept_same.
    reflexivity.
  - intros [order |] w0; [| apply store_kept_same; reflexivity].
    destruct (negb (str_truthy (Order.broker_order_id order)));
      [apply store_kept_same; reflexivity |].
    destruct (Broker.query_order _ (World.broker w0)) as [[snapshot |] | e];
      try (apply store_kept_same; reflexivity).
    apply bindS_kept; [apply datetime_now_kept |].
    intros now w1.
    apply bindS_kept; [apply save_kept |].
    intros _ w2.
    apply store_kept_same.
    reflexivity.
Qed.

Lemma sync_each_kept (active acc : list Order.t) (w : World.t B) :
  store_kept w (snd (OrderExecutor.sync_each active acc w)).
Proof.
  revert acc w.
  induction active as [| order rest IH]; intros acc w.
  - apply store_kept_same.
    reflexivity.
  - cbn [OrderExecutor.sync_each].
    apply bindS_kept; [apply sync_order_status_kept |].
    intros [o |] w0; apply IH.
Qed.

(** X18: every operation of the executor keeps the primary key of the
    order table (pairwise different ids stay pairwise different) and
    removes no order from it, whether it returns or raises. *)
Theorem executor_keeps_store (w : World.t B) :
  (forall rm signal account positions,
      store_kept w
        (snd (OrderExecutor.execute_signal rm signal account positions w)))
  /\ (forall order,
         store_kept w (snd (OrderExecutor.submit_order order w)))
  /\ (forall oid, store_kept w (snd (OrderExecutor.cancel_order oid w)))
  /\ (forall oid,
         store_kept w (snd (OrderExecutor.sync_order_status oid w)))
  /\ store_kept w (snd (OrderExecutor.sync_all_active_orders w)).
Proof.
  split; [| split; [| split; [| split]]].
  - intros rm signal account positions.
    revert w.
    unfold OrderExecutor.execute_signal.
    destruct (dot_value _ _) as [value | e];
      [| intros w; apply store_kept_same; reflexivity].
    apply bindS_kept.
    { apply bind_kept.
      { intros w.
        apply new_Order_kept. }
      intros order.
      apply bind_kept.
      { intros w.
        apply store_kept_same.
        rewrite account_or_fetch_world.
        reflexivity. }
      intros acct.
      apply bind_kept.
      { intros w.
        apply store_kept_same.
        rewrite positions_or_fetch_world.
        reflexivity. }
      intros ps.
      apply bind_kept.
      { intros w.
        apply store_kept_same.
        reflexivity. }
      intros _ w.
      apply store_kept_same.
      reflexivity. }
    intros [order | e] w; [| apply store_kept_same; reflexivity].
    revert w.
    apply bindS_kept; [apply save_kept |].
    intros _ w.
    revert w.
    apply bindS_kept; [apply _submit_order_kept |].
    intros result w.
    revert w.
    destruct (OrderResult.success result).
    + apply bindS_kept; [apply datetime_now_kept |].
      intros now1 w.
      revert w.
      apply bindS_kept; [apply datetime_now_kept |].
      intros now2 w.
      revert w.
      destruct (dot_value _ _) as [value' | e];
        [| intros w; apply store_kept_same; reflexivity].
      apply bindS_kept; [intros w; apply log_kept |].
      intros _ w.
      revert w.
      apply bindS_kept; [apply save_kept |].
      intros _ w.
      apply store_kept_same.
      reflexivity.
    + apply bindS_kept; [apply datetime_now_kept |].
      intros now1 w.
      revert w.
      apply bindS_kept; [intros w; apply log_kept |].
      intros _ w.
      revert w.
      apply bindS_kept; [apply save_kept |].
      intros _ w.
      apply store_kept_same.
      reflexivity.
  - intros order.
    revert w.
    unfold OrderExecutor.submit_order.
    apply bindS_kept; [apply save_kept |].
    intros _ w.
    revert w.
    apply bindS_kept; [apply _submit_order_kept |].
    intros result w.
    revert w.
    destruct (OrderResult.success result).
    + apply bindS_kept; [apply datetime_now_kept |].
      intros now1 w.
      revert w.
      apply bindS_kept; [apply save_kept |].
      intros _ w.
      apply store_kept_same.
      reflexivity.
    + apply bindS_kept; [apply datetime_now_kept |].
      intros now1 w.
      apply store_kept_same.
      reflexivity.
  - intros oid.
    revert w.
    unfold OrderExecutor.cancel_order.
    apply bindS_kept.
    { intros w.
      apply store_kept_same.
      reflexivity. }
    intros [order |] w; [| apply store_kept_same; reflexivity].
    revert w.
    destruct (Order.is_completed order);
      [intros w; apply store_kept_same; reflexivity |].
    destruct (negb (str_truthy (Order.broker_order_id order))).
    + apply bindS_kept; [apply datetime_now_kept |].
      intros now1 w.
      revert w.
      apply bindS_kept; [apply save_kept |].
      intros _ w.
      apply store_kept_same.
      reflexivity.
    + intros w.
      destruct (Broker.cancel_order _ (World.broker w)) as [[[|] | e] b];
        try (apply store_kept_same; reflexivity).
      match goal with
      | |- store_kept _ (snd (_ ?w0)) =>
          apply store_kept_trans with w0;
            [apply store_kept_same; reflexivity |]
      end.
      match goal with
      | |- store_kept ?w0 _ => generalize w0
      end.
      apply bindS_kept; [apply datetime_now_kept |].
      intros now1 w1.
      revert w1.
      apply bindS_kept; [apply save_kept |].
      intros _ w1.
      revert w1.
      apply bindS_kept; [intros w1; apply log_kept |].
      intros _ w1.
      apply store_kept_same.
      reflexivity.
  - intros oid.
    apply sync_order_status_kept.
  - revert w.
    unfold OrderExecutor.sync_all_active_orders.
    apply bindS_kept.
    + intros w.
      apply store_kept_same.
      reflexivity.
    + intros active w.
      apply sync_each_kept.
Qed.


Lemma replace_first_same_content (id : UUID) (f : Order.t -> Order.t)
    (rows : list Order.t) (row : Order.t) :
  OrderRepository.first_by_id id rows = Some row ->
  without_updated_at (f row) = without_updated_at row ->
  map without_updated_at (OrderRepository.replace_first id f rows)
  = map without_updated_at rows.
Proof.
  unfold OrderRepository.first_by_id.
  intros Hfind Hsame.
  induction rows as [| r rows IH]; cbn in *; [reflexivity |].
  destruct (Nat.eqb (Order.id r) id).
  - injection Hfind as ->.
    cbn.
    rewrite Hsame.
    reflexivity.
  - cbn.
    rewrite (IH Hfind).
    reflexivity.
Qed.

(** X16: saving the same order a second time changes nothing in the
    order table but the update time of its row. *)
Theorem save_twice_same_content (order : Order.t) (w : World.t B) :
  let w1 := snd (OrderRepository.save order w) in
  let w2 := snd (OrderRepository.save order w1) in
  map without_updated_at (World.orders w2)
  = map without_updated_at (World.orders w1).
Proof.
  intros w1 w2.
  assert (Hrow : exists row,
             OrderRepository.first_by_id (Order.id order) (World.orders w1)
             = Some row
             /\ forall now,
                 without_updated_at (OrderRepository.update_row order now row)
                 = without_updated_at row).
  { unfold w1, OrderRepository.save.
    destruct (OrderRepository.first_by_id (Order.id order) (World.orders w))
      as [existing |] eqn:E.
    - unfold World.set_orders, datetime_now.
      cbn [snd World.orders World.clock].
      exists (OrderRepository.update_row order (World.clock w) existing).
      split.
      + apply first_by_id_replace_same; [reflexivity | exact E].
      + intros now.
        unfold without_updated_at, OrderRepository.update_row.
        cbn.
        reflexivity.
    - unfold World.set_orders.
      cbn [snd World.orders].
      exists (OrderRepository._to_row order).
      split.
      + rewrite (first_by_id_app_none _ _ _ E).
        cbn [OrderRepository._to_row Order.id].
        rewrite Nat.eqb_refl.
        reflexivity.
      + intros now.
        unfold without_updated_at, OrderRepository.update_row,
          OrderRepository._to_row.
        cbn.
        reflexivity. }
  destruct Hrow as (row & Hrow & Hsame).
  unfold w2, OrderRepository.save.
  rewrite Hrow.
  unfold World.set_orders, datetime_now.
  cbn [snd World.orders World.clock].
  apply (replace_first_same_content _ _ _ row Hrow).
  apply Hsame.
Qed.

Lemma insert_desc_sorted (row : Order.t) (sorted : list Order.t) :
  Sorted Z.ge (map Order.created_at sorted) ->
  Sorted Z.ge (map Order.created_at (OrderRepository.insert_desc row sorted)).
Proof.
  induction sorted as [| x rest IH]; cbn; intros Hs.
  - repeat constructor.
  - destruct (Z.leb_spec (Order.created_at x) (Order.created_at row)) as [Hle | Hgt].
    + cbn.
      constructor; [exact Hs |].
      constructor.
      lia.
    + cbn.
      apply Sorted_inv in Hs.
      destruct Hs as [Hs Hhd].
      constructor; [exact (IH Hs) |].
      destruct rest as [| y rest]; cbn.
      * constructor.
        lia.
      * destruct (Order.created_at y <=? Order.created_at row); cbn.
        -- constructor.
           lia.
        -- apply HdRel_inv in Hhd.
           constructor.
           exact Hhd.
Qed.

Lemma order_by_created_desc_sorted (rows : list Order.t) :
  Sorted Z.ge (map Order.created_at (OrderRepository.order_by_created_desc rows)).
Proof.
  induction rows as [| row rows IH]; cbn.
  - constructor.
  - apply insert_desc_sorted.
    exact IH.
Qed.

Lemma map_created_at_to_model (rows : list Order.t) :
  map Order.created_at (map OrderRepository._to_model rows)
  = map Order.created_at rows.
Proof.
  rewrite map_map.
  reflexivity.
Qed.

(** X17: the status queries of the order store.  [get_by_status]
    returns the orders of the store that have the status, and every one
    of them; [get_active_orders] returns the orders that are SUBMITTED or
    PARTIAL_FILLED, and every one of them; both list the most recently
    created order first and leave the store as it is. *)
Theorem status_queries (w : World.t B) :
  (forall status : OrderStatus,
      let found := fst (OrderRepository.get_by_status status w) in
      (forall o, In o found
                 <-> exists row, In row (World.orders w)
                                 /\ Order.status row = status
                                 /\ o = OrderRepository._to_model row)
      /\ Sorted Z.ge (map Order.created_at found)
      /\ snd (OrderRepository.get_by_status status w) = w)
  /\ (let active := fst (OrderRepository.get_active_orders w) in
      (forall o, In o active
                 <-> exists row, In row (World.orders w)
                                 /\ (Order.status row = SUBMITTED
                                     \/ Order.status row = PARTIAL_FILLED)
                                 /\ o = OrderRepository._to_model row)
      /\ Sorted Z.ge (map Order.created_at active)
      /\ snd (OrderRepository.get_active_orders w) = w).
Proof.
  assert (Hin : forall (f : Order.t -> bool) (o : Order.t),
             In o (map OrderRepository._to_model
                     (OrderRepository.order_by_created_desc
                        (filter f (World.orders w))))
             <-> exists row, In row (World.orders w) /\ f row = true
                             /\ o = OrderRepository._to_model row).
  { intros f o.
    rewrite in_map_iff.
    split.
    - intros (row & Ho & Hrow).
      apply (Permutation_in _ (order_by_created_desc_perm _)) in Hrow.
      apply filter_In in Hrow.
      exists row.
      split; [tauto |].
      split; [tauto | symmetry; exact Ho].
    - intros (row & Hrow & Hf & Ho).
      exists row.
      split; [symmetry; exact Ho |].
      apply (Permutation_in _ (Permutation_sym (order_by_created_desc_perm _))).
      apply filter_In.
      tauto. }
  split.
  - intros status found.
    unfold found, OrderRepository.get_by_status.
    cbn [fst snd].
    split; [| split; [| reflexivity]].
    + intros o.
      rewrite Hin.
      split; intros (row & Hrow & Hst & Ho); exists row;
        (split; [exact Hrow |]); (split; [| exact Ho]).
      * destruct (Order.status row), status; try discriminate Hst; reflexivity.
      * rewrite Hst.
        destruct status; reflexivity.
    + rewrite map_created_at_to_model.
      apply order_by_created_desc_sorted.
  - intros active.
    unfold active, OrderRepository.get_active_orders.
    cbn [fst snd].
    split; [| split; [| reflexivity]].
    + intros o.
      rewrite Hin.
      unfold OrderRepository.is_active.
      split; intros (row & Hrow & Hst & Ho); exists row;
        (split; [exact Hrow |]); (split; [| exact Ho]).
      * destruct (Order.status row); try discriminate Hst; tauto.
      * destruct Hst as [-> | ->]; reflexivity.
    + rewrite map_created_at_to_model.
      apply order_by_created_desc_sorted.
Qed.

End StoreExtras.


(** Order 21 saved as a filled SELL of another symbol: the row keeps its
    symbol and takes the status. *)
Lemma save_existing_rewrites_six_columns_witness :
  exists row : Order.t,
    OrderRepository.first_by_id 21%nat
      (World.orders
         (snd (OrderRepository.save Cases.order21_rewritten
                 (Sample.world Sample.Accepting)))) = Some row
    /\ Order.symbol row = "000001.XSHE"
    /\ Order.status row = FILLED.
Proof.
  destruct (save_existing_rewrites_six_columns Cases.order21_rewritten
              Sample.order21 (Sample.world Sample.Accepting) eq_refl)
    as (row & Hrow & Hkept & Hnew & _).
  - unfold fits_integer_column.
    cbn.
    lia.
  - exists row.
    split; [exact Hrow |].
    injection Hkept as Hsym _ _ _ _ _ _.
    injection Hnew as Hst _ _ _.
    split; [exact Hsym | exact Hst].
Defined.

(** The ids of the sample store stay pairwise different through a
    reconciliation. *)
Lemma executor_keeps_store_witness :
  NoDup
    (order_ids
       (snd (OrderExecutor.sync_all_active_orders
               (Sample.world Sample.Accepting)))).
Proof.
  destruct (executor_keeps_store (Sample.world Sample.Accepting))
    as (_ & _ & _ & _ & [Hkey _]).
  apply Hkey.
  cbn.
  repeat (constructor; [cbn; intuition discriminate |]).
  constructor.
Defined.

(** The new order of 100 shares saved twice into the sample store. *)
Lemma save_twice_same_content_witness :
  map without_updated_at
    (World.orders
       (snd (OrderRepository.save Sample.new_order
               (snd (OrderRepository.save Sample.new_order
                       (Sample.world Sample.Accepting))))))
  = map without_updated_at
      (World.orders
         (snd (OrderRepository.save Sample.new_order
                 (Sample.world Sample.Accepting)))).
Proof.
  exact (save_twice_same_content Sample.new_order
           (Sample.world Sample.Accepting)).
Defined.

(** The filled order of the sample store is found by its status. *)
Lemma status_queries_witness :
  In (OrderRepository._to_model Sample.filled_order)
    (fst (OrderRepository.get_by_status FILLED
            (Sample.world Sample.Accepting))).
Proof.
  destruct (status_queries (Sample.world Sample.Accepting)) as [Hstatus _].
  destruct (Hstatus FILLED) as [Hin _].
  apply Hin.
  exists Sample.filled_order.
  split; [cbn; tauto |].
  split; reflexivity.
Defined.

(** ** The executor, further *)

Section ExecutorExtras.
Context {B : Type} `{Broker.t B}.

(** X19: a signal that holds the member of the enum in [direction], an
    order that passes the risk check and a broker that accepts it.
    [execute_signal] does not return the order: the order it has built
    holds the value of the enum in [direction], and the call raises
    [AttributeError] when it builds the audit line.  By then the broker
    has received the order once and [mark_executed] has linked the signal
    to it; the store holds the order as the first save wrote it, PENDING
    and without the id of the broker, and no audit log entry is
    written. *)
Theorem execute_signal_raises_after_acceptance (rm : RiskManager.t)
    (signal : TradingSignal.t) (account : option Account.t)
    (positions : option (list Position.t)) (w w1 : World.t B)
    (order : Order.t) (acct : Account.t) (ps : list Position.t)
    (result : OrderResult.t) (b' : B) :
  TradingSignal.direction_attr signal = AsMember ->
  OrderExecutor._create_order_from_signal signal w = (Ok order, w1) ->
  fst (OrderExecutor.account_or_fetch account w1) = Ok acct ->
  fst (OrderExecutor.positions_or_fetch positions w1) = Ok ps ->
  RiskCheckResult.passed (RiskManager.check_order rm order acct ps) = true ->
  Broker.submit_order order (World.broker w) = (Returns result, b') ->
  OrderResult.success result = true ->
  exists (now : Timestamp) (w' : World.t B) (row : Order.t),
    OrderExecutor.execute_signal rm signal account positions w
    = ((Raise (AttributeError no_attribute_value),
        TradingSignal.mark_executed (Order.id order) now signal), w')
    /\ OrderRepository.first_by_id (Order.id order) (World.orders w')
       = Some row
    /\ Order.status row = PENDING
    /\ Order.broker_order_id row = None
    /\ World.submissions w' = order :: World.submissions w
    /\ World.broker w' = b'
    /\ World.trade_logs w' = World.trade_logs w.
Proof.
  intros Hm Hc Ha Hp Hpass Hsub Hok.
  destruct (execute_signal_accepted_run rm signal account positions w w1
              order acct ps result b' Hm Hc Ha Hp Hpass Hsub Hok)
    as (now & w' & Hrun & Horders & Hsubs & Hbr & Hlogs).
  destruct (save_stored order w1) as (row & Hrow & _ & Hst & _ & Hbid & _).
  pose proof Hc as Hnew.
  unfold OrderExecutor._create_order_from_signal in Hnew.
  destruct (new_Order_built _ _ _ _ _ _ _ _ _ Hnew)
    as (_ & _ & _ & Hpending & _ & Hnone & _).
  exists now, w', row.
  rewrite Horders.
  split; [exact Hrun |].
  split; [exact Hrow |].
  split; [congruence |].
  split; [congruence |].
  repeat split; assumption.
Qed.

(** X20: [execute_signal] stops before the risk check, with nothing
    saved, nothing handed to the broker and nothing logged.  For a signal
    that holds the value of the enum in [direction], as the constructor
    of the model leaves it, the call raises [AttributeError] when it
    builds the log line at entry.  For a signal that holds the member,
    the call raises a validation error when the order cannot be built
    from the signal (a target quantity of zero or less, or a symbol of
    more than 20 characters), and the exception of the broker when the
    account or the positions have to be fetched and the broker raises. *)
Theorem execute_signal_stops_early (rm : RiskManager.t)
    (signal : TradingSignal.t) (account : option Account.t)
    (positions : option (list Position.t)) (w : World.t B) :
  let run := OrderExecutor.execute_signal rm signal account positions w in
  (TradingSignal.direction_attr signal = AsValue ->
   run = ((Raise (AttributeError no_attribute_value), signal), w))
  /\ (TradingSignal.direction_attr signal = AsMember ->
      (TradingSignal.target_quantity signal <= 0
       \/ (20 < str_len (TradingSignal.symbol signal))%nat ->
       fst run = (Raise ValidationError, signal)
       /\ same_books w (snd run))
      /\ (0 < TradingSignal.target_quantity signal ->
          (str_len (TradingSignal.symbol signal) <= 20)%nat ->
          forall e : string,
            (account = None
             /\ Broker.get_account (World.broker w) = Throws e)
            \/ (account <> None /\ positions = None
                /\ Broker.get_positions (World.broker w) = Throws e) ->
            fst run = (Raise (BrokerRaised e), signal)
            /\ same_books w (snd run))).
Proof.
  intros run.
  split.
  { intros Hv.
    exact (execute_signal_as_value rm signal account positions w Hv). }
  intros Hm.
  pose proof (create_order_fst signal w) as [Hinvalid Hvalid].
  pose proof (create_order_books signal w
                (snd (OrderExecutor._create_order_from_signal signal w))
                (fst (OrderExecutor._create_order_from_signal signal w))
                (surjective_pairing _)) as Hbooks.
  set (w1 := snd (OrderExecutor._create_order_from_signal signal w)) in *.
  split.
  - intros Hbad.
    assert (Hrun : run = ((Raise ValidationError, signal), w1)).
    { unfold run, OrderExecutor.execute_signal.
      rewrite Hm.
      cbn [dot_value].
      unfold bindS at 1.
      unfold bind at 1.
      rewrite bindS_eq; cbv beta.
      rewrite (Hinvalid (valid_fields_false _ _ Hbad)).
      reflexivity. }
    rewrite Hrun.
    split; [reflexivity | exact Hbooks].
  - intros Hq Hs e Hfetch.
    destruct (Hvalid (valid_fields_true _ _ Hq Hs)) as (order & Hok).
    assert (Hrun : run = ((Raise (BrokerRaised e), signal), w1)).
    { unfold run, OrderExecutor.execute_signal.
      rewrite Hm.
      cbn [dot_value].
      unfold bindS at 1.
      unfold bind at 1.
      rewrite bindS_eq; cbv beta.
      rewrite Hok.
      fold w1.
      destruct Hbooks as (_ & _ & Hb & _).
      destruct Hfetch as [[-> Hacc] | (Hsome & -> & Hpos)].
      - unfold bind at 1.
        rewrite bindS_eq; cbv beta.
        unfold OrderExecutor.account_or_fetch,
          OrderExecutor.broker_get_account.
        rewrite Hb, Hacc.
        reflexivity.
      - destruct account as [acct |]; [| contradiction].
        unfold bind at 1.
        rewrite bindS_eq; cbv beta.
        unfold OrderExecutor.account_or_fetch, ret, retS.
        cbn [fst snd].
        unfold bind at 1.
        rewrite bindS_eq; cbv beta.
        unfold OrderExecutor.positions_or_fetch,
          OrderExecutor.broker_get_positions.
        rewrite Hb, Hpos.
        reflexivity. }
    rewrite Hrun.
    split; [reflexivity | exact Hbooks].
Qed.

(** X21: an order that the broker accepts through [submit_order]: the
    call returns the order SUBMITTED with the broker's id, the store
    holds it so, the broker has received it once, and no audit log entry
    is written. *)
Theorem submit_order_accepted (order : Order.t) (w : World.t B)
    (result : OrderResult.t) (b' : B) :
  Broker.submit_order order (World.broker w) = (Returns result, b') ->
  OrderResult.success result = true ->
  exists (o : Order.t) (w' : World.t B) (row : Order.t),
    OrderExecutor.submit_order order w = ((Ok o, o), w')
    /\ Order.id o = Order.id order
    /\ Order.status o = SUBMITTED
    /\ Order.broker_order_id o = OrderResult.broker_order_id result
    /\ Order.error_message o = Order.error_message order
    /\ OrderRepository.first_by_id (Order.id order) (World.orders w')
       = Some row
    /\ Order.status row = SUBMITTED
    /\ Order.broker_order_id row = OrderResult.broker_order_id result
    /\ World.submissions w' = order :: World.submissions w
    /\ World.broker w' = b'
    /\ World.trade_logs w' = World.trade_logs w.
Proof.
  intros Hsub Hok.
  pose proof (save_rest order w) as (Hl2 & Hb2 & Hs2).
  rewrite <- Hb2 in Hsub.
  assert (Hrun :
            exists o w0,
              OrderExecutor.submit_order order w
              = ((Ok o, o), snd (OrderRepository.save o w0))
              /\ Order.id o = Order.id order
              /\ Order.status o = SUBMITTED
              /\ Order.broker_order_id o = OrderResult.broker_order_id result
              /\ Order.error_message o = Order.error_message order
              /\ World.submissions w0 = order :: World.submissions w
              /\ World.broker w0 = b'
              /\ World.trade_logs w0 = World.trade_logs w).
  { eexists _, _.
    split.
    - unfold OrderExecutor.submit_order.
      rewrite bindS_eq; cbv beta.
      rewrite bindS_eq; cbv beta.
      rewrite (_submit_order_eq _ _ _ _ Hsub).
      cbn [fst snd submit_result].
      rewrite Hok.
      rewrite bindS_eq; cbv beta.
      rewrite bindS_eq; cbv beta.
      unfold retS.
      reflexivity.
    - rewrite update_status_id, update_status_status,
        update_status_error_message.
      unfold datetime_now.
      cbn.
      rewrite Hs2, Hl2.
      repeat split. }
  destruct Hrun as (o & w0 & Hrun & Hid & Hst & Hbid & Hmsg & Hsubs & Hbr
                    & Hlogs).
  destruct (save_stored o w0) as (row & Hrow & _ & Hrst & _ & Hrbid & _).
  pose proof (save_rest o w0) as (Hl5 & Hb5 & Hs5).
  exists o, (snd (OrderRepository.save o w0)), row.
  rewrite Hid in Hrow.
  rewrite Hl5, Hb5, Hs5.
  repeat split; try assumption; congruence.
Qed.


Lemma log_eq (level : string) (message : Message)
    (context : list (string * ContextValue)) (w : World.t B) :
  snd (TradeLogRepository.log level message context w)
  = World.mk (World.orders w)
      (World.trade_logs w
       ++ [TradeLog.mk level message context (World.clock w)])%list
      (World.broker w) (World.submissions w) (World.clock w + 1)
      (World.next_uuid w).
Proof.
  reflexivity.
Qed.

Lemma cancel_order_found (oid : UUID) (w : World.t B) (row : Order.t) :
  OrderRepository.first_by_id oid (World.orders w) = Some row ->
  Order.is_completed row = false ->
  OrderExecutor.cancel_order oid w
  = let order := OrderRepository._to_model row in
    if negb (str_truthy (Order.broker_order_id row)) then
      (true,
       snd (OrderRepository.save
              (Order.update_status CANCELLED None (World.clock w) order)
              (snd (datetime_now w))))
    else
      let reply :=
        Broker.cancel_order (str_or (Order.broker_order_id row) "")
          (World.broker w) in
      let w0 :=
        World.mk (World.orders w) (World.trade_logs w) (snd reply)
          (World.submissions w) (World.clock w) (World.next_uuid w) in
      match fst reply with
      | Returns true =>
          (true,
           snd (TradeLogRepository.info
                  [Lit "订单已撤销: "; Lit (Order.symbol row)]
                  [("order_id", CUuid (Order.id row))]
                  (snd (OrderRepository.save
                          (Order.update_status CANCELLED None (World.clock w)
                             order)
                          (snd (datetime_now w0))))))
      | Returns false => (false, w0)
      | Throws _ => (false, w0)
      end.
Proof.
  intros Hrow Hopen.
  unfold OrderExecutor.cancel_order.
  rewrite bindS_eq; cbv beta.
  unfold OrderRepository.get_by_id.
  cbn [fst snd].
  rewrite Hrow.
  cbn [option_map].
  change (Order.is_completed (OrderRepository._to_model row))
    with (Order.is_completed row).
  rewrite Hopen.
  change (Order.broker_order_id (OrderRepository._to_model row))
    with (Order.broker_order_id row).
  cbv zeta.
  destruct (negb (str_truthy (Order.broker_order_id row))) eqn:Eb.
  - rewrite bindS_eq; cbv beta.
    rewrite bindS_eq; cbv beta.
    reflexivity.
  - assert (Hbid : match Order.broker_order_id row with
                   | Some b => b
                   | None => ""
                   end = str_or (Order.broker_order_id row) "").
    { apply negb_false_iff in Eb.
      unfold str_or.
      rewrite Eb.
      reflexivity. }
    rewrite Hbid.
    destruct (Broker.cancel_order (str_or (Order.broker_order_id row) "")
                (World.broker w)) as [[[|] | e] b]; cbn [fst snd];
      try reflexivity.
    rewrite bindS_eq; cbv beta.
    rewrite bindS_eq; cbv beta.
    rewrite bindS_eq; cbv beta.
    rewrite update_status_id.
    reflexivity.
Qed.

(** X22: [cancel_order] without the broker.  An unknown id and an order
    in a terminal status give [False] and change nothing.  An order that
    is not terminal and has no broker id is cancelled in the store alone:
    the answer is [True], the store holds the order as CANCELLED, and the
    broker and the audit log are left as they were. *)
Theorem cancel_order_without_broker (oid : UUID) (w : World.t B) :
  (OrderRepository.first_by_id oid (World.orders w) = None ->
   OrderExecutor.cancel_order oid w = (false, w))
  /\ (forall row : Order.t,
         OrderRepository.first_by_id oid (World.orders w) = Some row ->
         Order.is_completed row = true ->
         OrderExecutor.cancel_order oid w = (false, w))
  /\ (forall row : Order.t,
         OrderRepository.first_by_id oid (World.orders w) = Some row ->
         Order.is_completed row = false ->
         str_truthy (Order.broker_order_id row) = false ->
         exists (w' : World.t B) (row' : Order.t),
           OrderExecutor.cancel_order oid w = (true, w')
           /\ OrderRepository.first_by_id oid (World.orders w') = Some row'
           /\ Order.status row' = CANCELLED
           /\ World.broker w' = World.broker w
           /\ World.trade_logs w' = World.trade_logs w
           /\ World.submissions w' = World.submissions w).
Proof.
  split; [| split].
  - intros Hnone.
    unfold OrderExecutor.cancel_order.
    rewrite bindS_eq; cbv beta.
    unfold OrderRepository.get_by_id.
    cbn [fst snd].
    rewrite Hnone.
    reflexivity.
  - intros row Hrow Hdone.
    exact (cancel_order_completed oid w row Hrow Hdone).
  - intros row Hrow Hopen Hbid.
    rewrite (cancel_order_found oid w row Hrow Hopen).
    cbv zeta.
    rewrite Hbid.
    cbn [negb].
    set (cancelled := Order.update_status CANCELLED None (World.clock w)
                        (OrderRepository._to_model row)).
    destruct (save_stored cancelled (snd (datetime_now w)))
      as (row' & Hrow' & _ & Hst & _).
    pose proof (save_rest cancelled (snd (datetime_now w)))
      as (Hl & Hb & Hs).
    assert (Hid : Order.id cancelled = oid).
    { unfold cancelled.
      rewrite update_status_id.
      exact (first_by_id_id _ _ _ Hrow). }
    rewrite Hid in Hrow'.
    unfold cancelled in Hst.
    rewrite update_status_status in Hst.
    eexists _, row'.
    split; [reflexivity |].
    repeat split; assumption.
Qed.

(** X23: [cancel_order] for an order that is not terminal and has a
    broker id.  When the broker answers [True] the answer is [True], the
    store holds the order as CANCELLED and one INFO entry is added to the
    audit log.  When the broker answers [False] or raises, the answer is
    [False], nothing is raised, and the store and the audit log are left
    as they were. *)
Theorem cancel_order_through_broker (oid : UUID) (w : World.t B)
    (row : Order.t) (bid : string) (reply : BrokerReply bool) (b' : B) :
  OrderRepository.first_by_id oid (World.orders w) = Some row ->
  Order.is_completed row = false ->
  Order.broker_order_id row = Some bid ->
  bid <> "" ->
  Broker.cancel_order bid (World.broker w) = (reply, b') ->
  (reply = Returns true ->
   exists (w' : World.t B) (row' : Order.t) (entry : TradeLog.t),
     OrderExecutor.cancel_order oid w = (true, w')
     /\ OrderRepository.first_by_id oid (World.orders w') = Some row'
     /\ Order.status row' = CANCELLED
     /\ World.broker w' = b'
     /\ World.trade_logs w' = (World.trade_logs w ++ [entry])%list
     /\ TradeLog.level entry = "INFO")
  /\ (reply <> Returns true ->
      exists w' : World.t B,
        OrderExecutor.cancel_order oid w = (false, w')
        /\ World.orders w' = World.orders w
        /\ World.trade_logs w' = World.trade_logs w
        /\ World.broker w' = b').
Proof.
  intros Hrow Hopen Hbid Hne Hcancel.
  rewrite (cancel_order_found oid w row Hrow Hopen).
  cbv zeta.
  assert (Htruthy : str_truthy (Order.broker_order_id row) = true).
  { rewrite Hbid.
    cbn.
    apply negb_true_iff, String.eqb_neq.
    exact Hne. }
  unfold str_or.
  rewrite Htruthy, Hbid, Hcancel.
  cbn [negb fst snd].
  split.
  - intros ->.
    set (w0 := World.mk (World.orders w) (World.trade_logs w) b'
                 (World.submissions w) (World.clock w) (World.next_uuid w)).
    set (cancelled := Order.update_status CANCELLED None (World.clock w)
                        (OrderRepository._to_model row)).
    destruct (save_stored cancelled (snd (datetime_now w0)))
      as (row' & Hrow' & _ & Hst & _).
    pose proof (save_rest cancelled (snd (datetime_now w0)))
      as (Hl & Hb & Hs).
    assert (Hid : Order.id cancelled = oid).
    { unfold cancelled.
      rewrite update_status_id.
      exact (first_by_id_id _ _ _ Hrow). }
    rewrite Hid in Hrow'.
    unfold cancelled in Hst.
    rewrite update_status_status in Hst.
    eexists _, row', _.
    split; [reflexivity |].
    unfold TradeLogRepository.info.
    rewrite log_eq.
    cbn [World.orders World.broker World.trade_logs TradeLog.level].
    rewrite Hl, Hb.
    repeat split; assumption.
  - intros Hnot.
    eexists.
    split.
    + destruct reply as [[|] | e]; [contradiction | reflexivity | reflexivity].
    + repeat split.
Qed.


(** The store after one call of [sync_order_status] on an order it
    holds: the status and the filled quantity it holds for the order are
    those of the order handed back, and no other order is touched. *)
Lemma sync_order_status_stored (oid : UUID) (w : World.t B) (row : Order.t) :
  OrderRepository.first_by_id oid (World.orders w) = Some row ->
  exists (after row' : Order.t),
    fst (OrderExecutor.sync_order_status oid w) = Some after
    /\ Order.id after = oid
    /\ OrderRepository.first_by_id oid
         (World.orders (snd (OrderExecutor.sync_order_status oid w)))
       = Some row'
    /\ Order.status row' = Order.status after
    /\ Order.filled_quantity row' = Order.filled_quantity after
    /\ forall id' : UUID,
         id' <> oid ->
         OrderRepository.first_by_id id'
           (World.orders (snd (OrderExecutor.sync_order_status oid w)))
         = OrderRepository.first_by_id id' (World.orders w).
Proof.
  intros Hrow.
  pose proof (first_by_id_id _ _ _ Hrow) as Hid.
  rewrite (sync_order_status_eq oid w row Hrow).
  cbv zeta.
  set (before := OrderRepository._to_model row).
  assert (Hstale : exists after row' : Order.t,
             Some before = Some after
             /\ Order.id after = oid
             /\ OrderRepository.first_by_id oid (World.orders w) = Some row'
             /\ Order.status row' = Order.status after
             /\ Order.filled_quantity row' = Order.filled_quantity after
             /\ forall id' : UUID,
                  id' <> oid ->
                  OrderRepository.first_by_id id' (World.orders w)
                  = OrderRepository.first_by_id id' (World.orders w)).
  { exists before, row.
    repeat split; assumption. }
  destruct (Order.broker_order_id before) as [bid |]; [| exact Hstale].
  destruct (String.eqb bid ""); [exact Hstale |].
  destruct (Broker.query_order bid (World.broker w)) as [[snapshot |] | e];
    [| exact Hstale | exact Hstale].
  cbn [fst snd].
  set (fresh := refreshed snapshot (World.clock w) before).
  assert (Hfid : Order.id fresh = oid) by exact Hid.
  destruct (save_stored fresh (snd (datetime_now w)))
    as (row' & Hrow' & _ & Hst & Hfq & _).
  rewrite Hfid in Hrow'.
  exists fresh, row'.
  repeat split; try assumption.
  intros id' Hne.
  rewrite save_other; [reflexivity | congruence].
Qed.

Lemma sync_each_store (rows : list Order.t) :
  NoDup (map Order.id rows) ->
  forall (w : World.t B) (acc : list Order.t),
    (forall row, In row rows ->
                 OrderRepository.first_by_id (Order.id row) (World.orders w)
                 = Some row) ->
    let run :=
      OrderExecutor.sync_each (map OrderRepository._to_model rows) acc w in
    (forall id' : UUID,
        ~ In id' (map Order.id rows) ->
        OrderRepository.first_by_id id' (World.orders (snd run))
        = OrderRepository.first_by_id id' (World.orders w))
    /\ exists out : list Order.t,
         fst run = (acc ++ out)%list
         /\ Forall
              (fun o =>
                 exists row',
                   OrderRepository.first_by_id (Order.id o)
                     (World.orders (snd run)) = Some row'
                   /\ Order.status row' = Order.status o
                   /\ Order.filled_quantity row' = Order.filled_quantity o)
              out.
Proof.
  induction rows as [| row rows IH]; intros Hnd w acc Hstore run.
  - split; [reflexivity |].
    exists [].
    split; [symmetry; apply app_nil_r | constructor].
  - cbn [map] in Hnd.
    apply NoDup_cons_iff in Hnd.
    destruct Hnd as [Hnotin Hnd].
    destruct (sync_order_status_stored (Order.id row) w row
                (Hstore row (or_introl eq_refl)))
      as (after & row' & Hafter & Haid & Hrow' & Hst & Hfq & Hothers).
    unfold run.
    cbn [map OrderExecutor.sync_each].
    rewrite bindS_eq; cbv beta.
    change (Order.id (OrderRepository._to_model row)) with (Order.id row).
    rewrite Hafter.
    set (w1 := snd (OrderExecutor.sync_order_status (Order.id row) w)) in *.
    destruct (IH Hnd w1 (acc ++ [after])%list) as (Hrest & out & Hlist & Hall).
    { intros r Hin.
      rewrite Hothers.
      - apply Hstore.
        right.
        exact Hin.
      - intros Heq.
        apply Hnotin.
        rewrite <- Heq.
        apply in_map.
        exact Hin. }
    split.
    + intros id' Hnot.
      rewrite Hrest.
      * apply Hothers.
        intros Heq.
        apply Hnot.
        left.
        symmetry.
        exact Heq.
      * intros Hin.
        apply Hnot.
        right.
        exact Hin.
    + exists (after :: out).
      rewrite Hlist, <- app_assoc.
      split; [reflexivity |].
      constructor; [| exact Hall].
      exists row'.
      rewrite Haid, (Hrest _ Hnotin).
      repeat split; assumption.
Qed.

(** X25: the store after [sync_all_active_orders], for an order table
    with pairwise different ids: for every order returned the store holds
    the status and the filled quantity of the returned order, and every
    order that was not active is held exactly as before. *)
Theorem sync_all_store (w : World.t B) :
  NoDup (map Order.id (World.orders w)) ->
  let run := OrderExecutor.sync_all_active_orders w in
  Forall
    (fun o =>
       exists row',
         OrderRepository.first_by_id (Order.id o) (World.orders (snd run))
         = Some row'
         /\ Order.status row' = Order.status o
         /\ Order.filled_quantity row' = Order.filled_quantity o)
    (fst run)
  /\ forall row : Order.t,
       In row (World.orders w) ->
       OrderRepository.is_active row = false ->
       OrderRepository.first_by_id (Order.id row) (World.orders (snd run))
       = Some row.
Proof.
  intros Hnd run.
  set (rows := OrderRepository.order_by_created_desc
                 (filter OrderRepository.is_active (World.orders w))).
  assert (Hperm : Permutation rows
                    (filter OrderRepository.is_active (World.orders w)))
    by apply order_by_created_desc_perm.
  assert (Hrun : run
                 = OrderExecutor.sync_each
                     (map OrderRepository._to_model rows) [] w).
  { unfold run, OrderExecutor.sync_all_active_orders.
    rewrite bindS_eq.
    reflexivity. }
  destruct (sync_each_store rows) with (w := w) (acc := @nil Order.t)
    as (Hrest & out & Hout & Hall).
  - apply (Permutation_NoDup
             (Permutation_sym (Permutation_map Order.id Hperm))).
    apply NoDup_map_filter.
    exact Hnd.
  - intros row Hin.
    apply first_by_id_In; [exact Hnd |].
    apply (Permutation_in _ Hperm) in Hin.
    apply filter_In in Hin.
    tauto.
  - rewrite Hrun.
    split.
    + rewrite Hout.
      exact Hall.
    + intros row Hin Hidle.
      rewrite Hrest.
      * apply first_by_id_In; assumption.
      * intros Hid.
        apply in_map_iff in Hid.
        destruct Hid as (r & Hrid & Hr).
        apply (Permutation_in _ Hperm) in Hr.
        apply filter_In in Hr.
        destruct Hr as [Hr Hact].
        assert (r = row).
        { pose proof (first_by_id_In _ _ Hnd Hr) as H1.
          pose proof (first_by_id_In _ _ Hnd Hin) as H2.
          rewrite Hrid in H1.
          congruence. }
        subst r.
        congruence.
Qed.


Lemma save_stored_filled_price (order : Order.t) (w : World.t B)
    (row : Order.t) :
  OrderRepository.first_by_id (Order.id order)
    (World.orders (snd (OrderRepository.save order w))) = Some row ->
  Order.filled_price row = OrderRepository.column (Order.filled_price order).
Proof.
  unfold OrderRepository.save.
  destruct (OrderRepository.first_by_id (Order.id order) (World.orders w))
    as [existing |] eqn:E.
  - unfold World.set_orders, datetime_now.
    cbn [snd World.orders World.clock].
    rewrite (first_by_id_replace_same _ _ _ existing); [| reflexivity | exact E].
    intros [= <-].
    reflexivity.
  - unfold World.set_orders.
    cbn [snd World.orders].
    rewrite (first_by_id_app_none _ _ _ E).
    cbn [OrderRepository._to_row Order.id].
    rewrite Nat.eqb_refl.
    intros [= <-].
    reflexivity.
Qed.

(** X24: one call of [sync_order_status].  An unknown id gives [None].
    An order without a broker id, one the broker does not know and one
    for which the query raises come back as the store holds them, and
    nothing changes.  When the broker has a snapshot, its status, filled
    quantity and filled price replace those of the order handed back,
    whatever status the order had, a terminal one included; the store
    takes the status and the filled quantity as they are and the filled
    price as the [Numeric(12, 4)] column keeps it: the [float] of the
    price, and nothing for a price that is absent or zero. *)
Theorem sync_order_status_cases (oid : UUID) (w : World.t B) :
  (OrderRepository.first_by_id oid (World.orders w) = None ->
   OrderExecutor.sync_order_status oid w = (None, w))
  /\ (forall row : Order.t,
         OrderRepository.first_by_id oid (World.orders w) = Some row ->
         str_truthy (Order.broker_order_id row) = false
         \/ (exists e,
                Broker.query_order (str_or (Order.broker_order_id row) "")
                  (World.broker w) = Throws e)
         \/ Broker.query_order (str_or (Order.broker_order_id row) "")
              (World.broker w) = Returns None ->
         OrderExecutor.sync_order_status oid w
         = (Some (OrderRepository._to_model row), w))
  /\ (forall (row snapshot : Order.t),
         OrderRepository.first_by_id oid (World.orders w) = Some row ->
         str_truthy (Order.broker_order_id row) = true ->
         Broker.query_order (str_or (Order.broker_order_id row) "")
           (World.broker w) = Returns (Some snapshot) ->
         exists (w' : World.t B) (row' : Order.t),
           OrderExecutor.sync_order_status oid w
           = (Some (refreshed snapshot (World.clock w)
                      (OrderRepository._to_model row)), w')
           /\ OrderRepository.first_by_id oid (World.orders w') = Some row'
           /\ Order.status row' = Order.status snapshot
           /\ Order.filled_quantity row' = Order.filled_quantity snapshot
           /\ Order.filled_price row'
              = OrderRepository.column (Order.filled_price snapshot)
           /\ Order.filled_price (OrderRepository._to_model row')
              = OrderRepository.of_column
                  (OrderRepository.column (Order.filled_price snapshot))).
Proof.
  assert (Hbid : forall row : Order.t,
             Order.broker_order_id (OrderRepository._to_model row)
             = Order.broker_order_id row) by reflexivity.
  split; [| split].
  - intros Hnone.
    unfold OrderExecutor.sync_order_status.
    rewrite bindS_eq; cbv beta.
    unfold OrderRepository.get_by_id.
    cbn [fst snd].
    rewrite Hnone.
    reflexivity.
  - intros row Hrow Hquiet.
    rewrite (sync_order_status_eq oid w row Hrow).
    cbv zeta.
    rewrite Hbid.
    unfold str_or, str_truthy in Hquiet.
    destruct (Order.broker_order_id row) as [bid |]; [| reflexivity].
    destruct (String.eqb bid "") eqn:Eb; [reflexivity |].
    cbn [negb] in Hquiet.
    destruct Hquiet as [Hf | [(e & He) | Hn]].
    + discriminate Hf.
    + rewrite He.
      reflexivity.
    + rewrite Hn.
      reflexivity.
  - intros row snapshot Hrow Htruthy Hquery.
    rewrite (sync_order_status_eq oid w row Hrow).
    cbv zeta.
    rewrite Hbid.
    unfold str_or, str_truthy in Htruthy, Hquery.
    destruct (Order.broker_order_id row) as [bid |]; [| discriminate Htruthy].
    destruct (String.eqb bid "") eqn:Eb; [discriminate Htruthy |].
    cbn [negb] in Hquery.
    rewrite Hquery.
    set (fresh := refreshed snapshot (World.clock w)
                    (OrderRepository._to_model row)).
    destruct (save_stored fresh (snd (datetime_now w)))
      as (row' & Hrow' & _ & Hst & Hfq & _).
    pose proof (save_stored_filled_price fresh (snd (datetime_now w)) row'
                  Hrow') as Hfp.
    assert (Hfid : Order.id fresh = oid)
      by exact (first_by_id_id _ _ _ Hrow).
    rewrite Hfid in Hrow'.
    eexists _, row'.
    split; [reflexivity |].
    split; [exact Hrow' |].
    split; [exact Hst |].
    split; [exact Hfq |].
    split; [exact Hfp |].
    cbn [OrderRepository._to_model Order.filled_price].
    rewrite Hfp.
    reflexivity.
Qed.

End ExecutorExtras.

(** The market signal, with the member of the enum in [direction], and
    the accepting broker: the call raises, the broker has received the
    order, and the store holds it as PENDING. *)
Lemma execute_signal_raises_after_acceptance_witness :
  exists (s' : TradingSignal.t) (w' : World.t Sample.DemoBroker)
    (row : Order.t),
    OrderExecutor.execute_signal Sample.risk_manager
      (Sample.with_member Sample.market_signal) None None
      (Sample.world Sample.Accepting)
    = ((Raise (AttributeError no_attribute_value), s'), w')
    /\ TradingSignal.order_id s' = Some 50%nat
    /\ OrderRepository.first_by_id 50%nat (World.orders w') = Some row
    /\ Order.status row = PENDING
    /\ Sample.received (World.broker w') = 1%nat
    /\ World.trade_logs w' = [].
Proof.
  edestruct (execute_signal_raises_after_acceptance Sample.risk_manager
               (Sample.with_member Sample.market_signal) None None
               (Sample.world Sample.Accepting))
    as (now & w' & row & Hrun & Hrow & Hst & _ & _ & Hbr & Hlogs).
  - reflexivity.
  - vm_compute. reflexivity.
  - vm_compute. reflexivity.
  - vm_compute. reflexivity.
  - vm_compute. reflexivity.
  - vm_compute. reflexivity.
  - vm_compute. reflexivity.
  - eexists _, w', row.
    rewrite Hbr.
    split; [exact Hrun |].
    split; [reflexivity |].
    split; [exact Hrow |].
    split; [exact Hst |].
    split; [reflexivity | exact Hlogs].
Defined.

(** A signal for zero shares: as the constructor of the model builds it,
    the call raises at entry; with the member of the enum in
    [direction], it is refused when the order is built. *)
Lemma execute_signal_stops_early_witness :
  OrderExecutor.execute_signal Sample.risk_manager Cases.flat_signal
    None None (Sample.world Sample.Accepting)
  = ((Raise (AttributeError no_attribute_value), Cases.flat_signal),
     Sample.world Sample.Accepting)
  /\ fst (OrderExecutor.execute_signal Sample.risk_manager
            (Sample.with_member Cases.flat_signal) None None
            (Sample.world Sample.Accepting))
     = (Raise ValidationError, Sample.with_member Cases.flat_signal).
Proof.
  split.
  - destruct (execute_signal_stops_early Sample.risk_manager
                Cases.flat_signal None None (Sample.world Sample.Accepting))
      as [Hvalue _].
    exact (Hvalue eq_refl).
  - destruct (execute_signal_stops_early Sample.risk_manager
                (Sample.with_member Cases.flat_signal) None None
                (Sample.world Sample.Accepting)) as [_ Hmember].
    destruct (Hmember eq_refl) as [Hbad _].
    apply Hbad.
    left.
    cbn.
    lia.
Defined.

(** The new order of 100 shares with the accepting broker. *)
Lemma submit_order_accepted_witness :
  exists (o : Order.t) (w' : World.t Sample.DemoBroker) (row : Order.t),
    OrderExecutor.submit_order Sample.new_order
      (Sample.world Sample.Accepting)
    = ((Ok o, o), w')
    /\ Order.status o = SUBMITTED
    /\ OrderRepository.first_by_id 40%nat (World.orders w') = Some row
    /\ Order.status row = SUBMITTED
    /\ Order.broker_order_id row = Some "B100"
    /\ World.trade_logs w' = [].
Proof.
  edestruct (submit_order_accepted Sample.new_order
               (Sample.world Sample.Accepting))
    as (o & w' & row & Hrun & _ & Hst & _ & _ & Hrow & Hrst & Hrbid & _ & _
        & Hlogs).
  - vm_compute. reflexivity.
  - vm_compute. reflexivity.
  - exists o, w', row.
    split; [exact Hrun |].
    split; [exact Hst |].
    split; [exact Hrow |].
    split; [exact Hrst |].
    split; [exact Hrbid | exact Hlogs].
Defined.

(** The order that was never handed to a broker is cancelled in the
    store, and the broker is not called. *)
Lemma cancel_order_without_broker_witness :
  exists (w' : World.t Sample.DemoBroker) (row' : Order.t),
    OrderExecutor.cancel_order 40%nat Cases.draft_world = (true, w')
    /\ OrderRepository.first_by_id 40%nat (World.orders w') = Some row'
    /\ Order.status row' = CANCELLED
    /\ World.broker w' = World.broker Cases.draft_world.
Proof.
  destruct (cancel_order_without_broker 40%nat Cases.draft_world)
    as (_ & _ & Hdraft).
  destruct (Hdraft Sample.new_order) as (w' & row' & Hrun & Hrow & Hst & Hb
                                         & _).
  - vm_compute. reflexivity.
  - vm_compute. reflexivity.
  - vm_compute. reflexivity.
  - exists w', row'.
    split; [exact Hrun |].
    split; [exact Hrow |].
    split; [exact Hst | exact Hb].
Defined.

(** Order 21, known to the broker as "B1", is cancelled through it. *)
Lemma cancel_order_through_broker_witness :
  exists (w' : World.t Sample.DemoBroker) (row' : Order.t)
    (entry : TradeLog.t),
    OrderExecutor.cancel_order 21%nat (Sample.world Sample.Accepting)
    = (true, w')
    /\ OrderRepository.first_by_id 21%nat (World.orders w') = Some row'
    /\ Order.status row' = CANCELLED
    /\ World.trade_logs w' = [entry]
    /\ TradeLog.level entry = "INFO".
Proof.
  edestruct (cancel_order_through_broker 21%nat
               (Sample.world Sample.Accepting) Sample.order21 "B1")
    as [Hdone _].
  - vm_compute. reflexivity.
  - vm_compute. reflexivity.
  - vm_compute. reflexivity.
  - discriminate.
  - vm_compute. reflexivity.
  - destruct (Hdone eq_refl)
      as (w' & row' & entry & Hrun & Hrow & Hst & _ & Hlogs & Hlevel).
    exists w', row', entry.
    split; [exact Hrun |].
    split; [exact Hrow |].
    split; [exact Hst |].
    split; [exact Hlogs | exact Hlevel].
Defined.

(** Order 21 is SUBMITTED in the store and FILLED at the broker: after
    the call the store holds it as FILLED with 1000 shares filled. *)
Lemma sync_order_status_cases_witness :
  exists (w' : World.t Sample.DemoBroker) (row' : Order.t),
    snd (OrderExecutor.sync_order_status 21%nat
           (Sample.world Sample.Accepting)) = w'
    /\ OrderRepository.first_by_id 21%nat (World.orders w') = Some row'
    /\ Order.status row' = FILLED
    /\ Order.filled_quantity row' = 1000
    /\ Order.filled_price (OrderRepository._to_model row')
       = Some 10.5000%Q.
Proof.
  destruct (sync_order_status_cases 21%nat (Sample.world Sample.Accepting))
    as (_ & _ & Hfresh).
  destruct (Hfresh Sample.order21 Sample.snapshot)
    as (w' & row' & Hrun & Hrow & Hst & Hfq & _ & Hfp).
  - vm_compute. reflexivity.
  - vm_compute. reflexivity.
  - vm_compute. reflexivity.
  - exists w', row'.
    rewrite Hrun.
    split; [reflexivity |].
    split; [exact Hrow |].
    split; [exact Hst |].
    split; [exact Hfq | exact Hfp].
Defined.

(** After a reconciliation of the sample store the filled order is held
    as before. *)
Lemma sync_all_store_witness :
  OrderRepository.first_by_id 1%nat
    (World.orders
       (snd (OrderExecutor.sync_all_active_orders
               (Sample.world Sample.Accepting))))
  = Some Sample.filled_order.
Proof.
  destruct (sync_all_store (Sample.world Sample.Accepting)) as [_ Hidle].
  - cbn.
    repeat (constructor; [cbn; intuition discriminate |]).
    constructor.
  - apply (Hidle Sample.filled_order).
    + cbn.
      tauto.
    + reflexivity.
Defined.

(** ** The signal store *)

Lemma signal_first_replace_same (id : UUID)
    (f : TradingSignal.t -> TradingSignal.t) (rows : SignalRepository.table)
    (row : TradingSignal.t) :
  TradingSignal.id (f row) = TradingSignal.id row ->
  SignalRepository.first_by_id id rows = Some row ->
  SignalRepository.first_by_id id (SignalRepository.replace_first id f rows)
  = Some (f row).
Proof.
  intros Hf.
  unfold SignalRepository.first_by_id.
  induction rows as [| r rows IH]; cbn; [discriminate |].
  destruct (Nat.eqb (TradingSignal.id r) id) eqn:E.
  - intros [= ->].
    cbn.
    rewrite Hf, E.
    reflexivity.
  - intros Hfind.
    cbn.
    rewrite E.
    auto.
Qed.

Lemma signal_first_replace_other (id id' : UUID)
    (f : TradingSignal.t -> TradingSignal.t) (rows : SignalRepository.table) :
  (forall r, TradingSignal.id r = id -> TradingSignal.id (f r) = id) ->
  id' <> id ->
  SignalRepository.first_by_id id' (SignalRepository.replace_first id f rows)
  = SignalRepository.first_by_id id' rows.
Proof.
  intros Hf Hne.
  unfold SignalRepository.first_by_id.
  induction rows as [| r rows IH]; cbn; [reflexivity |].
  destruct (Nat.eqb_spec (TradingSignal.id r) id) as [E | E].
  - cbn.
    rewrite (Hf r E).
    destruct (Nat.eqb_spec id id'); [congruence |].
    destruct (Nat.eqb_spec (TradingSignal.id r) id'); [congruence |].
    reflexivity.
  - cbn.
    rewrite IH.
    reflexivity.
Qed.

Lemma signal_first_app (id : UUID) (rows : SignalRepository.table)
    (row : TradingSignal.t) :
  SignalRepository.first_by_id id (rows ++ [row])%list
  = match SignalRepository.first_by_id id rows with
    | Some found => Some found
    | None => if Nat.eqb (TradingSignal.id row) id then Some row else None
    end.
Proof.
  unfold SignalRepository.first_by_id.
  induction rows as [| r rows IH]; cbn; [reflexivity |].
  destruct (Nat.eqb (TradingSignal.id r) id); [reflexivity | exact IH].
Qed.

Lemma merge_same (row : TradingSignal.t) (rows : SignalRepository.table) :
  SignalRepository.first_by_id (TradingSignal.id row)
    (SignalRepository.merge row rows) = Some row.
Proof.
  unfold SignalRepository.merge.
  destruct (SignalRepository.first_by_id (TradingSignal.id row) rows)
    as [found |] eqn:E.
  - pose proof E as Hid.
    apply find_some in Hid.
    destruct Hid as [_ Hid].
    apply Nat.eqb_eq in Hid.
    rewrite (signal_first_replace_same _ (fun _ => row) _ found);
      [reflexivity | symmetry; exact Hid | exact E].
  - rewrite signal_first_app, E, Nat.eqb_refl.
    reflexivity.
Qed.

Lemma merge_other (row : TradingSignal.t) (rows : SignalRepository.table)
    (id' : UUID) :
  id' <> TradingSignal.id row ->
  SignalRepository.first_by_id id' (SignalRepository.merge row rows)
  = SignalRepository.first_by_id id' rows.
Proof.
  intros Hne.
  unfold SignalRepository.merge.
  destruct (SignalRepository.first_by_id (TradingSignal.id row) rows).
  - apply signal_first_replace_other; [trivial | exact Hne].
  - rewrite signal_first_app.
    destruct (SignalRepository.first_by_id id' rows); [reflexivity |].
    destruct (Nat.eqb_spec (TradingSignal.id row) id'); [congruence |].
    reflexivity.
Qed.

Lemma save_batch_other (signals : list TradingSignal.t)
    (rows : SignalRepository.table) (id' : UUID) :
  ~ In id' (map TradingSignal.id signals) ->
  SignalRepository.first_by_id id' (SignalRepository.save_batch signals rows)
  = SignalRepository.first_by_id id' rows.
Proof.
  unfold SignalRepository.save_batch.
  revert rows.
  induction signals as [| s signals IH]; intros rows Hnot; cbn [fold_left];
    [reflexivity |].
  rewrite IH.
  - apply merge_other.
    cbn [SignalRepository._to_row TradingSignal.id].
    intros Heq.
    apply Hnot.
    left.
    symmetry.
    exact Heq.
  - intros Hin.
    apply Hnot.
    right.
    exact Hin.
Qed.

Lemma save_batch_stored (signals : list TradingSignal.t)
    (rows : SignalRepository.table) (signal : TradingSignal.t) :
  NoDup (map TradingSignal.id signals) ->
  In signal signals ->
  SignalRepository.first_by_id (TradingSignal.id signal)
    (SignalRepository.save_batch signals rows)
  = Some (SignalRepository._to_row signal).
Proof.
  revert rows.
  induction signals as [| s signals IH]; intros rows Hnd Hin;
    [contradiction |].
  cbn [map] in Hnd.
  apply NoDup_cons_iff in Hnd.
  destruct Hnd as [Hnotin Hnd].
  destruct Hin as [-> | Hin].
  - unfold SignalRepository.save_batch.
    cbn [fold_left].
    fold (SignalRepository.save_batch signals
            (SignalRepository.merge (SignalRepository._to_row signal) rows)).
    rewrite save_batch_other by exact Hnotin.
    change (TradingSignal.id signal)
      with (TradingSignal.id (SignalRepository._to_row signal)).
    apply merge_same.
  - exact (IH _ Hnd Hin).
Qed.


Lemma replace_first_self (id : UUID) (rows : SignalRepository.table)
    (row : TradingSignal.t) :
  SignalRepository.first_by_id id rows = Some row ->
  SignalRepository.replace_first id (fun _ => row) rows = rows.
Proof.
  unfold SignalRepository.first_by_id.
  induction rows as [| r rows IH]; cbn; [reflexivity |].
  destruct (Nat.eqb (TradingSignal.id r) id).
  - intros [= ->].
    reflexivity.
  - intros Hfind.
    rewrite (IH Hfind).
    reflexivity.
Qed.

(** X27: saving a batch with pairwise different ids a second time leaves
    the signal table exactly as the first save left it: no row is added
    and none is changed. *)
Theorem save_batch_twice (signals : list TradingSignal.t)
    (rows : SignalRepository.table) :
  NoDup (map TradingSignal.id signals) ->
  SignalRepository.save_batch signals
    (SignalRepository.save_batch signals rows)
  = SignalRepository.save_batch signals rows.
Proof.
  intros Hnd.
  set (saved := SignalRepository.save_batch signals rows).
  assert (Hstored : forall signal,
             In signal signals ->
             SignalRepository.first_by_id (TradingSignal.id signal) saved
             = Some (SignalRepository._to_row signal)).
  { intros signal Hin.
    exact (save_batch_stored signals rows signal Hnd Hin). }
  clearbody saved.
  clear Hnd.
  unfold SignalRepository.save_batch.
  induction signals as [| s signals IH]; cbn [fold_left]; [reflexivity |].
  assert (Hm : SignalRepository.merge (SignalRepository._to_row s) saved
               = saved).
  { unfold SignalRepository.merge.
    change (TradingSignal.id (SignalRepository._to_row s))
      with (TradingSignal.id s).
    rewrite (Hstored s (or_introl eq_refl)).
    apply replace_first_self.
    apply Hstored.
    left.
    reflexivity. }
  rewrite Hm.
  apply IH.
  intros signal Hin.
  apply Hstored.
  right.
  exact Hin.
Qed.

Lemma signal_insert_desc_perm (row : TradingSignal.t)
    (sorted : SignalRepository.table) :
  Permutation (SignalRepository.insert_desc row sorted) (row :: sorted).
Proof.
  induction sorted as [| x rest IH]; cbn.
  - apply Permutation_refl.
  - destruct (TradingSignal.created_at x <=? TradingSignal.created_at row).
    + apply Permutation_refl.
    + apply Permutation_trans with (x :: row :: rest).
      * apply perm_skip.
        exact IH.
      * apply perm_swap.
Qed.

Lemma signal_order_by_perm (rows : SignalRepository.table) :
  Permutation (SignalRepository.order_by_created_desc rows) rows.
Proof.
  induction rows as [| row rows IH]; cbn.
  - apply Permutation_refl.
  - apply Permutation_trans
      with (row :: SignalRepository.order_by_created_desc rows).
    + apply signal_insert_desc_perm.
    + apply perm_skip.
      exact IH.
Qed.

Lemma get_pending_signals_In (rows : SignalRepository.table)
    (s : TradingSignal.t) :
  In s (SignalRepository.get_pending_signals rows)
  <-> exists row, In row rows /\ TradingSignal.executed row = false
                  /\ s = SignalRepository._to_model row.
Proof.
  unfold SignalRepository.get_pending_signals.
  rewrite in_map_iff.
  split.
  - intros (row & Hs & Hin).
    apply (Permutation_in _ (signal_order_by_perm _)) in Hin.
    apply filter_In in Hin.
    destruct Hin as [Hin Hex].
    apply negb_true_iff in Hex.
    exists row.
    repeat split; [exact Hin | exact Hex | symmetry; exact Hs].
  - intros (row & Hin & Hex & Hs).
    exists row.
    split; [symmetry; exact Hs |].
    apply (Permutation_in _ (Permutation_sym (signal_order_by_perm _))).
    apply filter_In.
    split; [exact Hin |].
    apply negb_true_iff.
    exact Hex.
Qed.

Lemma replace_first_In_id (id : UUID)
    (f : TradingSignal.t -> TradingSignal.t) (rows : SignalRepository.table)
    (r : TradingSignal.t) :
  NoDup (map TradingSignal.id rows) ->
  (forall x, TradingSignal.id (f x) = TradingSignal.id x) ->
  In r (SignalRepository.replace_first id f rows) ->
  TradingSignal.id r = id ->
  exists r0, In r0 rows /\ r = f r0.
Proof.
  intros Hnd Hf.
  induction rows as [| row rows IH]; cbn; [contradiction |].
  cbn [map] in Hnd.
  apply NoDup_cons_iff in Hnd.
  destruct Hnd as [Hnotin Hnd].
  destruct (Nat.eqb_spec (TradingSignal.id row) id) as [E | E].
  - intros [<- | Hin] Hid.
    + exists row.
      split; [left |]; reflexivity.
    + exfalso.
      apply Hnotin.
      rewrite E, <- Hid.
      apply in_map.
      exact Hin.
  - intros [<- | Hin] Hid.
    + contradiction.
    + destruct (IH Hnd Hin Hid) as (r0 & Hr0 & Heq).
      exists r0.
      split; [right; exact Hr0 | exact Heq].
Qed.

Lemma replace_first_In_other (id : UUID)
    (f : TradingSignal.t -> TradingSignal.t) (rows : SignalRepository.table)
    (r : TradingSignal.t) :
  In r rows ->
  TradingSignal.id r <> id ->
  In r (SignalRepository.replace_first id f rows).
Proof.
  intros Hin Hid.
  induction rows as [| row rows IH]; cbn; [contradiction |].
  destruct Hin as [-> | Hin].
  - destruct (Nat.eqb_spec (TradingSignal.id r) id) as [E | E];
      [contradiction | left; reflexivity].
  - destruct (Nat.eqb (TradingSignal.id row) id).
    + right.
      exact Hin.
    + right.
      apply IH.
      exact Hin.
Qed.

(** X28: the pending signals are signals of the store that are not
    executed.  Once a signal has been marked executed and saved
    ([mark_signal_executed]), no signal with its id is pending, in a
    table with pairwise different ids, and every other signal that was
    pending still is. *)
Theorem marked_signal_not_pending (rows : SignalRepository.table)
    (signal : TradingSignal.t) (oid : UUID) (now : Timestamp) :
  NoDup (map TradingSignal.id rows) ->
  let rows' :=
    SignalProcessor.mark_signal_executed
      (TradingSignal.mark_executed oid now signal) rows in
  (forall s, In s (SignalProcessor.get_pending_signals rows) ->
             TradingSignal.executed s = false)
  /\ (forall s, In s (SignalProcessor.get_pending_signals rows') ->
                TradingSignal.id s <> TradingSignal.id signal)
  /\ (forall s, In s (SignalProcessor.get_pending_signals rows) ->
                TradingSignal.id s <> TradingSignal.id signal ->
                In s (SignalProcessor.get_pending_signals rows')).
Proof.
  intros Hnd rows'.
  unfold rows', SignalProcessor.get_pending_signals,
    SignalProcessor.mark_signal_executed.
  split; [| split].
  - intros s Hs.
    apply get_pending_signals_In in Hs.
    destruct Hs as (row & _ & Hex & ->).
    exact Hex.
  - intros s Hs Hid.
    apply get_pending_signals_In in Hs.
    destruct Hs as (row & Hin & Hex & ->).
    change (TradingSignal.id (SignalRepository._to_model row))
      with (TradingSignal.id row) in Hid.
    unfold SignalRepository.save in Hin.
    cbn [TradingSignal.mark_executed TradingSignal.id] in Hin.
    destruct (SignalRepository.first_by_id (TradingSignal.id signal) rows)
      as [found |] eqn:E.
    + apply replace_first_In_id in Hin; [| exact Hnd | reflexivity | exact Hid].
      destruct Hin as (r0 & _ & ->).
      discriminate Hex.
    + apply in_app_or in Hin.
      destruct Hin as [Hin | [<- | []]].
      * apply (find_none _ _ E) in Hin.
        rewrite Hid, Nat.eqb_refl in Hin.
        discriminate Hin.
      * discriminate Hex.
  - intros s Hs Hid.
    apply get_pending_signals_In in Hs.
    destruct Hs as (row & Hin & Hex & ->).
    change (TradingSignal.id (SignalRepository._to_model row))
      with (TradingSignal.id row) in Hid.
    apply get_pending_signals_In.
    exists row.
    split; [| split; [exact Hex | reflexivity]].
    unfold SignalRepository.save.
    cbn [TradingSignal.mark_executed TradingSignal.id].
    destruct (SignalRepository.first_by_id (TradingSignal.id signal) rows).
    + apply replace_first_In_other; assumption.
    + apply in_or_app.
      left.
      exact Hin.
Qed.


(** The same batch saved twice over a table that holds the executed
    signal. *)
Lemma save_batch_twice_witness :
  SignalRepository.save_batch [Sample.market_signal; Sample.large_signal]
    (SignalRepository.save_batch
       [Sample.market_signal; Sample.large_signal] [Sample.executed_signal])
  = SignalRepository.save_batch [Sample.market_signal; Sample.large_signal]
      [Sample.executed_signal].
Proof.
  apply (save_batch_twice [Sample.market_signal; Sample.large_signal]
           [Sample.executed_signal]).
  cbn.
  repeat (constructor; [cbn; intuition discriminate |]).
  constructor.
Defined.

(** Of two pending signals the one marked executed leaves the pending
    list and the other stays on it. *)
Lemma marked_signal_not_pending_witness :
  In (SignalRepository._to_model Sample.large_signal)
    (SignalProcessor.get_pending_signals
       (SignalProcessor.mark_signal_executed
          (TradingSignal.mark_executed 50%nat 100 Sample.market_signal)
          [Sample.market_signal; Sample.large_signal])).
Proof.
  destruct (marked_signal_not_pending
              [Sample.market_signal; Sample.large_signal]
              Sample.market_signal 50%nat 100) as (_ & _ & Hstay).
  - cbn.
    repeat (constructor; [cbn; intuition discriminate |]).
    constructor.
  - apply Hstay.
    + cbn.
      tauto.
    + discriminate.
Defined.

(** ** The executor over the simulated miniQMT broker *)

Section QuietBroker.
Context {B : Type} `{Broker.t B}.

(** With a broker whose query yields no snapshot, [sync_order_status] is
    a lookup in the store. *)
Lemma sync_order_status_quiet (oid : UUID) (w : World.t B) :
  (forall (bid : string) (snapshot : Order.t),
      Broker.query_order bid (World.broker w) <> Returns (Some snapshot)) ->
  OrderExecutor.sync_order_status oid w = OrderRepository.get_by_id oid w.
Proof.
  intros Hquiet.
  destruct (OrderRepository.first_by_id oid (World.orders w)) as [row |] eqn:E.
  - rewrite (sync_order_status_eq oid w row E).
    unfold OrderRepository.get_by_id.
    rewrite E.
    cbv zeta.
    cbn [option_map].
    destruct (Order.broker_order_id (OrderRepository._to_model row))
      as [bid |]; [| reflexivity].
    destruct (String.eqb bid ""); [reflexivity |].
    pose proof (Hquiet bid) as Hbid.
    destruct (Broker.query_order bid (World.broker w)) as [[snapshot |] | e];
      [| reflexivity | reflexivity].
    exfalso.
    exact (Hbid snapshot eq_refl).
  - unfold OrderExecutor.sync_order_status.
    rewrite bindS_eq; cbv beta.
    unfold OrderRepository.get_by_id.
    cbn [fst snd].
    rewrite E.
    reflexivity.
Qed.

Lemma sync_each_quiet (w : World.t B) :
  (forall (bid : string) (snapshot : Order.t),
      Broker.query_order bid (World.broker w) <> Returns (Some snapshot)) ->
  forall active acc : list Order.t,
    snd (OrderExecutor.sync_each active acc w) = w
    /\ ((forall o, In o active ->
                   fst (OrderRepository.get_by_id (Order.id o) w) = Some o) ->
        fst (OrderExecutor.sync_each active acc w) = (acc ++ active)%list).
Proof.
  intros Hquiet active.
  induction active as [| o rest IH]; intros acc.
  - cbn.
    rewrite app_nil_r.
    split; reflexivity.
  - cbn [OrderExecutor.sync_each].
    rewrite bindS_eq; cbv beta.
    rewrite (sync_order_status_quiet (Order.id o) w Hquiet).
    assert (Hw : snd (OrderRepository.get_by_id (Order.id o) w) = w)
      by reflexivity.
    rewrite Hw.
    split.
    + destruct (fst (OrderRepository.get_by_id (Order.id o) w)); apply IH.
    + intros Hall.
      rewrite (Hall o (or_introl eq_refl)).
      destruct (IH (acc ++ [o])%list) as [_ Hrest].
      rewrite Hrest.
      * rewrite <- app_assoc.
        reflexivity.
      * intros o' Hin.
        apply Hall.
        right.
        exact Hin.
Qed.

Lemma sync_all_quiet (w : World.t B) :
  (forall (bid : string) (snapshot : Order.t),
      Broker.query_order bid (World.broker w) <> Returns (Some snapshot)) ->
  snd (OrderExecutor.sync_all_active_orders w) = w
  /\ (NoDup (order_ids w) ->
      fst (OrderExecutor.sync_all_active_orders w)
      = fst (OrderRepository.get_active_orders w)).
Proof.
  intros Hquiet.
  set (rows := OrderRepository.order_by_created_desc
                 (filter OrderRepository.is_active (World.orders w))).
  assert (Hrun : OrderExecutor.sync_all_active_orders w
                 = OrderExecutor.sync_each
                     (map OrderRepository._to_model rows) [] w).
  { unfold OrderExecutor.sync_all_active_orders.
    rewrite bindS_eq.
    reflexivity. }
  rewrite Hrun.
  destruct (sync_each_quiet w Hquiet (map OrderRepository._to_model rows) [])
    as [Hw Hout].
  split; [exact Hw |].
  intros Hnd.
  rewrite Hout; [reflexivity |].
  intros o Hin.
  apply in_map_iff in Hin.
  destruct Hin as (row & <- & Hin).
  apply (Permutation_in _ (order_by_created_desc_perm _)) in Hin.
  apply filter_In in Hin.
  destruct Hin as [Hin _].
  unfold OrderRepository.get_by_id.
  cbn [fst].
  change (Order.id (OrderRepository._to_model row)) with (Order.id row).
  rewrite (first_by_id_In _ _ Hnd Hin).
  reflexivity.
Qed.

End QuietBroker.

(** X29: over the miniQMT adapter in simulation mode, connected or not,
    [sync_all_active_orders] changes nothing: the adapter's query yields
    no snapshot (it returns [None] when connected and raises when not,
    and the executor swallows the exception), so the world after the call
    is the world before it, and, over a table with pairwise different
    ids, the orders returned are the active orders as the store holds
    them. *)
Theorem simulated_sync_changes_nothing (w : World.t MiniQMTBroker.t) :
  snd (OrderExecutor.sync_all_active_orders w) = w
  /\ (NoDup (order_ids w) ->
      fst (OrderExecutor.sync_all_active_orders w)
      = fst (OrderRepository.get_active_orders w)).
Proof.
  apply sync_all_quiet.
  intros bid snapshot.
  cbn.
  unfold MiniQMTBroker.query_order.
  destruct (negb _); discriminate.
Qed.

(** X30: [cancel_order] over the miniQMT adapter in simulation mode, for
    a stored order that is not in a terminal status.  When the adapter is
    connected the call answers [True] and the store holds the order as
    CANCELLED, with or without a broker id.  When the adapter is not
    connected and the order has a broker id, the adapter raises, the
    executor answers [False] and the world is left as it was. *)
Theorem simulated_cancel_order (oid : UUID) (w : World.t MiniQMTBroker.t)
    (row : Order.t) :
  OrderRepository.first_by_id oid (World.orders w) = Some row ->
  Order.is_completed row = false ->
  (MiniQMTBroker.is_connected (World.broker w) = true ->
   exists (w' : World.t MiniQMTBroker.t) (row' : Order.t),
     OrderExecutor.cancel_order oid w = (true, w')
     /\ OrderRepository.first_by_id oid (World.orders w') = Some row'
     /\ Order.status row' = CANCELLED
     /\ World.broker w' = World.broker w)
  /\ (MiniQMTBroker.is_connected (World.broker w) = false ->
      str_truthy (Order.broker_order_id row) = true ->
      OrderExecutor.cancel_order oid w = (false, w)).
Proof.
  intros Hrow Hopen.
  rewrite (cancel_order_found oid w row Hrow Hopen).
  cbv zeta.
  cbn [Broker.cancel_order MiniQMTBroker.broker].
  unfold MiniQMTBroker.cancel_order, MiniQMTBroker.is_connected.
  assert (Hsame : World.mk (World.orders w) (World.trade_logs w)
                    (World.broker w) (World.submissions w) (World.clock w)
                    (World.next_uuid w) = w)
    by (destruct w; reflexivity).
  split.
  - intros Hcon.
    rewrite Hcon.
    cbn [negb fst snd].
    rewrite Hsame.
    set (cancelled := Order.update_status CANCELLED None (World.clock w)
                        (OrderRepository._to_model row)).
    destruct (save_stored cancelled (snd (datetime_now w)))
      as (row' & Hrow' & _ & Hst & _).
    pose proof (save_rest cancelled (snd (datetime_now w)))
      as (Hl & Hb & Hs).
    assert (Hid : Order.id cancelled = oid).
    { unfold cancelled.
      rewrite update_status_id.
      exact (first_by_id_id _ _ _ Hrow). }
    rewrite Hid in Hrow'.
    unfold cancelled in Hst.
    rewrite update_status_status in Hst.
    destruct (negb (str_truthy (Order.broker_order_id row))).
    + eexists _, row'.
      split; [reflexivity |].
      repeat split; assumption.
    + eexists _, row'.
      split; [reflexivity |].
      unfold TradeLogRepository.info.
      rewrite log_eq.
      cbn [World.orders World.broker].
      repeat split; assumption.
  - intros Hcon Hbid.
    rewrite Hcon, Hbid.
    cbn [negb fst snd].
    rewrite Hsame.
    reflexivity.
Qed.

(** The sample store over the simulated broker is left as it is by a
    reconciliation. *)
Lemma simulated_sync_changes_nothing_witness :
  snd (OrderExecutor.sync_all_active_orders Cases.simulated_world)
  = Cases.simulated_world
  /\ map Order.id
       (fst (OrderExecutor.sync_all_active_orders Cases.simulated_world))
     = [21%nat; 22%nat; 23%nat].
Proof.
  destruct (simulated_sync_changes_nothing Cases.simulated_world)
    as [Hw Hout].
  split; [exact Hw |].
  rewrite Hout; [reflexivity |].
  cbn.
  repeat (constructor; [cbn; intuition discriminate |]).
  constructor.
Defined.

(** Order 21 is cancelled through the connected simulated broker. *)
Lemma simulated_cancel_order_witness :
  exists (w' : World.t MiniQMTBroker.t) (row' : Order.t),
    OrderExecutor.cancel_order 21%nat Cases.simulated_world = (true, w')
    /\ OrderRepository.first_by_id 21%nat (World.orders w') = Some row'
    /\ Order.status row' = CANCELLED.
Proof.
  destruct (simulated_cancel_order 21%nat Cases.simulated_world
              Sample.order21) as [Hcon _].
  - vm_compute. reflexivity.
  - vm_compute. reflexivity.
  - destruct (Hcon eq_refl) as (w' & row' & Hrun & Hrow & Hst & _).
    exists w', row'.
    split; [exact Hrun |].
    split; [exact Hrow | exact Hst].
Defined.
